(** * The Frostlogic administrative console: embedding and properties

    A shallow embedding of the three Streamlit scripts
    ([streamlit_app.py], [pages/01_Configuration.py],
    [pages/02_Upload_Files.py]): the scalar coercion of the configuration
    editor, the SQL text built by the procedure wrappers and the envelopes
    they return, the dual-mode JSON editor, and the page controllers'
    delete and save flows.

    Conventions of the embedding.
    - A Python [str] is a Rocq [string]; a character is a code point below
      256 (Latin-1).
    - A Python [dict] whose order is observable (it is printed by
      [json.dumps]) is an association list; [st.session_state] flags are a
      [gmap].
    - [try ... except] is an [option] or a sum; [st.rerun()] ends the pass
      with the session state reached so far. *)

From Stdlib Require Import ZArith String Ascii List Bool Lia.
From Stdlib Require Import Numbers.DecimalString.
From Stdlib Require Import DecimalPos.
From stdpp Require Import gmap strings.
Import ListNotations.

#[local] Set Warnings "-register-all".

Local Open Scope string_scope.
Local Open Scope bool_scope.

(* ===================================================================== *)
(** * Python strings *)
(* ===================================================================== *)

Module PyStr.

Definition code (c : ascii) : N := N_of_ascii c.

(** One character of [str.isdecimal]: the ten ASCII digits. *)
Definition is_decimal (c : ascii) : bool :=
  (48 <=? code c)%N && (code c <=? 57)%N.

(** One character of [str.isdigit]: below code point 256 these are the
    decimal digits and the superscripts U+00B2, U+00B3 and U+00B9. *)
Definition is_digit (c : ascii) : bool :=
  is_decimal c || (code c =? 178)%N || (code c =? 179)%N || (code c =? 185)%N.

Fixpoint all_chars (p : ascii -> bool) (s : string) : bool :=
  match s with
  | EmptyString => true
  | String c t => p c && all_chars p t
  end.

Definition is_empty (s : string) : bool :=
  match s with EmptyString => true | _ => false end.

(** [s.isdigit()]: false on the empty string. *)
Definition isdigit (s : string) : bool :=
  negb (is_empty s) && all_chars is_digit s.

(** [s.startswith(c)] for a one-character prefix. *)
Definition startswith (c : ascii) (s : string) : bool :=
  match s with
  | String d _ => Ascii.eqb c d
  | EmptyString => false
  end.

(** [s[1:]] *)
Definition tail (s : string) : string :=
  match s with
  | String _ t => t
  | EmptyString => EmptyString
  end.

(** [c in s] for a one-character needle. *)
Fixpoint contains (c : ascii) (s : string) : bool :=
  match s with
  | EmptyString => false
  | String d t => Ascii.eqb c d || contains c t
  end.

(** [sub in s] for two texts; [s.index(sub)] finds [sub] when it holds
    and raises [ValueError] when it does not. *)
Fixpoint has_substring (sub s : string) : bool :=
  String.prefix sub s
  || match s with
     | EmptyString => false
     | String _ t => has_substring sub t
     end.

(** [s.replace(old, new)] for a one-character [old]. *)
Fixpoint replace (old : ascii) (new : string) (s : string) : string :=
  match s with
  | EmptyString => EmptyString
  | String d t =>
      if Ascii.eqb old d then String.append new (replace old new t)
      else String d (replace old new t)
  end.

(** [c.lower()] below code point 256: the ASCII capitals and the
    Latin-1 capitals U+00C0..U+00DE, the sign U+00D7 apart. *)
Definition lower_char (c : ascii) : ascii :=
  let n := code c in
  if ((65 <=? n)%N && (n <=? 90)%N)
     || ((192 <=? n)%N && (n <=? 222)%N && negb (n =? 215)%N)
  then ascii_of_N (n + 32) else c.

Fixpoint lower (s : string) : string :=
  match s with
  | EmptyString => EmptyString
  | String c t => String (lower_char c) (lower t)
  end.

(** Value of a run of decimal digits, most significant first. *)
Fixpoint digits_value (acc : Z) (s : string) : Z :=
  match s with
  | EmptyString => acc
  | String c t => digits_value (10 * acc + (Z.of_N (code c) - 48)) t
  end.

Definition is_decimal_run (s : string) : bool :=
  negb (is_empty s) && all_chars is_decimal s.

(** [sys.get_int_max_str_digits()] as the interpreter starts: [int]
    raises [ValueError] on more digits, the sign not counted. *)
Definition int_max_str_digits : N := 4300.

Definition within_str_digits (digits : string) : bool :=
  (N.of_nat (String.length digits) <=? int_max_str_digits)%N.

(** A run of decimal digits that [int] converts. *)
Definition int_digits (s : string) : bool :=
  is_decimal_run s && within_str_digits s.

(** [int(s)], [None] for [ValueError].  The argument reaches [int] only
    as a run of [isdigit] characters with an optional leading minus, so
    the blank-stripping and the underscores [int] also accepts cannot
    occur; a superscript digit is refused, as Python refuses it, and so
    is a run of more than [int_max_str_digits] digits. *)
Definition py_int (s : string) : option Z :=
  match s with
  | String "-" t =>
      if int_digits t then Some (- digits_value 0 t)%Z else None
  | String "+" t =>
      if int_digits t then Some (digits_value 0 t) else None
  | _ => if int_digits s then Some (digits_value 0 s) else None
  end.

(** The unsigned part of a float literal made of digits and points:
    digits, at most one point, at least one digit. *)
Fixpoint float_body (seen_point seen_digit : bool) (s : string) : bool :=
  match s with
  | EmptyString => seen_digit
  | String c t =>
      if is_decimal c then float_body seen_point true t
      else if Ascii.eqb c "." then
             if seen_point then false else float_body true seen_digit t
      else false
  end.

(** Whether [float(s)] succeeds, for an [s] made of [isdigit]
    characters, points and minus signs (all that reaches [float]): one
    optional leading sign, then [float_body].  Exponents, [inf], [nan]
    and blanks need characters that cannot occur. *)
Definition py_float_ok (s : string) : bool :=
  match s with
  | String "-" t => float_body false false t
  | String "+" t => float_body false false t
  | _ => float_body false false s
  end.

End PyStr.

(* ===================================================================== *)
(** * Python dictionaries in insertion order *)
(* ===================================================================== *)

Module PyDict.
Section Ops.
Context {V : Type}.

Definition t := list (string * V).

(** [d.get(k)] *)
Fixpoint get (k : string) (d : list (string * V)) : option V :=
  match d with
  | [] => None
  | (k', v) :: r => if String.eqb k k' then Some v else get k r
  end.

(** [k in d] *)
Definition mem (k : string) (d : list (string * V)) : bool :=
  match get k d with Some _ => true | None => false end.

(** [d[k] = v]: an existing key keeps its place, a new one goes last. *)
Fixpoint set (k : string) (v : V) (d : list (string * V)) : list (string * V) :=
  match d with
  | [] => [(k, v)]
  | (k', v') :: r =>
      if String.eqb k k' then (k', v) :: r else (k', v') :: set k v r
  end.

(** [del d[k]] on a key that is present. *)
Fixpoint remove (k : string) (d : list (string * V)) : list (string * V) :=
  match d with
  | [] => []
  | (k', v') :: r =>
      if String.eqb k k' then r else (k', v') :: remove k r
  end.

(** [d.pop(k)], [None] for [KeyError]. *)
Definition pop (k : string) (d : list (string * V)) : option (V * list (string * V)) :=
  match get k d with
  | Some v => Some (v, remove k d)
  | None => None
  end.

Definition keys (d : list (string * V)) : list string := map fst d.
End Ops.
End PyDict.

(* ===================================================================== *)
(** * JSON documents and [json.dumps] *)
(* ===================================================================== *)

(** A value of the configuration document.  A float is carried as the
    literal it was read from. *)
Inductive json : Type :=
| JNull
| JBool (b : bool)
| JInt (n : Z)
| JFloat (lit : string)
| JStr (s : string)
| JList (items : list json)
| JDict (fields : list (string * json)).

Module Json.

Definition nl : string := String (ascii_of_N 10) EmptyString.

Fixpoint spaces (n : nat) : string :=
  match n with
  | O => EmptyString
  | S m => String " " (spaces m)
  end.

Fixpoint join (sep : string) (l : list string) : string :=
  match l with
  | [] => EmptyString
  | [x] => x
  | x :: r => String.append x (String.append sep (join sep r))
  end.

(** [str(n)] for an [int]. *)
Definition int_to_string (n : Z) : string :=
  NilZero.string_of_int (Z.to_int n).

Definition hex_digit (n : N) : ascii :=
  if (n <? 10)%N then ascii_of_N (48 + n) else ascii_of_N (87 + n).

(** The [\u00XX] escape of a code point below 256. *)
Definition u_escape (c : ascii) : string :=
  let n := PyStr.code c in
  String "\" (String "u" (String "0" (String "0"
    (String (hex_digit (n / 16)) (String (hex_digit (n mod 16)) EmptyString))))).

(** One character of a string under [ensure_ascii=True]. *)
Definition escape_char (c : ascii) : string :=
  let n := PyStr.code c in
  if (n =? 34)%N then String "\" (String c EmptyString)
  else if (n =? 92)%N then String "\" (String "\" EmptyString)
  else if (n =? 10)%N then "\n"
  else if (n =? 13)%N then "\r"
  else if (n =? 9)%N then "\t"
  else if (n =? 8)%N then "\b"
  else if (n =? 12)%N then "\f"
  else if ((32 <=? n)%N && (n <=? 126)%N) then String c EmptyString
  else u_escape c.

Fixpoint escape (s : string) : string :=
  match s with
  | EmptyString => EmptyString
  | String c t => String.append (escape_char c) (escape t)
  end.

Definition quote : string := String (ascii_of_N 34) EmptyString.

Definition encode_string (s : string) : string :=
  String.append quote (String.append (escape s) quote).

(** Line break and indentation in front of an item at nesting [lvl];
    nothing without [indent]. *)
Definition newline_indent (ind : option nat) (lvl : nat) : string :=
  match ind with
  | None => EmptyString
  | Some n => String.append nl (spaces (n * lvl))
  end.

(** [', '] without [indent], [','] and a fresh line with it. *)
Definition item_separator (ind : option nat) (lvl : nat) : string :=
  match ind with
  | None => ", "
  | Some _ => String.append "," (newline_indent ind lvl)
  end.

(** [floatstr] of the encoder on the [repr] of a float: the three
    values that are no numbers are written as JavaScript names them. *)
Definition floatstr (float_repr_text : string) : string :=
  if String.eqb float_repr_text "nan" then "NaN"
  else if String.eqb float_repr_text "inf" then "Infinity"
  else if String.eqb float_repr_text "-inf" then "-Infinity"
  else float_repr_text.

Section Encoder.
(** [repr] of the float a literal denotes. *)
Variable float_repr : string -> string.

Fixpoint encode (ind : option nat) (lvl : nat) (j : json) {struct j} : string :=
  match j with
  | JNull => "null"
  | JBool true => "true"
  | JBool false => "false"
  | JInt n => int_to_string n
  | JFloat lit => floatstr (float_repr lit)
  | JStr s => encode_string s
  | JList [] => "[]"
  | JList items =>
      String.append "["
        (String.append (newline_indent ind (S lvl))
           (String.append
              (join (item_separator ind (S lvl))
                 (map (encode ind (S lvl)) items))
              (String.append (newline_indent ind lvl) "]")))
  | JDict [] => "{}"
  | JDict fields =>
      String.append "{"
        (String.append (newline_indent ind (S lvl))
           (String.append
              (join (item_separator ind (S lvl))
                 (map (fun kv =>
                         String.append (encode_string (fst kv))
                           (String.append ": " (encode ind (S lvl) (snd kv))))
                      fields))
              (String.append (newline_indent ind lvl) "}")))
  end.

(** [json.dumps(j)] *)
Definition dumps (j : json) : string := encode None 0 j.

(** [json.dumps(j, indent=2)] *)
Definition dumps_indent2 (j : json) : string := encode (Some 2) 0 j.
End Encoder.

(** The decimal digits a text starts with, and the rest. *)
Fixpoint span_digits (s : string) : string * string :=
  match s with
  | String c t =>
      if PyStr.is_decimal c
      then let (digits, rest) := span_digits t in (String c digits, rest)
      else (EmptyString, s)
  | EmptyString => (EmptyString, s)
  end.

(** A float literal as a whole number of units [10 ^ k], its sign left
    out: the digits of its mantissa as an integer, and [k].  [None] for
    a literal that is no decimal number ([nan], [inf]). *)
Definition float_parts (lit : string) : option (Z * Z) :=
  let body :=
    match lit with
    | String "-" t => t
    | String "+" t => t
    | _ => lit
    end in
  let (whole, r1) := span_digits body in
  let (fraction, r2) :=
    match r1 with
    | String "." t => span_digits t
    | _ => (EmptyString, r1)
    end in
  let mantissa := PyStr.digits_value 0 (whole ++ fraction) in
  let shift := Z.of_nat (String.length fraction) in
  if PyStr.is_empty whole && PyStr.is_empty fraction then None
  else
    match r2 with
    | EmptyString => Some (mantissa, (- shift)%Z)
    | String e t =>
        if Ascii.eqb e "e" || Ascii.eqb e "E" then
          let (negative, t') :=
            match t with
            | String "-" u => (true, u)
            | String "+" u => (false, u)
            | _ => (false, t)
            end in
          let (exponent, r3) := span_digits t' in
          if PyStr.is_empty exponent || negb (PyStr.is_empty r3) then None
          else
            let x := PyStr.digits_value 0 exponent in
            Some (mantissa, ((if negative then - x else x) - shift)%Z)
        else None
    end.

(** Whether a float literal denotes zero: its mantissa is zero, or its
    size is at most [2 ^ -1075], half the least float above zero, which
    [float] rounds to zero. *)
Definition float_is_zero (lit : string) : bool :=
  match float_parts lit with
  | None => false
  | Some (mantissa, k) =>
      (mantissa =? 0)%Z
      || ((k <? 0)%Z && (mantissa * 2 ^ 1075 <=? 10 ^ (- k))%Z)
  end.

(** Python truth value. *)
Definition truthy (j : json) : bool :=
  match j with
  | JNull => false
  | JBool b => b
  | JInt n => negb (n =? 0)%Z
  | JFloat lit => negb (float_is_zero lit)
  | JStr s => negb (PyStr.is_empty s)
  | JList l => match l with [] => false | _ => true end
  | JDict d => match d with [] => false | _ => true end
  end.

(** [d.get(k)] on a value expected to be a [dict]; [None] when [d] is
    not one ([AttributeError]), [Some JNull] when the key is absent. *)
Definition get_field (k : string) (d : json) : option json :=
  match d with
  | JDict fields =>
      Some (match PyDict.get k fields with Some v => v | None => JNull end)
  | _ => None
  end.

End Json.

(* ===================================================================== *)
(** * The scalar coercion of the editor *)
(* ===================================================================== *)

(** The first [try] block of [convert_string_to_appropriate_type]:
    [None] when the test fails or [int] raises. *)
Definition try_int (value : string) : option json :=
  if PyStr.isdigit value
     || (PyStr.startswith "-" value && PyStr.isdigit (PyStr.tail value))
  then option_map JInt (PyStr.py_int value)
  else None.

(** The second [try] block: [None] when the test fails or [float]
    raises. *)
Definition try_float (value : string) : option json :=
  if PyStr.contains "." value
     && PyStr.isdigit (PyStr.replace "-" "" (PyStr.replace "." "" value))
  then (if PyStr.py_float_ok value then Some (JFloat value) else None)
  else None.

Definition convert_string_to_appropriate_type (value : json) : json :=
  match value with
  | JStr s =>
      match try_int s with
      | Some n => n
      | None =>
          match try_float s with
          | Some x => x
          | None =>
              if String.eqb (PyStr.lower s) "true"
                 || String.eqb (PyStr.lower s) "false"
              then JBool (String.eqb (PyStr.lower s) "true")
              else value
          end
      end
  | _ => value
  end.

(** ** The coercion rule as the specification words it *)

Module CoercionSpec.

Fixpoint count_char (c : ascii) (s : string) : nat :=
  match s with
  | EmptyString => O
  | String d t => (if Ascii.eqb c d then 1 else 0) + count_char c t
  end.

Fixpoint has_char (p : ascii -> bool) (s : string) : bool :=
  match s with
  | EmptyString => false
  | String c t => p c || has_char p t
  end.


Definition signed_value (s : string) : Z :=
  match s with
  | String "-" t => (- PyStr.digits_value 0 t)%Z
  | String "+" t => PyStr.digits_value 0 t
  | _ => PyStr.digits_value 0 s
  end.




(** Decimal digits after one optional minus sign. *)
Definition minus_digits (s : string) : bool :=
  match s with
  | String "-" t => PyStr.is_decimal_run t
  | _ => PyStr.is_decimal_run s
  end.

Definition strip_minus (s : string) : string :=
  match s with
  | String "-" t => t
  | _ => s
  end.

(** What the code accepts as an integer: decimal digits after one
    optional minus sign, and no more digits than [int] converts. *)
Definition minus_int_digits (s : string) : bool :=
  minus_digits s && PyStr.within_str_digits (strip_minus s).

Definition digit_or_point (c : ascii) : bool :=
  PyStr.is_decimal c || Ascii.eqb c ".".

(** What the code accepts as a float: after one optional minus sign,
    decimal digits and exactly one point, with at least one digit. *)
Definition minus_point_number (s : string) : bool :=
  let u := strip_minus s in
  Nat.eqb (count_char "." u) 1
  && PyStr.all_chars digit_or_point u
  && has_char PyStr.is_decimal u.


End CoercionSpec.

(** The first character decides how [int], [float] and the rules read a
    string: a minus, a plus, or anything else. *)
Inductive head_view : string -> Type :=
| HeadEmpty : head_view EmptyString
| HeadMinus t : head_view (String "-" t)
| HeadPlus t : head_view (String "+" t)
| HeadOther c t :
    Ascii.eqb c "-" = false -> Ascii.eqb c "+" = false ->
    (forall (A : Type) (m p o : A),
        match c with
        | "-"%char => m
        | "+"%char => p
        | _ => o
        end = o) ->
    (forall (A : Type) (m o : A),
        match c with
        | "-"%char => m
        | _ => o
        end = o) ->
    head_view (String c t).

(** [isinstance(value, str)] *)
Definition is_str (v : json) : bool :=
  match v with JStr _ => true | _ => false end.

(* ===================================================================== *)
(** * Exceptions and the warehouse session *)
(* ===================================================================== *)

(** The outcome of a [try] body: a value, or an exception with its
    [str(e)]. *)
Inductive attempt (A : Type) : Type :=
| Ok (a : A)
| Raise (msg : string).
Arguments Ok {A} a.
Arguments Raise {A} msg.

Definition attempt_bind {A B : Type} (c : attempt A) (k : A -> attempt B) : attempt B :=
  match c with
  | Ok a => k a
  | Raise msg => Raise msg
  end.

Notation "'letE' x ':=' c 'in' k" := (attempt_bind c (fun x => k))
  (at level 10, x name, c at level 100, k at level 200, only parsing).

(** A result row; [row.as_dict()] is the same association. *)
Definition row : Type := list (string * json).

(** [self.session.sql(text).collect()]: what the warehouse answers to a
    statement, given the statements it has already received. *)
Definition session : Type := list string -> string -> attempt (list row).

(** The procedure calls of the three scripts, with their arguments.  An
    argument that the statement holds between quotes is the text written
    there.  The chunk settings of a creation are the integers of its two
    number boxes; those of the other calls are what the page holds, a
    column of a row or what a number box filled from one returns, and
    are written as [str] writes them. *)
Inductive call : Type :=
| GetAvailableModels
| FileTypeConfigsGet
| FileTypeConfigsCreate (file_type file_description : string)
    (chunk_size chunk_overlap : Z) (target_lag : string)
| FileTypeConfigsUpdate (file_type file_description : string)
    (chunk_size chunk_overlap : json) (target_lag : string)
| FileTypeConfigsDelete (file_type : string) (drop_data : bool)
| SetupFileProcessingPipeline (file_type : string)
    (chunk_size chunk_overlap : json) (target_lag : string)
| CheckPipelineStatus (file_type : string)
| ProcessFilesSync (file_type : string) (chunk_size chunk_overlap : json)
    (force_reprocess : bool)
| ProcessingConfigsGet
| ProcessingConfigsCreate (config_name processing_type config_model : string)
    (config_json : json)
| ProcessingConfigsUpdate (config_name processing_type config_model : string)
    (config_json : json)
| ProcessingConfigsDelete (config_name : string)
| ProcessingConfigsValidate (config_json : json)
| FilesGetByType (file_type : string)
| CompareFiles (procedure_name : string) (file_config config_json : json)
    (model_name : string).

(** The procedure a call names, which is also the column its answer is
    read from. *)
Definition procedure (c : call) : string :=
  match c with
  | GetAvailableModels => "GET_AVAILABLE_MODELS"
  | FileTypeConfigsGet => "FILE_TYPE_CONFIGS_GET"
  | FileTypeConfigsCreate _ _ _ _ _ => "FILE_TYPE_CONFIGS_CREATE"
  | FileTypeConfigsUpdate _ _ _ _ _ => "FILE_TYPE_CONFIGS_UPDATE"
  | FileTypeConfigsDelete _ _ => "FILE_TYPE_CONFIGS_DELETE"
  | SetupFileProcessingPipeline _ _ _ _ => "SETUP_FILE_PROCESSING_PIPELINE"
  | CheckPipelineStatus _ => "CHECK_PIPELINE_STATUS"
  | ProcessFilesSync _ _ _ _ => "PROCESS_FILES_SYNC"
  | ProcessingConfigsGet => "PROCESSING_CONFIGS_GET"
  | ProcessingConfigsCreate _ _ _ _ => "PROCESSING_CONFIGS_CREATE"
  | ProcessingConfigsUpdate _ _ _ _ => "PROCESSING_CONFIGS_UPDATE"
  | ProcessingConfigsDelete _ => "PROCESSING_CONFIGS_DELETE"
  | ProcessingConfigsValidate _ => "PROCESSING_CONFIGS_VALIDATE"
  | FilesGetByType _ => "FILES_GET_BY_TYPE"
  | CompareFiles procedure_name _ _ _ => procedure_name
  end.

(** A computation that sends calls: it extends the list of calls sent so
    far, oldest first. *)
Definition Gateway (A : Type) : Type := list call -> A * list call.

Definition gret {A : Type} (a : A) : Gateway A := fun sent => (a, sent).

Definition gbind {A B : Type} (c : Gateway A) (k : A -> Gateway B) : Gateway B :=
  fun sent => let (a, sent') := c sent in k a sent'.

Notation "'letG' x ':=' c 'in' k" := (gbind c (fun x => k))
  (at level 10, x name, c at level 100, k at level 200, only parsing).

(** The calls a computation sends when nothing was sent before. *)
Definition calls {A : Type} (c : Gateway A) : list call := snd (c []).

Definition outcome {A : Type} (c : Gateway A) : A := fst (c []).

(* ===================================================================== *)
(** * [str] and [repr] of a value *)
(* ===================================================================== *)

Module PyRepr.

Definition printable (c : ascii) : bool :=
  let n := PyStr.code c in
  ((32 <=? n)%N && (n <=? 126)%N)
  || ((161 <=? n)%N && negb (n =? 173)%N).

Definition x_escape (c : ascii) : string :=
  let n := PyStr.code c in
  String "\" (String "x"
    (String (Json.hex_digit (n / 16)) (String (Json.hex_digit (n mod 16)) EmptyString))).

Definition repr_char (q : ascii) (c : ascii) : string :=
  let n := PyStr.code c in
  if Ascii.eqb c q || (n =? 92)%N then String "\" (String c EmptyString)
  else if (n =? 10)%N then "\n"
  else if (n =? 13)%N then "\r"
  else if (n =? 9)%N then "\t"
  else if printable c then String c EmptyString
  else x_escape c.

Fixpoint repr_chars (q : ascii) (s : string) : string :=
  match s with
  | EmptyString => EmptyString
  | String c t => String.append (repr_char q c) (repr_chars q t)
  end.

Definition double_quote : ascii := ascii_of_N 34.

(** [repr(s)]: single quotes, unless [s] has a single quote and no
    double quote. *)
Definition repr_string (s : string) : string :=
  let q := if PyStr.contains "'" s && negb (PyStr.contains double_quote s)
           then double_quote else "'"%char in
  String q (String.append (repr_chars q s) (String q EmptyString)).

Section Repr.
Variable float_repr : string -> string.

Fixpoint repr (j : json) {struct j} : string :=
  match j with
  | JNull => "None"
  | JBool true => "True"
  | JBool false => "False"
  | JInt n => Json.int_to_string n
  | JFloat lit => float_repr lit
  | JStr s => repr_string s
  | JList items =>
      String.append "[" (String.append (Json.join ", " (map repr items)) "]")
  | JDict fields =>
      String.append "{"
        (String.append
           (Json.join ", "
              (map (fun kv =>
                      String.append (repr_string (fst kv))
                        (String.append ": " (repr (snd kv))))
                 fields))
           "}")
  end.

(** [str(j)], which is also how an f-string renders [j]. *)
Definition str (j : json) : string :=
  match j with
  | JStr s => s
  | _ => repr j
  end.
End Repr.

(** [str(b).lower()] *)
Definition bool_lower (b : bool) : string :=
  PyStr.lower (if b then "True" else "False").

(** [type(j).__name__] *)
Definition type_name (j : json) : string :=
  match j with
  | JNull => "NoneType"
  | JBool _ => "bool"
  | JInt _ => "int"
  | JFloat _ => "float"
  | JStr _ => "str"
  | JList _ => "list"
  | JDict _ => "dict"
  end.

(** The message of the [AttributeError] for [j.name]. *)
Definition no_attribute (j : json) (name : string) : string :=
  "'" ++ type_name j ++ "' object has no attribute '" ++ name ++ "'".

End PyRepr.

(* ===================================================================== *)
(** * The SQL text of each call *)
(* ===================================================================== *)

Module Sql.

(** [s.replace("'", "''")] *)
Definition double_quotes (s : string) : string := PyStr.replace "'" "''" s.

(** A value between single quotes, as the f-strings write it. *)
Definition quoted (s : string) : string := "'" ++ s ++ "'".

Definition nl : string := Json.nl.
Definition in12 : string := Json.spaces 12.
Definition in16 : string := Json.spaces 16.

(** The layout of the triple-quoted f-strings: the call opens on its own
    line, one argument per line, the closing parenthesis on its own. *)
Definition call_block (name : string) (args : list string) : string :=
  nl ++ in12 ++ "CALL " ++ name ++ "(" ++ nl
  ++ in16 ++ Json.join ("," ++ nl ++ in16) args ++ nl
  ++ in12 ++ ")" ++ nl ++ in12.

Definition file_type_configs_create (file_type file_description : string)
    (chunk_size chunk_overlap : Z) (target_lag : string) : string :=
  call_block "FILE_TYPE_CONFIGS_CREATE"
    [quoted file_type; quoted (double_quotes file_description);
     Json.int_to_string chunk_size; Json.int_to_string chunk_overlap;
     quoted target_lag].

Definition file_type_configs_delete (file_type : string) (drop_data : bool) : string :=
  "CALL FILE_TYPE_CONFIGS_DELETE(" ++ quoted file_type ++ ", "
  ++ PyRepr.bool_lower drop_data ++ ")".

Definition check_pipeline_status (file_type : string) : string :=
  "CALL CHECK_PIPELINE_STATUS(" ++ quoted file_type ++ ")".

Definition processing_configs_delete (config_name : string) : string :=
  "CALL PROCESSING_CONFIGS_DELETE(" ++ quoted config_name ++ ")".

Definition files_get_by_type (file_type : string) : string :=
  "CALL FILES_GET_BY_TYPE(" ++ quoted file_type ++ ")".

Section WithDumps.
Variable float_repr : string -> string.

(** [{chunk_size}] *)
Definition shown (v : json) : string := PyRepr.str float_repr v.

Definition file_type_configs_update (file_type file_description : string)
    (chunk_size chunk_overlap : json) (target_lag : string) : string :=
  call_block "FILE_TYPE_CONFIGS_UPDATE"
    [quoted file_type; quoted (double_quotes file_description);
     shown chunk_size; shown chunk_overlap; quoted target_lag].

Definition setup_file_processing_pipeline (file_type : string)
    (chunk_size chunk_overlap : json) (target_lag : string) : string :=
  call_block "SETUP_FILE_PROCESSING_PIPELINE"
    [quoted file_type; shown chunk_size; shown chunk_overlap; quoted target_lag].

Definition process_files_sync (file_type : string) (chunk_size chunk_overlap : json)
    (force_reprocess : bool) : string :=
  call_block "PROCESS_FILES_SYNC"
    [quoted file_type; shown chunk_size; shown chunk_overlap;
     PyRepr.bool_lower force_reprocess].

(** [json.dumps(config_json).replace("'", "''")] *)
Definition json_literal (j : json) : string :=
  double_quotes (Json.dumps float_repr j).

Definition processing_configs_create (config_name processing_type config_model : string)
    (config_json : json) : string :=
  call_block "PROCESSING_CONFIGS_CREATE"
    [quoted config_name; quoted processing_type;
     quoted (json_literal config_json); quoted config_model].

Definition processing_configs_update (config_name processing_type config_model : string)
    (config_json : json) : string :=
  call_block "PROCESSING_CONFIGS_UPDATE"
    [quoted config_name; quoted processing_type;
     quoted (json_literal config_json); quoted config_model].

Definition processing_configs_validate (config_json : json) : string :=
  "CALL PROCESSING_CONFIGS_VALIDATE(" ++ quoted (json_literal config_json) ++ ")".

Definition compare_files (procedure_name : string) (file_config config_json : json)
    (model_name : string) : string :=
  call_block procedure_name
    ["PARSE_JSON(" ++ quoted (json_literal file_config) ++ ")";
     "PARSE_JSON(" ++ quoted (json_literal config_json) ++ ")";
     quoted model_name].

(** The text sent for a call. *)
Definition statement (c : call) : string :=
  match c with
  | GetAvailableModels => "CALL GET_AVAILABLE_MODELS()"
  | FileTypeConfigsGet => "CALL FILE_TYPE_CONFIGS_GET()"
  | FileTypeConfigsCreate t d s o l => file_type_configs_create t d s o l
  | FileTypeConfigsUpdate t d s o l => file_type_configs_update t d s o l
  | FileTypeConfigsDelete t b => file_type_configs_delete t b
  | SetupFileProcessingPipeline t s o l => setup_file_processing_pipeline t s o l
  | CheckPipelineStatus t => check_pipeline_status t
  | ProcessFilesSync t s o f => process_files_sync t s o f
  | ProcessingConfigsGet => "CALL PROCESSING_CONFIGS_GET()"
  | ProcessingConfigsCreate n t m j => processing_configs_create n t m j
  | ProcessingConfigsUpdate n t m j => processing_configs_update n t m j
  | ProcessingConfigsDelete n => processing_configs_delete n
  | ProcessingConfigsValidate j => processing_configs_validate j
  | FilesGetByType t => files_get_by_type t
  | CompareFiles p f j m => compare_files p f j m
  end.
End WithDumps.

End Sql.

(* ===================================================================== *)
(** * A reference decoder *)
(* ===================================================================== *)

(** The properties below hold for whatever [json.loads] does; this
    decoder of the JSON grammar instantiates it where a concrete run is
    evaluated.  It reads objects, arrays, strings with their escapes,
    numbers, the three literals and the three names [NaN], [Infinity]
    and [-Infinity], keeps the last value of a repeated key, and refuses
    anything after the value and an integer of more digits than [int]
    converts.  Its messages carry no position, and an escaped code point
    above 255 is refused. *)
Module JsonDecode.

Definition is_blank (c : ascii) : bool :=
  let n := PyStr.code c in
  (n =? 32)%N || (n =? 9)%N || (n =? 10)%N || (n =? 13)%N.

Fixpoint skip_blanks (s : string) : string :=
  match s with
  | String c t => if is_blank c then skip_blanks t else s
  | EmptyString => s
  end.

Fixpoint take_digits (s : string) : string * string :=
  match s with
  | String c t =>
      if PyStr.is_decimal c
      then let (d, r) := take_digits t in (String c d, r)
      else (EmptyString, s)
  | EmptyString => (EmptyString, s)
  end.

(** The integer part of a number: a single zero, or digits that do not
    start with zero. *)
Definition take_integer (s : string) : option (string * string) :=
  match take_digits s with
  | (EmptyString, _) => None
  | (String "0" EmptyString, r) => Some ("0", r)
  | (String "0" _, _) => Some ("0", PyStr.tail s)
  | (d, r) => Some (d, r)
  end.

Definition take_fraction (s : string) : string * string :=
  match s with
  | String "." t =>
      match take_digits t with
      | (EmptyString, _) => (EmptyString, s)
      | (d, r) => (String "." d, r)
      end
  | _ => (EmptyString, s)
  end.

Definition take_exponent (s : string) : string * string :=
  match s with
  | String e t =>
      if Ascii.eqb e "e" || Ascii.eqb e "E" then
        let (sign, t') :=
          match t with
          | String g u =>
              if Ascii.eqb g "+" || Ascii.eqb g "-"
              then (String g EmptyString, u) else (EmptyString, t)
          | EmptyString => (EmptyString, t)
          end in
        match take_digits t' with
        | (EmptyString, _) => (EmptyString, s)
        | (d, r) => (String e (sign ++ d), r)
        end
      else (EmptyString, s)
  | EmptyString => (EmptyString, s)
  end.

Definition number (s : string) : option (json * string) :=
  let (minus, body) :=
    match s with
    | String "-" t => ("-", t)
    | _ => (EmptyString, s)
    end in
  match take_integer body with
  | None => None
  | Some (int_part, r1) =>
      let (frac, r2) := take_fraction r1 in
      let (expo, r3) := take_exponent r2 in
      if PyStr.is_empty frac && PyStr.is_empty expo
      then
        if PyStr.within_str_digits int_part
        then Some (JInt (if PyStr.is_empty minus
                         then PyStr.digits_value 0 int_part
                         else - PyStr.digits_value 0 int_part), r3)
        else None
      else Some (JFloat (minus ++ int_part ++ frac ++ expo), r3)
  end.

Definition hex_value (c : ascii) : option N :=
  let n := PyStr.code c in
  if (48 <=? n)%N && (n <=? 57)%N then Some (n - 48)%N
  else if (97 <=? n)%N && (n <=? 102)%N then Some (n - 87)%N
  else if (65 <=? n)%N && (n <=? 70)%N then Some (n - 55)%N
  else None.

Definition hex4 (a b c d : ascii) : option N :=
  match hex_value a, hex_value b, hex_value c, hex_value d with
  | Some x, Some y, Some z, Some w => Some (((x * 16 + y) * 16 + z) * 16 + w)%N
  | _, _, _, _ => None
  end.

(** The characters of a string up to its closing quote. *)
Fixpoint string_body (s : string) : option (string * string) :=
  match s with
  | EmptyString => None
  | String c t =>
      if Ascii.eqb c PyRepr.double_quote then Some (EmptyString, t)
      else if (PyStr.code c <? 32)%N then None
      else if Ascii.eqb c "\" then
        match t with
        | String e u =>
            let plain (x : ascii) :=
              match string_body u with
              | Some (b, r) => Some (String x b, r)
              | None => None
              end in
            if Ascii.eqb e PyRepr.double_quote then plain e
            else if Ascii.eqb e "\" then plain e
            else if Ascii.eqb e "/" then plain e
            else if Ascii.eqb e "b" then plain (ascii_of_N 8)
            else if Ascii.eqb e "f" then plain (ascii_of_N 12)
            else if Ascii.eqb e "n" then plain (ascii_of_N 10)
            else if Ascii.eqb e "r" then plain (ascii_of_N 13)
            else if Ascii.eqb e "t" then plain (ascii_of_N 9)
            else if Ascii.eqb e "u" then
              match u with
              | String h1 (String h2 (String h3 (String h4 v))) =>
                  match hex4 h1 h2 h3 h4 with
                  | Some n =>
                      if (n <? 256)%N then
                        match string_body v with
                        | Some (b, r) => Some (String (ascii_of_N n) b, r)
                        | None => None
                        end
                      else None
                  | None => None
                  end
              | _ => None
              end
            else None
        | EmptyString => None
        end
      else
        match string_body t with
        | Some (b, r) => Some (String c b, r)
        | None => None
        end
  end.

Definition literal (word : string) (v : json) (s : string) : option (json * string) :=
  if String.prefix word s
  then Some (v, String.substring (String.length word) (String.length s - String.length word) s)
  else None.

(** One value and what follows it; [fuel] bounds the nesting. *)
Fixpoint value (fuel : nat) (s : string) {struct fuel} : attempt (json * string) :=
  match fuel with
  | O => Raise "Expecting value"
  | S fuel' =>
      let items :=
        fix items (n : nat) (acc : list json) (s : string) {struct n} : attempt (json * string) :=
          match n with
          | O => Raise "Expecting value"
          | S n' =>
              letE vr := value fuel' (skip_blanks s) in
              let acc' := (acc ++ [fst vr])%list in
              match skip_blanks (snd vr) with
              | String "," r => items n' acc' r
              | String "]" r => Ok (JList acc', r)
              | _ => Raise "Expecting ',' delimiter"
              end
          end in
      let fields :=
        fix fields (n : nat) (acc : list (string * json)) (s : string) {struct n} : attempt (json * string) :=
          match n with
          | O => Raise "Expecting value"
          | S n' =>
              match skip_blanks s with
              | String q r0 =>
                  if Ascii.eqb q PyRepr.double_quote then
                    match string_body r0 with
                    | None => Raise "Unterminated string"
                    | Some (key, r1) =>
                        match skip_blanks r1 with
                        | String ":" r2 =>
                            letE vr := value fuel' (skip_blanks r2) in
                            let acc' := PyDict.set key (fst vr) acc in
                            match skip_blanks (snd vr) with
                            | String "," r => fields n' acc' r
                            | String "}" r => Ok (JDict acc', r)
                            | _ => Raise "Expecting ',' delimiter"
                            end
                        | _ => Raise "Expecting ':' delimiter"
                        end
                    end
                  else Raise "Expecting property name enclosed in double quotes"
              | EmptyString => Raise "Expecting property name enclosed in double quotes"
              end
          end in
      match s with
      | String "{" r =>
          match skip_blanks r with
          | String "}" r' => Ok (JDict [], r')
          | _ => fields (String.length s) [] r
          end
      | String "[" r =>
          match skip_blanks r with
          | String "]" r' => Ok (JList [], r')
          | _ => items (String.length s) [] r
          end
      | String c r =>
          if Ascii.eqb c PyRepr.double_quote then
            match string_body r with
            | Some (b, r') => Ok (JStr b, r')
            | None => Raise "Unterminated string"
            end
          else
            match literal "true" (JBool true) s with
            | Some vr => Ok vr
            | None =>
            match literal "false" (JBool false) s with
            | Some vr => Ok vr
            | None =>
            match literal "null" JNull s with
            | Some vr => Ok vr
            | None =>
            match literal "NaN" (JFloat "nan") s with
            | Some vr => Ok vr
            | None =>
            match literal "Infinity" (JFloat "inf") s with
            | Some vr => Ok vr
            | None =>
            match literal "-Infinity" (JFloat "-inf") s with
            | Some vr => Ok vr
            | None =>
            match number s with
            | Some vr => Ok vr
            | None => Raise "Expecting value"
            end end end end end end end
      | EmptyString => Raise "Expecting value"
      end
  end.

Definition loads (s : string) : attempt json :=
  letE vr := value (S (String.length s)) (skip_blanks s) in
  match skip_blanks (snd vr) with
  | EmptyString => Ok (fst vr)
  | _ => Raise "Extra data"
  end.

End JsonDecode.

(** The instances used where a run is evaluated.  The documents of those
    runs hold no float, so the [repr] of a float's literal is never
    printed. *)
Definition example_float_repr (lit : string) : string := lit.
Definition example_missing_column (name : string) : string := "'" ++ name ++ "'".

(* ===================================================================== *)
(** * The procedure wrappers *)
(* ===================================================================== *)

Section Console.

(** What the scripts take from their libraries: the [repr] of a float,
    [json.loads] (raising [JSONDecodeError] with a message), and the
    message of the exception a row raises for a column it does not have. *)
Variable float_repr : string -> string.
Variable json_loads : string -> attempt json.
Variable missing_column : string -> string.

(** What the session answers to a call, given the calls sent before: it
    sees their texts. *)
Definition answer (sess : session) (sent : list call) (c : call) : attempt (list row) :=
  sess (map (Sql.statement float_repr) sent) (Sql.statement float_repr c).

(** [self.session.sql(text).collect()] for the text of a call. *)
Definition collect (sess : session) (c : call) : Gateway (attempt (list row)) :=
  fun sent => (answer sess sent c, (sent ++ [c])%list).

(** [row[name]] *)
Definition row_item (name : string) (r : row) : attempt json :=
  match PyDict.get name r with
  | Some v => Ok v
  | None => Raise (missing_column name)
  end.

(** The lines every wrapper repeats inside its [try]:
    [if result: response = result[0][name]; if isinstance(response, str):
    response = json.loads(response); return response].  [Ok None] is the
    fall through of [if result]. *)
Definition first_response (name : string) (result : attempt (list row)) : attempt (option json) :=
  letE rows := result in
  match rows with
  | [] => Ok None
  | r :: _ =>
      letE response := row_item name r in
      match response with
      | JStr text => letE decoded := json_loads text in Ok (Some decoded)
      | _ => Ok (Some response)
      end
  end.

(** [{"success": False, "error": msg}] *)
Definition failure (msg : string) : json :=
  JDict [("success", JBool false); ("error", JStr msg)].

(** [{"error": msg}] *)
Definition error_only (msg : string) : json :=
  JDict [("error", JStr msg)].

(** [{"is_valid": False, "errors": [msg]}] *)
Definition invalid (msg : string) : json :=
  JDict [("is_valid", JBool false); ("errors", JList [JStr msg])].

(** A wrapper whose two failure returns are built by [fail]. *)
Definition wrapper (fail : string -> json) (sess : session) (c : call) : Gateway json :=
  letG result := collect sess c in
  gret (match first_response (procedure c) result with
        | Ok (Some response) => response
        | Ok None => fail "No response"
        | Raise msg => fail msg
        end).

(** ** [ConfigurationManager] *)

Definition create_file_type_config (sess : session) (file_type file_description : string)
    (chunk_size chunk_overlap : Z) (target_lag : string) : Gateway json :=
  wrapper failure sess
    (FileTypeConfigsCreate file_type file_description chunk_size chunk_overlap target_lag).

(** The description is what the text box of the edit form returns: a
    text, or [None] while a box that was given [None] is empty, and then
    [file_description.replace] raises before anything is sent. *)
Definition update_file_type_config (sess : session) (file_type : string)
    (file_description : json) (chunk_size chunk_overlap : json) (target_lag : string)
    : Gateway json :=
  match file_description with
  | JStr description =>
      wrapper failure sess
        (FileTypeConfigsUpdate file_type description chunk_size chunk_overlap target_lag)
  | _ => gret (failure (PyRepr.no_attribute file_description "replace"))
  end.

Definition delete_file_type_config (sess : session) (file_type : string) (drop_data : bool) : Gateway json :=
  wrapper failure sess (FileTypeConfigsDelete file_type drop_data).

Definition setup_file_processing_pipeline (sess : session) (file_type : string)
    (chunk_size chunk_overlap : json) (target_lag : string) : Gateway json :=
  wrapper failure sess
    (SetupFileProcessingPipeline file_type chunk_size chunk_overlap target_lag).

(** Also [FileUploadManager.check_pipeline_status], line for line. *)
Definition check_pipeline_status (sess : session) (file_type : string) : Gateway json :=
  wrapper error_only sess (CheckPipelineStatus file_type).

Definition sync_files (sess : session) (file_type : string)
    (chunk_size chunk_overlap : json) (force_reprocess : bool) : Gateway json :=
  wrapper failure sess (ProcessFilesSync file_type chunk_size chunk_overlap force_reprocess).

Definition create_processing_config (sess : session)
    (config_name processing_type config_model : string) (config_json : json) : Gateway json :=
  wrapper failure sess
    (ProcessingConfigsCreate config_name processing_type config_model config_json).

Definition update_processing_config (sess : session)
    (config_name processing_type config_model : string) (config_json : json) : Gateway json :=
  wrapper failure sess
    (ProcessingConfigsUpdate config_name processing_type config_model config_json).

Definition delete_processing_config (sess : session) (config_name : string) : Gateway json :=
  wrapper failure sess (ProcessingConfigsDelete config_name).

Definition validate_processing_config (sess : session) (config_json : json) : Gateway json :=
  wrapper invalid sess (ProcessingConfigsValidate config_json).

(** [get_file_type_configs]: the rows as dictionaries, [[]] on an
    exception. *)
Definition get_file_type_configs (sess : session) : Gateway (list row) :=
  letG result := collect sess FileTypeConfigsGet in
  gret (match result with
        | Ok rows => rows
        | Raise _ => []
        end).

(** One row of [get_processing_configs]: [CONFIG_JSON] is decoded when it
    is text. *)
Definition decode_config_json (config_data : row) : attempt row :=
  letE config_json := row_item "CONFIG_JSON" config_data in
  match config_json with
  | JStr text =>
      letE decoded := json_loads text in
      Ok (PyDict.set "CONFIG_JSON" decoded config_data)
  | _ => Ok config_data
  end.

Fixpoint decode_configs (rows : list row) : attempt (list row) :=
  match rows with
  | [] => Ok []
  | r :: rest =>
      letE config_data := decode_config_json r in
      letE configs := decode_configs rest in
      Ok (config_data :: configs)
  end.

(** [get_processing_configs], the same in [ConfigurationManager] and
    [FrostlogicApp]: [[]] on an exception. *)
Definition get_processing_configs (sess : session) : Gateway (list row) :=
  letG result := collect sess ProcessingConfigsGet in
  gret (match (letE rows := result in decode_configs rows) with
        | Ok configs => configs
        | Raise _ => []
        end).

(** The dictionary both [return] statements of
    [ConfigurationManager.get_available_models] build. *)
Definition configuration_fallback_models : json :=
  JDict [("supported_models", JList [JStr "claude-4-sonnet"]);
         ("default_model", JStr "claude-4-sonnet");
         ("recommended_models", JDict [("quality", JStr "claude-4-sonnet")])].

Definition configuration_get_available_models (sess : session) : Gateway json :=
  letG result := collect sess GetAvailableModels in
  gret (match first_response "GET_AVAILABLE_MODELS" result with
        | Ok (Some models_data) => models_data
        | Ok None => configuration_fallback_models
        | Raise _ => configuration_fallback_models
        end).

(** ** [FrostlogicApp] *)

(** Returned by [FrostlogicApp.get_available_models] when no row comes
    back. *)
Definition app_empty_models : json :=
  JDict [("supported_models", JList []);
         ("default_model", JStr "claude-4-sonnet");
         ("recommended_models", JDict [])].

(** Returned by [FrostlogicApp.get_available_models] on an exception. *)
Definition app_fallback_models : json :=
  JDict [("supported_models",
          JList [JStr "claude-4-sonnet"; JStr "claude-3-5-sonnet";
                 JStr "claude-3-7-sonnet"; JStr "llama3-8b";
                 JStr "mixtral-8x7b"; JStr "snowflake-llama-3.1-405b"]);
         ("default_model", JStr "claude-4-sonnet");
         ("recommended_models",
          JDict [("quality", JStr "claude-4-sonnet");
                 ("balanced", JStr "mixtral-8x7b");
                 ("speed", JStr "llama3-8b")])].

Definition app_get_available_models (sess : session) : Gateway json :=
  letG result := collect sess GetAvailableModels in
  gret (match first_response "GET_AVAILABLE_MODELS" result with
        | Ok (Some models_data) => models_data
        | Ok None => app_empty_models
        | Raise _ => app_fallback_models
        end).

(** [file_dict.get(key, '')] *)
Definition get_or_empty (key : string) (file_dict : row) : json :=
  match PyDict.get key file_dict with
  | Some v => v
  | None => JStr ""
  end.

(** The value stored under [STAGE_PATH]. *)
Definition stage_path (file_dict : row) : string :=
  let stage_name := get_or_empty "STAGE_NAME" file_dict in
  let full_path := get_or_empty "FULL_PATH" file_dict in
  if Json.truthy full_path
  then "@" ++ PyRepr.str float_repr stage_name ++ "/" ++ PyRepr.str float_repr full_path
  else "@" ++ PyRepr.str float_repr stage_name.

Definition with_stage_path (file_dict : row) : row :=
  PyDict.set "STAGE_PATH" (JStr (stage_path file_dict)) file_dict.

(** [FrostlogicApp.get_files_by_type]; also
    [FileUploadManager.get_processed_files_status], line for line. *)
Definition get_files_by_type (sess : session) (file_type : string) : Gateway (list row) :=
  letG result := collect sess (FilesGetByType file_type) in
  gret (match result with
        | Ok rows => map with_stage_path rows
        | Raise _ => []
        end).

(** [d[key]] on a dictionary, [KeyError] when absent. *)
Definition dict_item (key : string) (d : row) : attempt json :=
  match PyDict.get key d with
  | Some v => Ok v
  | None => Raise (PyRepr.repr_string key)
  end.

Definition is_text (s : string) (v : json) : bool :=
  match v with
  | JStr t => String.eqb t s
  | _ => false
  end.

(** The part of [process_documents] before the call: the call to send,
    or the dictionary returned for an unknown type. *)
Definition process_documents_plan (file_config : json) (processing_config : row)
    (model_name : string) : attempt (json + call) :=
  letE processing_type := dict_item "PROCESSING_TYPE" processing_config in
  letE config_json := dict_item "CONFIG_JSON" processing_config in
  if is_text "CORTEX_SEARCH" processing_type then
    Ok (inr (CompareFiles "COMPARE_FILES" file_config config_json model_name))
  else if is_text "AI_EXTRACT" processing_type then
    Ok (inr (CompareFiles "COMPARE_FILES_AISQL" file_config config_json model_name))
  else
    Ok (inl (error_only ("Unknown processing type: "
                         ++ PyRepr.str float_repr processing_type))).

Definition process_documents (sess : session) (file_config : json) (processing_config : row)
    (model_name : string) : Gateway json :=
  match process_documents_plan file_config processing_config model_name with
  | Raise msg => gret (error_only ("Processing failed: " ++ msg))
  | Ok (inl unknown) => gret unknown
  | Ok (inr c) =>
      letG result := collect sess c in
      gret (match first_response (procedure c) result with
            | Ok (Some response_data) => response_data
            | Ok None => error_only "No response from procedure"
            | Raise msg => error_only ("Processing failed: " ++ msg)
            end)
  end.

(** ** Reading an envelope *)

(** [result.get(key)] is true; [None] when [result] is not a dictionary
    and [.get] raises. *)
Definition reports (key : string) (result : json) : option bool :=
  option_map Json.truthy (Json.get_field key result).

(** ["error" in result] *)
Definition has_error (result : json) : bool :=
  match result with
  | JDict fields => PyDict.mem "error" fields
  | _ => false
  end.

(** The calls whose wrapper answers with a success or error envelope. *)
Definition answers_with_envelope (c : call) : bool :=
  match c with
  | FileTypeConfigsCreate _ _ _ _ _ | FileTypeConfigsUpdate _ _ _ _ _
  | FileTypeConfigsDelete _ _ | SetupFileProcessingPipeline _ _ _ _
  | CheckPipelineStatus _ | ProcessFilesSync _ _ _ _
  | ProcessingConfigsCreate _ _ _ _ | ProcessingConfigsUpdate _ _ _ _
  | ProcessingConfigsDelete _ => true
  | _ => false
  end.

(** The wrapper of such a call. *)
Definition run_envelope_call (sess : session) (c : call) : Gateway json :=
  match c with
  | FileTypeConfigsCreate t d s o l => create_file_type_config sess t d s o l
  | FileTypeConfigsUpdate t d s o l => update_file_type_config sess t (JStr d) s o l
  | FileTypeConfigsDelete t b => delete_file_type_config sess t b
  | SetupFileProcessingPipeline t s o l => setup_file_processing_pipeline sess t s o l
  | CheckPipelineStatus t => check_pipeline_status sess t
  | ProcessFilesSync t s o f => sync_files sess t s o f
  | ProcessingConfigsCreate n t m j => create_processing_config sess n t m j
  | ProcessingConfigsUpdate n t m j => update_processing_config sess n t m j
  | ProcessingConfigsDelete n => delete_processing_config sess n
  | _ => gret JNull
  end.

End Console.

(** Sessions that fail, or answer every statement the same way. *)
Definition raising (msg : string) : session := fun _ _ => Raise msg.
Definition answering (rows : list row) : session := fun _ _ => Ok rows.

(** ** The argument encoding of the specification *)

(** "strings are wrapped in quotes with literal quote characters
    doubled" *)
Definition encoded_string_argument (s : string) : string :=
  Sql.quoted (Sql.double_quotes s).

(** Reading a doubled-quote text back. *)
Fixpoint undouble_quotes (s : string) : string :=
  match s with
  | String "'" (String "'" t) => String "'" (undouble_quotes t)
  | String c t => String c (undouble_quotes t)
  | EmptyString => EmptyString
  end.

(** Whether every single quote of a text is followed by its double. *)
Fixpoint quotes_paired (s : string) : bool :=
  match s with
  | String "'" (String "'" t) => quotes_paired t
  | String "'" _ => false
  | String _ t => quotes_paired t
  | EmptyString => true
  end.

(** The record of the specification's example: [contract1.pdf] on
    [MSA_STAGE]. *)
Definition sample_file_record : row :=
  [("FILE_NAME", JStr "contract1.pdf");
   ("STAGE_NAME", JStr "MSA_STAGE");
   ("FULL_PATH", JStr "contract1.pdf")].

(** ** Shapes of what the wrappers return *)

(** A dictionary with ["error"] equal to [msg] and no true ["success"]. *)
Definition error_envelope (msg : string) (result : json) : Prop :=
  Json.get_field "error" result = Some (JStr msg)
  /\ reports "success" result = Some false.

(** [models_data.get("supported_models")] as a list. *)
Definition supported_models (models_data : json) : option (list json) :=
  match Json.get_field "supported_models" models_data with
  | Some (JList l) => Some l
  | _ => None
  end.

Definition default_model (models_data : json) : option json :=
  Json.get_field "default_model" models_data.

(** A one-row answer of the model procedure carrying [models_data]. *)
Definition models_answer (models_data : json) : list row :=
  [[("GET_AVAILABLE_MODELS", models_data)]].

(** A processing configuration as [get_processing_configs] returns it. *)
Definition sample_processing_config : row :=
  [("CONFIG_NAME", JStr "standard");
   ("PROCESSING_TYPE", JStr "AI_EXTRACT");
   ("CONFIG_MODEL", JStr "claude-4-sonnet");
   ("CONFIG_JSON", JDict [("search_limit", JInt 3)])].

(** One selected document, as [_render_document_selector] returns it. *)
Definition sample_file_config : json :=
  JList [JDict [("file_name", JStr "@MSA_STAGE/contract1.pdf");
                ("file_type", JStr "MSA")]].

(* ===================================================================== *)
(** * The configuration editor: [render_json_editor] *)
(* ===================================================================== *)

(** The two values [edit_mode_key] ever holds: ["UI Editor"] and
    ["JSON Editor"]. *)
Inductive mode : Type := UIEditor | JSONEditor.

Definition mode_eqb (a b : mode) : bool :=
  match a, b with
  | UIEditor, UIEditor => true
  | JSONEditor, JSONEditor => true
  | _, _ => false
  end.

(** What [st.session_state] holds for one [key_prefix]: the document under
    [_config], the text buffer under [_json_text], the mode under
    [_edit_mode], and the form counters, keyed by the rest of their name
    ([form_counter_<section>], [item_form_counter_<section>],
    [section_form_counter]). *)
Record editor : Type := Editor {
  config : json;
  json_text : string;
  edit_mode : mode;
  counters : gmap string nat
}.

Definition with_config (c : json) (e : editor) : editor :=
  {| config := c; json_text := json_text e; edit_mode := edit_mode e;
     counters := counters e |}.

Definition with_text (t : string) (e : editor) : editor :=
  {| config := config e; json_text := t; edit_mode := edit_mode e;
     counters := counters e |}.

Definition with_mode (m : mode) (e : editor) : editor :=
  {| config := config e; json_text := json_text e; edit_mode := m;
     counters := counters e |}.

Definition with_counters (c : gmap string nat) (e : editor) : editor :=
  {| config := config e; json_text := json_text e; edit_mode := edit_mode e;
     counters := c |}.

(** [if key not in st.session_state: st.session_state[key] = 0] *)
Definition touch_counter (key : string) (e : editor) : editor :=
  match counters e !! key with
  | Some _ => e
  | None => with_counters (<[key := 0%nat]> (counters e)) e
  end.

(** [st.session_state[key] += 1] *)
Definition bump_counter (key : string) (e : editor) : editor :=
  with_counters (<[key := S (default 0%nat (counters e !! key))]> (counters e)) e.

(** The kind chosen in the add-section form. *)
Inductive section_kind : Type := SimpleValue | ObjectProperties | ArrayList.

(** What the widgets of one pass return.  The [value=] a widget is given
    only seeds it; what the call returns is the state of the widget, an
    input of the pass.  Widgets are told apart by what their key is built
    from; where two rows of properties build the same key the pass ends
    at the second (see [render_property]). *)
Record widgets : Type := Widgets {
  mode_select : mode;
  json_text_area : string;
  validate_clicked : bool;
  switch_to_ui_clicked : bool;
  section_name : string -> string;
  delete_section_clicked : string -> bool;
  property_name : string -> string -> string;
  property_value : string -> string -> string;
  delete_property_clicked : string -> string -> bool;
  add_property_form : string -> nat -> bool * (string * string);
  item_value : string -> nat -> string;
  delete_item_clicked : string -> nat -> bool;
  add_item_form : string -> nat -> bool * string;
  simple_value : string -> string;
  add_section_form : nat -> bool * (string * section_kind);
  switch_to_json_clicked : bool
}.

(** How a pass ends before its last line: [st.rerun()], or an exception
    nothing catches. *)
Inductive ended : Type :=
| Rerun (e : editor)
| Crash (e : editor) (why : string).

(** A step of the pass: go on with a state, or end the pass. *)
Inductive flow : Type :=
| Next (e : editor)
| Stop (x : ended).

Definition and_then (f g : editor -> flow) (e : editor) : flow :=
  match f e with
  | Next e' => g e'
  | Stop x => Stop x
  end.

Fixpoint for_each {A : Type} (body : A -> editor -> flow) (l : list A) (e : editor) : flow :=
  match l with
  | [] => Next e
  | a :: r => and_then (body a) (for_each body r) e
  end.

(** How [render_json_editor] ends: with its [return], before it, or at
    its first lines when the document given cannot be copied. *)
Inductive rendered : Type :=
| Returned (e : editor) (result : json)
| Ended (x : ended)
| Unopened (why : string).

(** [x.copy()], defined on dictionaries and lists. *)
Definition copy (j : json) : option json :=
  match j with
  | JDict _ | JList _ => Some j
  | _ => None
  end.

Definition return_config (e : editor) : rendered :=
  match copy (config e) with
  | Some c => Returned e c
  | None => Ended (Crash e "object has no attribute 'copy'")
  end.

Definition form_counter_key (main_key : string) : string :=
  "form_counter_" ++ main_key.
Definition item_form_counter_key (main_key : string) : string :=
  "item_form_counter_" ++ main_key.
Definition section_form_counter_key : string := "section_form_counter".

Definition counter (key : string) (e : editor) : nat :=
  default 0%nat (counters e !! key).

Section Editor.
Variable float_repr : string -> string.
Variable json_loads : string -> attempt json.

(** [json.dumps(x, indent=2)] *)
Definition dumps2 (j : json) : string := Json.dumps_indent2 float_repr j.

(** [st.session_state[json_text_key] =
    json.dumps(st.session_state[config_key], indent=2)] *)
Definition reserialize (e : editor) : editor := with_text (dumps2 (config e)) e.

(** The text buffer is the serialization of the document. *)
Definition synced (e : editor) : Prop := json_text e = dumps2 (config e).

(** The first lines of [render_json_editor]: the three keys are set when
    they are absent, which is when the editor was never rendered. *)
Definition open_editor (config_json : json) (saved : option editor) : attempt editor :=
  match saved with
  | Some e => Ok e
  | None =>
      match copy config_json with
      | Some c => Ok {| config := c; json_text := dumps2 config_json;
                        edit_mode := UIEditor; counters := ∅ |}
      | None => Raise "object has no attribute 'copy'"
      end
  end.

(** The top-level document of the session state, which the visual editor
    only ever handles as a dictionary. *)
Definition on_sections (e : editor) (k : list (string * json) -> flow) : flow :=
  match config e with
  | JDict d => k d
  | _ => Stop (Crash e "the configuration is not a dictionary")
  end.

(** ** The structural mutations *)

(** Lines 652-654: the section name was edited. *)
Definition rename_section (current_keys : list string) (main_key new_main_key : string)
    (e : editor) : flow :=
  if negb (String.eqb new_main_key main_key)
     && negb (existsb (String.eqb new_main_key) current_keys)
  then
    on_sections e (fun d =>
      match PyDict.pop main_key d with
      | Some (v, d') =>
          Stop (Rerun (with_config (JDict (PyDict.set new_main_key v d')) e))
      | None => Stop (Crash e "KeyError")
      end)
  else Next e.

(** Lines 659-665: the delete-section button. *)
Definition delete_section (main_key : string) (clicked : bool) (e : editor) : flow :=
  if clicked then
    on_sections e (fun d =>
      if PyDict.mem main_key d
      then Stop (Rerun (reserialize (with_config (JDict (PyDict.remove main_key d)) e)))
      else Next e)
  else Next e.

(** The properties [main_value] stands for: the section as the session
    state holds it, which is the same object as long as the section is
    in the document. *)
Definition live_fields (main_key : string) (snapshot : list (string * json))
    (d : list (string * json)) : list (string * json) :=
  match PyDict.get main_key d with
  | Some (JDict fields) => fields
  | _ => snapshot
  end.

(** Lines 684-687: a property name was edited. *)
Definition rename_property (snapshot : list (string * json))
    (main_key prop_key new_prop_key : string) (e : editor) : flow :=
  on_sections e (fun d =>
    if negb (String.eqb new_prop_key prop_key)
       && negb (PyDict.mem new_prop_key (live_fields main_key snapshot d))
    then
      match PyDict.get main_key d with
      | Some (JDict fields) =>
          match PyDict.pop prop_key fields with
          | Some (v, fields') =>
              Stop (Rerun (with_config
                             (JDict (PyDict.set main_key
                                       (JDict (PyDict.set new_prop_key v fields')) d)) e))
          | None => Stop (Crash e "KeyError")
          end
      | Some _ => Stop (Crash e "TypeError")
      | None => Next e
      end
    else Next e).

(** Lines 699-700: the property takes the coerced text of its box. *)
Definition edit_property (main_key prop_key new_prop_value : string) (e : editor) : flow :=
  on_sections e (fun d =>
    match PyDict.get main_key d with
    | Some (JDict fields) =>
        Next (with_config
                (JDict (PyDict.set main_key
                          (JDict (PyDict.set prop_key
                                    (convert_string_to_appropriate_type (JStr new_prop_value))
                                    fields)) d)) e)
    | Some _ => Stop (Crash e "TypeError")
    | None => Next e
    end).

(** Lines 706-712: the delete-property button. *)
Definition delete_property (main_key prop_key : string) (clicked : bool) (e : editor) : flow :=
  if clicked then
    on_sections e (fun d =>
      match PyDict.get main_key d with
      | Some (JDict fields) =>
          if PyDict.mem prop_key fields
          then Stop (Rerun (reserialize
                              (with_config
                                 (JDict (PyDict.set main_key
                                           (JDict (PyDict.remove prop_key fields)) d)) e)))
          else Next e
      | Some _ => Stop (Crash e "TypeError")
      | None => Next e
      end)
  else Next e.

(** Lines 746-756: the add-property form. *)
Definition add_property (main_key : string) (form : bool * (string * string))
    (e : editor) : flow :=
  let '(add_submitted, (new_prop_key, new_prop_value)) := form in
  if add_submitted then
    on_sections e (fun d =>
      match PyDict.get main_key d with
      | Some (JDict fields) =>
          if negb (PyStr.is_empty new_prop_key) && negb (PyDict.mem new_prop_key fields)
          then Stop (Rerun
                       (bump_counter (form_counter_key main_key)
                          (reserialize
                             (with_config
                                (JDict (PyDict.set main_key
                                          (JDict (PyDict.set new_prop_key
                                                    (convert_string_to_appropriate_type
                                                       (JStr new_prop_value))
                                                    fields)) d)) e))))
          else Next e
      | Some _ => Stop (Crash e "TypeError")
      | None => Stop (Crash e "KeyError")
      end)
  else Next e.

(** [l[i] = x] for [i] in range. *)
Definition list_assign (i : nat) (x : json) (l : list json) : list json := <[i := x]> l.

(** [l.pop(i)] for [i] in range. *)
Definition list_pop (i : nat) (l : list json) : list json := delete i l.

(** Lines 774-775: the item takes the coerced text of its box. *)
Definition edit_item (main_key : string) (i : nat) (new_item_value : string)
    (e : editor) : flow :=
  on_sections e (fun d =>
    match PyDict.get main_key d with
    | Some (JList items) =>
        if (i <? length items)%nat
        then Next (with_config
                     (JDict (PyDict.set main_key
                               (JList (list_assign i
                                         (convert_string_to_appropriate_type
                                            (JStr new_item_value)) items)) d)) e)
        else Next e
    | Some _ => Stop (Crash e "TypeError")
    | None => Next e
    end).

(** Lines 780-786: the delete-item button. *)
Definition delete_item (main_key : string) (i : nat) (clicked : bool) (e : editor) : flow :=
  if clicked then
    on_sections e (fun d =>
      match PyDict.get main_key d with
      | Some (JList items) =>
          if (i <? length items)%nat
          then Stop (Rerun (reserialize
                              (with_config
                                 (JDict (PyDict.set main_key
                                           (JList (list_pop i items)) d)) e)))
          else Next e
      | Some _ => Stop (Crash e "TypeError")
      | None => Next e
      end)
  else Next e.

(** Lines 812-820: the add-item form. *)
Definition add_item (main_key : string) (form : bool * string) (e : editor) : flow :=
  let '(add_item_submitted, new_item) := form in
  if add_item_submitted && negb (PyStr.is_empty new_item) then
    on_sections e (fun d =>
      match PyDict.get main_key d with
      | Some (JList items) =>
          Stop (Rerun
                  (bump_counter (item_form_counter_key main_key)
                     (reserialize
                        (with_config
                           (JDict (PyDict.set main_key
                                     (JList (items
                                             ++ [convert_string_to_appropriate_type
                                                   (JStr new_item)])%list) d)) e))))
      | Some _ => Stop (Crash e "AttributeError")
      | None => Stop (Crash e "KeyError")
      end)
  else Next e.

(** Line 833: a section that is neither a dictionary nor a list takes the
    coerced text of its box. *)
Definition edit_simple (main_key new_simple_value : string) (e : editor) : flow :=
  on_sections e (fun d =>
    Next (with_config
            (JDict (PyDict.set main_key
                      (convert_string_to_appropriate_type (JStr new_simple_value)) d)) e)).

Definition new_section_value (kind : section_kind) : json :=
  match kind with
  | ObjectProperties => JDict [("new_property", JStr "New value")]
  | ArrayList => JList [JStr "New item"]
  | SimpleValue => JStr "New value"
  end.

(** Lines 868-883: the add-section form. *)
Definition add_section (form : bool * (string * section_kind)) (e : editor) : flow :=
  let '(add_section_submitted, (new_section_key, new_section_type)) := form in
  if add_section_submitted then
    on_sections e (fun d =>
      if negb (PyStr.is_empty new_section_key) && negb (PyDict.mem new_section_key d)
      then Stop (Rerun
                   (bump_counter section_form_counter_key
                      (reserialize
                         (with_config
                            (JDict (PyDict.set new_section_key
                                      (new_section_value new_section_type) d)) e))))
      else Next e)
  else Next e.

(** ** One pass of the visual editor *)

(** What tells the rows of properties apart in their keys
    ([f"{key_prefix}_prop_{main_key}_{prop_key}"], line 679): two rows
    can build the same text, as [a], [b_c] and [a_b], [c] do.  The keys
    of the other widgets are told apart by their sections, and their
    items by an index with no underscore. *)
Definition box_key (main_key prop_key : string) : string :=
  main_key ++ "_" ++ prop_key.

(** The keys the rows of a section use. *)
Definition section_boxes (section : string * json) : list string :=
  match snd section with
  | JDict fields => map (box_key (fst section)) (PyDict.keys fields)
  | _ => []
  end.

(** The sections of the loop, each with the keys the rows before it
    have used. *)
Fixpoint with_earlier (earlier : list string) (sections : list (string * json))
    : list (list string * (string * json)) :=
  match sections with
  | [] => []
  | section :: rest =>
      (earlier, section) :: with_earlier (earlier ++ section_boxes section) rest
  end.

(** The rows of one property, lines 672-712.  Its first widget raises
    [StreamlitDuplicateElementKey] when a row of a section before it
    was given the same key. *)
Definition render_property (w : widgets) (main_key : string)
    (snapshot : list (string * json)) (earlier : list string) (prop_key : string)
    : editor -> flow :=
  if existsb (String.eqb (box_key main_key prop_key)) earlier
  then fun e => Stop (Crash e "StreamlitDuplicateElementKey")
  else
    and_then (rename_property snapshot main_key prop_key (property_name w main_key prop_key))
      (and_then (edit_property main_key prop_key (property_value w main_key prop_key))
         (delete_property main_key prop_key (delete_property_clicked w main_key prop_key))).

(** The row of one item, lines 762-786. *)
Definition render_item (w : widgets) (main_key : string) (i : nat) : editor -> flow :=
  and_then (edit_item main_key i (item_value w main_key i))
    (delete_item main_key i (delete_item_clicked w main_key i)).

(** The body of the loop over the sections, lines 636-833.  [main_value]
    is the value the copy made at line 634 holds; [earlier] are the keys
    of the rows of the sections before. *)
Definition render_section (w : widgets) (current_keys : list string)
    (entry : list string * (string * json)) : editor -> flow :=
  let '(earlier, (main_key, main_value)) := entry in
  and_then (rename_section current_keys main_key (section_name w main_key))
    (and_then (delete_section main_key (delete_section_clicked w main_key))
       (match main_value with
        | JDict fields =>
            and_then (for_each (render_property w main_key fields earlier)
                        (PyDict.keys fields))
              (fun e =>
                 let e' := touch_counter (form_counter_key main_key) e in
                 add_property main_key
                   (add_property_form w main_key (counter (form_counter_key main_key) e')) e')
        | JList items =>
            and_then (for_each (render_item w main_key) (seq 0 (length items)))
              (fun e =>
                 let e' := touch_counter (item_form_counter_key main_key) e in
                 add_item main_key
                   (add_item_form w main_key (counter (item_form_counter_key main_key) e')) e')
        | _ => edit_simple main_key (simple_value w main_key)
        end)).

(** The visual editor, lines 629-895. *)
Definition ui_editor (w : widgets) (e : editor) : rendered :=
  match config e with
  | JDict current_config =>
      match and_then (for_each (render_section w (PyDict.keys current_config))
                        (with_earlier [] current_config))
              (fun e1 =>
                 let e2 := touch_counter section_form_counter_key e1 in
                 add_section (add_section_form w (counter section_form_counter_key e2)) e2)
              e with
      | Stop x => Ended x
      | Next e1 =>
          let e2 := reserialize e1 in
          if switch_to_json_clicked w
          then Ended (Rerun (with_mode JSONEditor e2))
          else return_config e2
      end
  | JList _ => Ended (Crash e "'list' object has no attribute 'items'")
  | _ => Ended (Crash e "object has no attribute 'copy'")
  end.

(** ** One pass of the text editor *)

(** Lines 566-626. *)
Definition json_editor (w : widgets) (e : editor) : rendered :=
  let text := json_text_area w in
  let e1 := if negb (String.eqb text (json_text e)) then with_text text e else e in
  let e2 :=
    if validate_clicked w then
      match json_loads text with
      | Ok parsed_json => with_text (dumps2 parsed_json) (with_config parsed_json e1)
      | Raise _ => e1
      end
    else e1 in
  let preview :=
    match json_loads text with
    | Ok (JDict _) | Raise _ => return_config e2
    | Ok _ => Ended (Crash e2 "object has no attribute 'items'")
    end in
  if switch_to_ui_clicked w then
    match json_loads text with
    | Ok parsed_json =>
        Ended (Rerun (with_mode UIEditor
                        (with_text (dumps2 parsed_json) (with_config parsed_json e2))))
    | Raise _ => preview
    end
  else preview.

(** Lines 552-562: the radio differs from the stored mode. *)
Definition change_mode (new_mode : mode) (e : editor) : editor :=
  let e1 := with_mode new_mode e in
  match new_mode with
  | JSONEditor => reserialize e1
  | UIEditor =>
      match json_loads (json_text e1) with
      | Ok parsed => with_config parsed e1
      | Raise _ => e1
      end
  end.

Definition render_json_editor (config_json : json) (saved : option editor)
    (w : widgets) : rendered :=
  match open_editor config_json saved with
  | Raise why => Unopened why
  | Ok e =>
      let selected := mode_select w in
      if negb (mode_eqb selected (edit_mode e))
      then Ended (Rerun (change_mode selected e))
      else
        match selected with
        | JSONEditor => json_editor w e
        | UIEditor => ui_editor w e
        end
  end.

End Editor.

(** No name box of the document [d] holds a name that is taken: the
    box of a section holds its name or the name of a section there is,
    and the box of a property holds its name. *)
Definition names_kept (w : widgets) (d : list (string * json)) : Prop :=
  forall main_key main_value,
    In (main_key, main_value) d ->
    (section_name w main_key = main_key
     \/ In (section_name w main_key) (PyDict.keys d))
    /\ forall fields prop_key,
         main_value = JDict fields ->
         In prop_key (PyDict.keys fields) ->
         property_name w main_key prop_key = prop_key.

(** ** Sample sessions of the editor *)

Definition sample_document : json := JDict [("search_limit", JInt 3)].

(** Widgets left as they were rendered for [sample_document], but for
    the mode radio, the text area and the section-name box. *)
Definition sample_widgets (selected : mode) (text : string)
    (name : string -> string) : widgets :=
  {| mode_select := selected;
     json_text_area := text;
     validate_clicked := false;
     switch_to_ui_clicked := false;
     section_name := name;
     delete_section_clicked := fun _ => false;
     property_name := fun _ prop_key => prop_key;
     property_value := fun _ _ => EmptyString;
     delete_property_clicked := fun _ _ => false;
     add_property_form := fun _ _ => (false, (EmptyString, EmptyString));
     item_value := fun _ _ => EmptyString;
     delete_item_clicked := fun _ _ => false;
     add_item_form := fun _ _ => (false, EmptyString);
     simple_value := fun _ => "3";
     add_section_form := fun _ => (false, (EmptyString, SimpleValue));
     switch_to_json_clicked := false |}.

Definition press_switch_to_ui (w : widgets) : widgets :=
  {| mode_select := mode_select w;
     json_text_area := json_text_area w;
     validate_clicked := validate_clicked w;
     switch_to_ui_clicked := true;
     section_name := section_name w;
     delete_section_clicked := delete_section_clicked w;
     property_name := property_name w;
     property_value := property_value w;
     delete_property_clicked := delete_property_clicked w;
     add_property_form := add_property_form w;
     item_value := item_value w;
     delete_item_clicked := delete_item_clicked w;
     add_item_form := add_item_form w;
     simple_value := simple_value w;
     add_section_form := add_section_form w;
     switch_to_json_clicked := switch_to_json_clicked w |}.

Definition press_delete_section (w : widgets) : widgets :=
  {| mode_select := mode_select w;
     json_text_area := json_text_area w;
     validate_clicked := validate_clicked w;
     switch_to_ui_clicked := switch_to_ui_clicked w;
     section_name := section_name w;
     delete_section_clicked := fun _ => true;
     property_name := property_name w;
     property_value := property_value w;
     delete_property_clicked := delete_property_clicked w;
     add_property_form := add_property_form w;
     item_value := item_value w;
     delete_item_clicked := delete_item_clicked w;
     add_item_form := add_item_form w;
     simple_value := simple_value w;
     add_section_form := add_section_form w;
     switch_to_json_clicked := switch_to_json_clicked w |}.

(** The editor in text mode, its buffer holding an unfinished object. *)
Definition editing_broken_text : editor :=
  {| config := sample_document; json_text := "{"; edit_mode := JSONEditor;
     counters := ∅ |}.

(** The editor in visual mode, its buffer up to date. *)
Definition editing_visually : editor :=
  {| config := sample_document;
     json_text := Json.dumps_indent2 example_float_repr sample_document;
     edit_mode := UIEditor; counters := ∅ |}.

(** [editing_visually] after a pass in which nothing was touched: the
    counter of the add-section form has been set. *)
Definition editing_visually_rendered : editor :=
  touch_counter section_form_counter_key editing_visually.

(** [editing_visually] after the section was renamed to [limit]. *)
Definition editing_visually_renamed : editor :=
  {| config := JDict [("limit", JInt 3)];
     json_text := Json.dumps_indent2 example_float_repr sample_document;
     edit_mode := UIEditor; counters := ∅ |}.

(** [editing_visually] after its one section was deleted. *)
Definition editing_visually_emptied : editor :=
  {| config := JDict []; json_text := "{}"; edit_mode := UIEditor; counters := ∅ |}.

(* ===================================================================== *)
(** * The pages of [01_Configuration.py] *)
(* ===================================================================== *)

(** A pass of a page is followed through what it reads from the widgets,
    what it keeps in [st.session_state] and the calls it sends.  What it
    only writes to the screen ([st.write], [st.success], the tables) is
    not followed; where such a line raises on an answer of an unexpected
    shape the script stops, so the calls of the script are those of the
    model or a first part of them. *)

(** What [st.session_state] holds for the page: the flags
    ([editing_...], [confirm_delete_...]) and the editors, by their
    [key_prefix]. *)
Record page_state : Type := PageState {
  flags : gmap string bool;
  editors : gmap string editor
}.

(** What the widgets of the page return in one pass, by key (by label
    for the few widgets that have no key).  A text box returns a text
    and a number box whose bounds and value are integers an integer; a
    box whose value is a column of a row returns what the library makes
    of that column ([None] while a box that was given [None] is empty).
    A select box returns one of its options, told by its place; when the
    options are no list it returns what the library makes of them. *)
Record page_widgets : Type := PageWidgets {
  button : string -> bool;
  checkbox : string -> bool;
  toggle : string -> bool;
  text_input : string -> string;
  number_input : string -> Z;
  selectbox : string -> nat;
  seeded_text_input : string -> json;
  seeded_number_input : string -> json;
  selectbox_value : string -> json;
  editor_widgets : string -> widgets
}.

(** How a pass ends early: [st.rerun()], or an exception. *)
Inductive halted : Type :=
| Reran
| Crashed (why : string).

Inductive step (A : Type) : Type :=
| Go (a : A)
| Halt (h : halted).
Arguments Go {A} a.
Arguments Halt {A} h.

(** A piece of a pass: from the session state and the calls sent so far
    to a value or an early end, the new session state and the calls sent. *)
Definition Page (A : Type) : Type :=
  page_state -> list call -> (step A * page_state) * list call.

Definition pret {A : Type} (a : A) : Page A := fun s sent => ((Go a, s), sent).

Definition pbind {A B : Type} (c : Page A) (k : A -> Page B) : Page B :=
  fun s sent =>
    match c s sent with
    | ((Go a, s'), sent') => k a s' sent'
    | ((Halt h, s'), sent') => ((Halt h, s'), sent')
    end.

Notation "'letP' x ':=' c 'in' k" := (pbind c (fun x => k))
  (at level 10, x name, c at level 100, k at level 200, only parsing).

(** A call of a wrapper. *)
Definition remote {A : Type} (g : Gateway A) : Page A :=
  fun s sent => let (a, sent') := g sent in ((Go a, s), sent').

Definition crash {A : Type} (why : string) : Page A :=
  fun s sent => ((Halt (Crashed why), s), sent).

(** [st.session_state.get(key, False)] *)
Definition get_flag (key : string) : Page bool :=
  fun s sent => ((Go (default false (flags s !! key)), s), sent).

(** [st.session_state[key] = b] followed by [st.rerun()], as every
    assignment of a flag is. *)
Definition set_flag_and_rerun {A : Type} (key : string) (b : bool) : Page A :=
  fun s sent =>
    ((Halt Reran, {| flags := <[key := b]> (flags s); editors := editors s |}), sent).

Definition rerun {A : Type} : Page A := fun s sent => ((Halt Reran, s), sent).

(** [if b: ...] *)
Definition when (b : bool) (c : Page unit) : Page unit :=
  if b then c else pret tt.

Fixpoint page_each {A : Type} (body : A -> Page unit) (l : list A) : Page unit :=
  match l with
  | [] => pret tt
  | a :: r => letP _ := body a in page_each body r
  end.

(** [config[key]] *)
Definition item (key : string) (config : row) : Page json :=
  match PyDict.get key config with
  | Some v => pret v
  | None => crash ("KeyError: " ++ key)
  end.

(** One of the options of a select box; the first when the index is off. *)
Definition chosen {A : Type} (fallback : A) (options : list A) (i : nat) : A :=
  match options !! i with
  | Some x => x
  | None => hd fallback options
  end.

Definition lag_options : list string :=
  ["1 minute"; "2 minutes"; "5 minutes"; "10 minutes"].

Definition processing_types : list string := ["CORTEX_SEARCH"; "AI_EXTRACT"].

(** The columns of a row of [FILE_TYPE_CONFIGS_GET] the page reads. *)
Record document_type : Type := DocumentType {
  FILE_TYPE : json;
  FILE_DESCRIPTION : json;
  CHUNK_SIZE : json;
  CHUNK_OVERLAP : json;
  TARGET_LAG : json
}.

Definition within (lo hi n : N) : bool := (lo <=? n)%N && (n <=? hi)%N.

(** One character of [str.isalnum] below code point 256. *)
Definition is_alnum_char (c : ascii) : bool :=
  let n := PyStr.code c in
  within 48 57 n || within 65 90 n || within 97 122 n || within 170 170 n
  || within 178 179 n || within 181 181 n || within 185 186 n || within 188 190 n
  || within 192 214 n || within 216 246 n || within 248 255 n.

Definition isalnum (s : string) : bool :=
  negb (PyStr.is_empty s) && PyStr.all_chars is_alnum_char s.

(** The template of the creation form. *)
Definition default_config : json :=
  JDict
    [("extraction_config",
      JDict [("effective_date",
              JStr "What is the effective date or start date of this agreement?");
             ("agreement_duration",
              JStr "What is the duration or term of this agreement?");
             ("payment_terms", JStr "What are the payment terms?")]);
     ("evaluation_config",
      JDict [("effective_date",
              JStr "Does the SOW start date fall within the MSA effective period?");
             ("agreement_duration",
              JStr "Is the SOW duration within the MSA term limits?");
             ("payment_terms",
              JStr "Do the SOW payment terms comply with MSA requirements?")]);
     ("search_limit", JInt 3)].

Section Pages.
Variable float_repr : string -> string.
Variable json_loads : string -> attempt json.
Variable missing_column : string -> string.
(** [str.upper], which takes two of the code points below 256 above
    them. *)
Variable str_upper : string -> string.
(** Python's [==] on two values. *)
Variable py_eq : json -> json -> bool.
Variable sess : session.
Variable w : page_widgets.

(** How an f-string renders a column. *)
Definition text_of (v : json) : string := PyRepr.str float_repr v.

(** [result.get(key)] as a condition. *)
Definition says (key : string) (result : json) : Page bool :=
  match reports key result with
  | Some b => pret b
  | None => crash "AttributeError: 'get'"
  end.

(** The five columns a document type is shown with (lines 308-318 and
    1208-1211): a column that is missing is a [KeyError], and a column
    that is there is written whatever it holds. *)
Definition read_document_type (config : row) : Page document_type :=
  letP file_type := item "FILE_TYPE" config in
  letP file_description := item "FILE_DESCRIPTION" config in
  letP chunk_size := item "CHUNK_SIZE" config in
  letP chunk_overlap := item "CHUNK_OVERLAP" config in
  letP target_lag := item "TARGET_LAG" config in
  pret {| FILE_TYPE := file_type;
          FILE_DESCRIPTION := file_description;
          CHUNK_SIZE := chunk_size; CHUNK_OVERLAP := chunk_overlap;
          TARGET_LAG := target_lag |}.

(** [render_json_editor] called from a page, its state kept under its
    [key_prefix]. *)
Definition edit_document (config_json : json) (key_prefix : string) : Page json :=
  fun s sent =>
    let keep e := {| flags := flags s; editors := <[key_prefix := e]> (editors s) |} in
    match render_json_editor float_repr json_loads config_json
            (editors s !! key_prefix) (editor_widgets w key_prefix) with
    | Returned e result => ((Go result, keep e), sent)
    | Ended (Rerun e) => ((Halt Reran, keep e), sent)
    | Ended (Crash e why) => ((Halt (Crashed why), keep e), sent)
    | Unopened why => ((Halt (Crashed why), s), sent)
    end.

(** ** [render_file_type_management] *)

(** Lines 429-459: the confirmation of a deletion. *)
Definition confirm_file_type_deletion (file_type : string) : Page unit :=
  let drop_data := checkbox w ("drop_data_" ++ file_type) in
  letP _ :=
    when (button w ("confirm_" ++ file_type))
      (letP result := remote (delete_file_type_config float_repr json_loads missing_column
                                sess file_type drop_data) in
       letP success := says "success" result in
       when success (set_flag_and_rerun ("confirm_delete_" ++ file_type) false)) in
  when (button w ("cancel_delete_" ++ file_type))
    (set_flag_and_rerun ("confirm_delete_" ++ file_type) false).

(** Lines 368-426: the edit form. *)
Definition edit_file_type (t : document_type) : Page unit :=
  let file_type := text_of (FILE_TYPE t) in
  let new_description := seeded_text_input w ("edit_desc_" ++ file_type) in
  let new_chunk_size := seeded_number_input w ("edit_chunk_" ++ file_type) in
  let new_chunk_overlap := seeded_number_input w ("edit_overlap_" ++ file_type) in
  let new_target_lag :=
    chosen EmptyString lag_options (selectbox w ("edit_lag_" ++ file_type)) in
  letP _ :=
    when (button w ("save_" ++ file_type))
      (letP result := remote (update_file_type_config float_repr json_loads missing_column
                                sess file_type new_description new_chunk_size
                                new_chunk_overlap new_target_lag) in
       letP success := says "success" result in
       when success (set_flag_and_rerun ("editing_" ++ file_type) false)) in
  when (button w ("cancel_" ++ file_type))
    (set_flag_and_rerun ("editing_" ++ file_type) false).

(** Lines 307-459: one document type of the list. *)
Definition file_type_entry (config : row) : Page unit :=
  letP t := read_document_type config in
  let file_type := text_of (FILE_TYPE t) in
  letP _ :=
    when (button w ("edit_" ++ file_type))
      (set_flag_and_rerun ("editing_" ++ file_type) true) in
  letP _ :=
    when (button w ("setup_" ++ file_type))
      (letP result := remote (setup_file_processing_pipeline float_repr json_loads
                                missing_column sess file_type (CHUNK_SIZE t)
                                (CHUNK_OVERLAP t) (text_of (TARGET_LAG t))) in
       letP _ := says "success" result in
       pret tt) in
  letP _ :=
    when (button w ("status_" ++ file_type))
      (letP status := remote (check_pipeline_status float_repr json_loads missing_column
                                sess file_type) in
       match status with
       | JDict _ => pret tt
       | _ => crash "the status is not a dictionary"
       end) in
  letP _ :=
    when (button w ("delete_" ++ file_type))
      (set_flag_and_rerun ("confirm_delete_" ++ file_type) true) in
  letP editing := get_flag ("editing_" ++ file_type) in
  letP _ := when editing (edit_file_type t) in
  letP confirming := get_flag ("confirm_delete_" ++ file_type) in
  when confirming (confirm_file_type_deletion file_type).

(** Lines 463-524: the creation form. *)
Definition create_file_type : Page unit :=
  let new_file_type := text_input w "File Type:" in
  let new_description := text_input w "Description:" in
  let new_chunk_size := number_input w "Chunk Size:" in
  let new_chunk_overlap := number_input w "Chunk Overlap:" in
  let new_target_lag := chosen EmptyString lag_options (selectbox w "Target Lag:") in
  when (button w "Create Document Type")
    (if PyStr.is_empty new_file_type || PyStr.is_empty new_description then pret tt
     else if negb (isalnum (PyStr.replace "-" "" (PyStr.replace "_" "" new_file_type)))
     then pret tt
     else
       letP result := remote (create_file_type_config float_repr json_loads missing_column
                                sess (str_upper new_file_type) new_description
                                new_chunk_size new_chunk_overlap new_target_lag) in
       letP success := says "success" result in
       when success rerun).

Definition render_file_type_management : Page unit :=
  letP file_configs := remote (get_file_type_configs float_repr sess) in
  letP _ := page_each file_type_entry file_configs in
  create_file_type.

(** ** [render_processing_config_management] *)

(** [d.get(key, fallback)]; [None] when [d] is not a dictionary. *)
Definition get_or (key : string) (fallback : json) (d : json) : option json :=
  match d with
  | JDict fields =>
      Some (match PyDict.get key fields with Some v => v | None => fallback end)
  | _ => None
  end.

(** [models_data.get("supported_models", ["claude-4-sonnet"])] *)
Definition model_options (models_data : json) : Page json :=
  match get_or "supported_models" (JList [JStr "claude-4-sonnet"]) models_data with
  | Some options => pret options
  | None => crash "AttributeError: 'get'"
  end.

(** [models_data.get("recommended_models", {}).get(key, fallback)] *)
Definition recommended_model (key : string) (fallback : json) (models_data : json)
    : Page json :=
  match get_or "recommended_models" (JDict []) models_data with
  | Some recommended =>
      match get_or key fallback recommended with
      | Some model => pret model
      | None => crash "AttributeError: 'get'"
      end
  | None => crash "AttributeError: 'get'"
  end.

(** [models_data.get("recommended_models", {}).get(...)], read for the
    help text of the select box. *)
Definition recommended_models (models_data : json) : Page unit :=
  match get_or "recommended_models" (JDict []) models_data with
  | Some (JDict _) => pret tt
  | _ => crash "AttributeError: 'get'"
  end.

(** [if model in model_options: index = model_options.index(model)],
    which goes through for a list, for a text within a text, and for a
    dictionary that has no such key; the index found only tells the
    select box what to show first. *)
Definition model_index (model model_options : json) : Page unit :=
  match model_options with
  | JList _ => pret tt
  | JStr _ =>
      match model with
      | JStr _ => pret tt
      | _ => crash "TypeError: 'in <string>' requires string as left operand"
      end
  | JDict fields =>
      match model with
      | JList _ | JDict _ => crash "TypeError: unhashable type"
      | JStr key =>
          if PyDict.mem key fields
          then crash "AttributeError: 'dict' object has no attribute 'index'"
          else pret tt
      | _ => pret tt
      end
  | _ => crash "TypeError: argument is not iterable"
  end.

(** [st.selectbox("AI Model:", options=model_options, ...)] *)
Definition model_selectbox (key : string) (model_options : json) : json :=
  match model_options with
  | JList options => chosen JNull options (selectbox w key)
  | _ => selectbox_value w key
  end.

(** The model select box, lines 980-992 and 1085-1098: its options are
    fetched by a call, and what it shows first is the model of the
    configuration in the edit form ([current]) and the model recommended
    for quality in the creation form. *)
Definition choose_model (key : string) (current : option json) : Page string :=
  letP models_data := remote (configuration_get_available_models float_repr json_loads
                                missing_column sess) in
  letP options := model_options models_data in
  letP model :=
    (match current with
     | Some config_model => pret config_model
     | None => recommended_model "quality" (JStr "claude-4-sonnet") models_data
     end) in
  letP _ := model_index model options in
  letP _ := recommended_models models_data in
  pret (text_of (model_selectbox key options)).

(** Lines 1004-1023 and 1118-1139: validate, then save when the
    validation reports [is_valid]. *)
Definition validate_then (config_json : json) (save : Gateway json)
    (on_success : Page unit) : Page unit :=
  letP validation := remote (validate_processing_config float_repr json_loads
                               missing_column sess config_json) in
  letP is_valid := says "is_valid" validation in
  when is_valid
    (letP result := remote save in
     letP success := says "success" result in
     when success on_success).

(** Lines 962-1028: the edit form. *)
Definition edit_processing_config (config_name : string)
    (processing_type config_model config_json : json) : Page unit :=
  letP _ :=
    (if existsb (fun t => is_text t processing_type) processing_types
     then pret tt else crash "ValueError: not in list") in
  let new_processing_type :=
    chosen EmptyString processing_types (selectbox w ("edit_type_" ++ config_name)) in
  letP new_config_model :=
    choose_model ("edit_model_" ++ config_name) (Some config_model) in
  letP updated_config := edit_document config_json ("edit_" ++ config_name) in
  letP _ :=
    when (button w ("save_proc_" ++ config_name))
      (validate_then updated_config
         (update_processing_config float_repr json_loads missing_column sess
            config_name new_processing_type new_config_model updated_config)
         (set_flag_and_rerun ("editing_proc_" ++ config_name) false)) in
  when (button w ("cancel_proc_" ++ config_name))
    (set_flag_and_rerun ("editing_proc_" ++ config_name) false).

(** Lines 1031-1050: the confirmation of a deletion. *)
Definition confirm_processing_config_deletion (config_name : string) : Page unit :=
  letP _ :=
    when (button w ("confirm_proc_" ++ config_name))
      (letP result := remote (delete_processing_config float_repr json_loads missing_column
                                sess config_name) in
       letP success := says "success" result in
       when success (set_flag_and_rerun ("confirm_delete_proc_" ++ config_name) false)) in
  when (button w ("cancel_delete_proc_" ++ config_name))
    (set_flag_and_rerun ("confirm_delete_proc_" ++ config_name) false).

(** Lines 909-1052: one configuration of the list. *)
Definition processing_config_entry (config : row) : Page unit :=
  letP name := item "CONFIG_NAME" config in
  letP processing_type := item "PROCESSING_TYPE" config in
  let config_name := text_of name in
  when (toggle w ("show_config_" ++ config_name))
    (letP _ := item "CREATED_AT" config in
     letP config_model := item "CONFIG_MODEL" config in
     letP config_json := item "CONFIG_JSON" config in
     letP _ :=
       (match get_or "extraction_config" (JDict []) config_json with
        | None => crash "AttributeError: 'get'"
        | Some (JDict _) | Some (JList _) | Some (JStr _) => pret tt
        | Some _ => crash "TypeError: len"
        end) in
     letP _ := item "UPDATED_AT" config in
     letP _ :=
       when (button w ("edit_proc_" ++ config_name))
         (set_flag_and_rerun ("editing_proc_" ++ config_name) true) in
     letP _ :=
       when (button w ("test_proc_" ++ config_name))
         (letP validation := remote (validate_processing_config float_repr json_loads
                                       missing_column sess config_json) in
          letP _ := says "is_valid" validation in
          pret tt) in
     letP _ :=
       when (button w ("delete_proc_" ++ config_name))
         (set_flag_and_rerun ("confirm_delete_proc_" ++ config_name) true) in
     letP editing := get_flag ("editing_proc_" ++ config_name) in
     letP _ :=
       when editing
         (edit_processing_config config_name processing_type config_model config_json) in
     letP confirming := get_flag ("confirm_delete_proc_" ++ config_name) in
     when confirming (confirm_processing_config_deletion config_name)).

(** Lines 1066-1139: the creation form. *)
Definition create_processing_config_form : Page unit :=
  let new_config_name := text_input w "Configuration Name:" in
  let new_processing_type :=
    chosen EmptyString processing_types (selectbox w "Processing Type:") in
  letP new_config_model := choose_model "AI Model:" None in
  letP new_config_json := edit_document default_config "new_config" in
  when (button w "Create Configuration")
    (if PyStr.is_empty new_config_name then pret tt
     else
       validate_then new_config_json
         (create_processing_config float_repr json_loads missing_column sess
            new_config_name new_processing_type new_config_model new_config_json)
         rerun).

Definition render_processing_config_management : Page unit :=
  letP processing_configs := remote (get_processing_configs float_repr json_loads
                                       missing_column sess) in
  letP _ := page_each processing_config_entry processing_configs in
  when (toggle w "show_create_config_form") create_processing_config_form.

(** ** [render_pipeline_management] *)

(** Lines 1157-1183: the status of every document type. *)
Definition overview_entry (config : row) : Page unit :=
  letP file_type := item "FILE_TYPE" config in
  letP status := remote (check_pipeline_status float_repr json_loads missing_column
                           sess (text_of file_type)) in
  pret tt.

(** [[config['FILE_TYPE'] for config in file_configs]] *)
Fixpoint file_types (file_configs : list row) : Page (list json) :=
  match file_configs with
  | [] => pret []
  | config :: rest =>
      letP file_type := item "FILE_TYPE" config in
      letP others := file_types rest in
      pret (file_type :: others)
  end.

(** [next((c for c in file_configs if c['FILE_TYPE'] == selected), None)] *)
Fixpoint find_config (selected : json) (file_configs : list row) : Page (option row) :=
  match file_configs with
  | [] => pret None
  | config :: rest =>
      letP file_type := item "FILE_TYPE" config in
      if py_eq file_type selected
      then pret (Some config)
      else find_config selected rest
  end.

(** Lines 1378-1400: the cleanup of a pipeline. *)
Definition cleanup_pipeline (selected_file_type : string) : Page unit :=
  let drop_data_checkbox := checkbox w ("drop_data_checkbox_" ++ selected_file_type) in
  when (button w ("cleanup_" ++ selected_file_type))
    (letP result := remote (delete_file_type_config float_repr json_loads missing_column
                              sess selected_file_type drop_data_checkbox) in
     letP _ := says "success" result in
     pret tt).

(** Lines 1204-1400: the pipeline of the selected document type. *)
Definition manage_pipeline (selected : json) (selected_config : row) : Page unit :=
  let selected_file_type := text_of selected in
  letP t := read_document_type selected_config in
  letP _ :=
    when (button w ("setup_pipeline_" ++ selected_file_type))
      (letP result := remote (setup_file_processing_pipeline float_repr json_loads
                                missing_column sess selected_file_type (CHUNK_SIZE t)
                                (CHUNK_OVERLAP t) (text_of (TARGET_LAG t))) in
       letP _ := says "success" result in
       pret tt) in
  letP _ :=
    when (button w ("check_status_" ++ selected_file_type))
      (letP status := remote (check_pipeline_status float_repr json_loads missing_column
                                sess selected_file_type) in
       match status with
       | JDict _ => pret tt
       | _ => crash "the status is not a dictionary"
       end) in
  let sync_chunk_size :=
    seeded_number_input w ("sync_chunk_size_" ++ selected_file_type) in
  let sync_chunk_overlap :=
    seeded_number_input w ("sync_chunk_overlap_" ++ selected_file_type) in
  let force_reprocess := checkbox w ("force_reprocess_" ++ selected_file_type) in
  letP _ :=
    when (button w ("sync_files_" ++ selected_file_type))
      (letP sync_result := remote (sync_files float_repr json_loads missing_column sess
                                     selected_file_type sync_chunk_size sync_chunk_overlap
                                     force_reprocess) in
       letP _ := says "success" sync_result in
       pret tt) in
  cleanup_pipeline selected_file_type.

Definition render_pipeline_management : Page unit :=
  letP file_configs := remote (get_file_type_configs float_repr sess) in
  match file_configs with
  | [] => pret tt
  | _ =>
      letP _ := page_each overview_entry file_configs in
      letP options := file_types file_configs in
      let selected_file_type :=
        chosen JNull options (selectbox w "Select Document Type:") in
      when (Json.truthy selected_file_type)
        (letP selected_config := find_config selected_file_type file_configs in
         match selected_config with
         | Some (entry :: more) => manage_pipeline selected_file_type (entry :: more)
         | _ => pret tt
         end)
  end.

(** [main]: the three tabs are rendered one after the other. *)
Definition main : Page unit :=
  letP _ := render_file_type_management in
  letP _ := render_processing_config_management in
  render_pipeline_management.

End Pages.

(** [triple Q P c R]: from a session state that satisfies [P], the piece
    [c] only adds calls, what it adds satisfies [Q] (told what was sent
    before), and when [c] goes on, its value and the state satisfy [R]. *)
Definition triple {A : Type} (Q : list call -> list call -> Prop)
    (P : page_state -> Prop) (c : Page A) (R : A -> page_state -> Prop) : Prop :=
  forall s sent, P s ->
    exists new,
      snd (c s sent) = (sent ++ new)%list
      /\ Q sent new
      /\ forall a, fst (fst (c s sent)) = Go a -> R a (snd (fst (c s sent))).

(** ** What the properties of the pages speak of *)

(** The flags are those the pass started with. *)
Definition keeps (f0 : gmap string bool) (s : page_state) : Prop := flags s = f0.

(** [steady Q f0 c]: while [c] goes on, the flags stay [f0], and the
    calls it sends satisfy [Q]. *)
Definition steady {A : Type} (Q : list call -> list call -> Prop)
    (f0 : gmap string bool) (c : Page A) : Prop :=
  triple Q (keeps f0) c (fun _ => keeps f0).

(** The document a call saves. *)
Definition saves (c : call) : option json :=
  match c with
  | ProcessingConfigsCreate _ _ _ config_json
  | ProcessingConfigsUpdate _ _ _ config_json => Some config_json
  | _ => None
  end.

(** Every save among the calls [new], sent after [base], comes right
    after a validation of the document it saves, and that validation
    reported [is_valid]. *)
Definition validated_saves (float_repr : string -> string)
    (json_loads : string -> attempt json) (missing_column : string -> string)
    (sess : session) (base new : list call) : Prop :=
  forall pre c post config_json,
    new = (pre ++ c :: post)%list ->
    saves c = Some config_json ->
    exists pre',
      pre = (pre' ++ [ProcessingConfigsValidate config_json])%list
      /\ reports "is_valid"
           (fst (validate_processing_config float_repr json_loads missing_column
                   sess config_json (base ++ pre')%list))
         = Some true.

(** A deletion is confirmed: the flag of its confirmation was set when
    the pass started, and the confirm button is the one pressed. *)
Definition confirmed (f0 : gmap string bool) (w : page_widgets) (c : call) : Prop :=
  match c with
  | FileTypeConfigsDelete file_type _ =>
      f0 !! ("confirm_delete_" ++ file_type) = Some true
      /\ button w ("confirm_" ++ file_type) = true
  | ProcessingConfigsDelete config_name =>
      f0 !! ("confirm_delete_proc_" ++ config_name) = Some true
      /\ button w ("confirm_proc_" ++ config_name) = true
  | _ => True
  end.

Definition all_confirmed (f0 : gmap string bool) (w : page_widgets)
    (base new : list call) : Prop :=
  Forall (confirmed f0 w) new.

(** ** Sample sessions of the page *)

Definition invoice_row : row :=
  [("FILE_TYPE", JStr "INVOICE");
   ("FILE_DESCRIPTION", JStr "Invoices");
   ("CHUNK_SIZE", JInt 1000);
   ("CHUNK_OVERLAP", JInt 100);
   ("TARGET_LAG", JStr "5 minutes")].

Definition standard_row : row :=
  [("CONFIG_NAME", JStr "standard");
   ("PROCESSING_TYPE", JStr "AI_EXTRACT");
   ("CONFIG_MODEL", JStr "claude-4-sonnet");
   ("CONFIG_JSON", sample_document);
   ("CREATED_AT", JStr "2025-01-01");
   ("UPDATED_AT", JStr "2025-01-02")].

(** A warehouse with one document type and one processing
    configuration; its validator answers [is_valid] as told, and every
    other procedure answers success. *)
Definition sample_warehouse (is_valid : bool) : session :=
  fun _ sql =>
    if String.eqb sql "CALL FILE_TYPE_CONFIGS_GET()" then Ok [invoice_row]
    else if String.eqb sql "CALL PROCESSING_CONFIGS_GET()" then Ok [standard_row]
    else if String.eqb sql "CALL GET_AVAILABLE_MODELS()" then Ok []
    else if String.prefix "CALL PROCESSING_CONFIGS_VALIDATE(" sql
    then Ok [[("PROCESSING_CONFIGS_VALIDATE",
               JDict [("is_valid", JBool is_valid); ("errors", JList [])])]]
    else if String.prefix "CALL CHECK_PIPELINE_STATUS(" sql
    then Ok [[("CHECK_PIPELINE_STATUS", JDict [("objects", JDict [])])]]
    else if String.prefix "CALL FILE_TYPE_CONFIGS_DELETE(" sql
    then Ok [[("FILE_TYPE_CONFIGS_DELETE", JDict [("success", JBool true)])]]
    else Ok [[("PROCESSING_CONFIGS_UPDATE", JDict [("success", JBool true)])]].

(** [sample_warehouse] with a document type that has no chunk size. *)
Definition unsized_warehouse : session :=
  fun history sql =>
    if String.eqb sql "CALL FILE_TYPE_CONFIGS_GET()"
    then Ok [PyDict.set "CHUNK_SIZE" JNull invoice_row]
    else sample_warehouse true history sql.

(** Nothing pressed, nothing shown; the boxes of the editors hold the
    values of [sample_document]. *)
Definition idle : page_widgets :=
  {| button := fun _ => false;
     checkbox := fun _ => false;
     toggle := fun _ => false;
     text_input := fun _ => EmptyString;
     number_input := fun _ => 1000%Z;
     selectbox := fun _ => 0%nat;
     seeded_text_input := fun _ => JStr "Invoices";
     seeded_number_input := fun _ => JInt 1000;
     selectbox_value := fun _ => JNull;
     editor_widgets := fun _ => sample_widgets UIEditor EmptyString (fun k => k) |}.

Definition pressing (key : string) (pw : page_widgets) : page_widgets :=
  {| button := fun k => String.eqb k key || button pw k;
     checkbox := checkbox pw;
     toggle := toggle pw;
     text_input := text_input pw;
     number_input := number_input pw;
     selectbox := selectbox pw;
     seeded_text_input := seeded_text_input pw;
     seeded_number_input := seeded_number_input pw;
     selectbox_value := selectbox_value pw;
     editor_widgets := editor_widgets pw |}.

Definition showing (key : string) (pw : page_widgets) : page_widgets :=
  {| button := button pw;
     checkbox := checkbox pw;
     toggle := fun k => String.eqb k key || toggle pw k;
     text_input := text_input pw;
     number_input := number_input pw;
     selectbox := selectbox pw;
     seeded_text_input := seeded_text_input pw;
     seeded_number_input := seeded_number_input pw;
     selectbox_value := selectbox_value pw;
     editor_widgets := editor_widgets pw |}.

Definition typing (key text : string) (pw : page_widgets) : page_widgets :=
  {| button := button pw;
     checkbox := checkbox pw;
     toggle := toggle pw;
     text_input := fun k => if String.eqb k key then text else text_input pw k;
     number_input := number_input pw;
     selectbox := selectbox pw;
     seeded_text_input := seeded_text_input pw;
     seeded_number_input := seeded_number_input pw;
     selectbox_value := selectbox_value pw;
     editor_widgets := editor_widgets pw |}.

(** The session state of a first visit. *)
Definition fresh : page_state := {| flags := ∅; editors := ∅ |}.

(** The session state with one flag set. *)
Definition flagged (key : string) : page_state :=
  {| flags := {[ key := true ]}; editors := ∅ |}.

(** The calls of a pass from a state, nothing sent before. *)
Definition calls_of {A : Type} (c : Page A) (s : page_state) : list call :=
  snd (c s []).

(** The flags a pass may raise: [editing_<name>] when the button
    [edit_<name>] is pressed, [confirm_delete_<name>] when the button
    [delete_<name>] is.  The flags and buttons of the processing
    configurations are these with a [name] that starts with [proc_]. *)
Definition raises (w : page_widgets) (key : string) : Prop :=
  exists name,
    (key = "editing_" ++ name /\ button w ("edit_" ++ name) = true)
    \/ (key = "confirm_delete_" ++ name /\ button w ("delete_" ++ name) = true).

(** The flags [f1] that are set were set in [f0] or raised by a button. *)
Definition follows (w : page_widgets) (f0 f1 : gmap string bool) : Prop :=
  forall key, f1 !! key = Some true -> f0 !! key = Some true \/ raises w key.

(** However the piece ends, the flags it leaves follow those it found. *)
Definition lands {A : Type} (w : page_widgets) (c : Page A) : Prop :=
  forall s sent, follows w (flags s) (flags (snd (fst (c s sent)))).

(* ===================================================================== *)
(** * What the further properties speak of *)
(* ===================================================================== *)

(** ** Values as the boxes of the visual editor show them *)

(** A value that comes back as it is when its box is left alone: the box
    is given [str(value)] (lines 692, 768 and 826) and what it returns
    goes through the coercion (lines 700, 775 and 833). *)
Definition kept_by_box (float_repr : string -> string) (v : json) : Prop :=
  convert_string_to_appropriate_type (JStr (PyRepr.str float_repr v)) = v.

(** An integer the program can hold: [str] writes it with no more digits
    than [int] reads ([int] and [str] raise on the others, and so does
    [json.loads]). *)
Definition int_within_str_digits (n : Z) : bool :=
  PyStr.within_str_digits (CoercionSpec.strip_minus (Json.int_to_string n)).

(** [None], a list or a dictionary. *)
Definition is_nested (v : json) : bool :=
  match v with
  | JNull | JList _ | JDict _ => true
  | _ => false
  end.

(** The widgets of a pass in which the operator touches nothing of the
    document [d]: every box returns what it was given, no button is
    pressed and no form is submitted. *)
Definition untouched (float_repr : string -> string) (w : widgets)
    (d : list (string * json)) : Prop :=
  mode_select w = UIEditor
  /\ switch_to_json_clicked w = false
  /\ (forall n, fst (add_section_form w n) = false)
  /\ forall main_key main_value,
       PyDict.get main_key d = Some main_value ->
       section_name w main_key = main_key
       /\ delete_section_clicked w main_key = false
       /\ match main_value with
          | JDict fields =>
              (forall n, fst (add_property_form w main_key n) = false)
              /\ forall prop_key prop_value,
                   PyDict.get prop_key fields = Some prop_value ->
                   property_name w main_key prop_key = prop_key
                   /\ property_value w main_key prop_key
                      = PyRepr.str float_repr prop_value
                   /\ delete_property_clicked w main_key prop_key = false
          | JList items =>
              (forall n, fst (add_item_form w main_key n) = false)
              /\ forall i item,
                   items !! i = Some item ->
                   item_value w main_key i = PyRepr.str float_repr item
                   /\ delete_item_clicked w main_key i = false
          | _ => simple_value w main_key = PyRepr.str float_repr main_value
          end.

(** Every value a box of the document [d] shows is kept by its box. *)
Definition boxes_keep (float_repr : string -> string)
    (d : list (string * json)) : Prop :=
  forall main_key main_value,
    PyDict.get main_key d = Some main_value ->
    match main_value with
    | JDict fields =>
        forall prop_key prop_value,
          PyDict.get prop_key fields = Some prop_value ->
          kept_by_box float_repr prop_value
    | JList items =>
        forall i item, items !! i = Some item -> kept_by_box float_repr item
    | _ => kept_by_box float_repr main_value
    end.

(** The widgets as a first rendering of the document [d] sets them: each
    box holds the text it was given. *)
Definition seeded_widgets (float_repr : string -> string)
    (d : list (string * json)) : widgets :=
  {| mode_select := UIEditor;
     json_text_area := EmptyString;
     validate_clicked := false;
     switch_to_ui_clicked := false;
     section_name := fun main_key => main_key;
     delete_section_clicked := fun _ => false;
     property_name := fun _ prop_key => prop_key;
     property_value := fun main_key prop_key =>
       match PyDict.get main_key d with
       | Some (JDict fields) =>
           match PyDict.get prop_key fields with
           | Some prop_value => PyRepr.str float_repr prop_value
           | None => EmptyString
           end
       | _ => EmptyString
       end;
     delete_property_clicked := fun _ _ => false;
     add_property_form := fun _ _ => (false, (EmptyString, EmptyString));
     item_value := fun main_key i =>
       match PyDict.get main_key d with
       | Some (JList items) =>
           match items !! i with
           | Some item => PyRepr.str float_repr item
           | None => EmptyString
           end
       | _ => EmptyString
       end;
     delete_item_clicked := fun _ _ => false;
     add_item_form := fun _ _ => (false, EmptyString);
     simple_value := fun main_key =>
       match PyDict.get main_key d with
       | Some main_value => PyRepr.str float_repr main_value
       | None => EmptyString
       end;
     add_section_form := fun _ => (false, (EmptyString, SimpleValue));
     switch_to_json_clicked := false |}.

(** A document with a value, a section of properties and a list. *)
Definition sample_sections : list (string * json) :=
  [("search_limit", JInt 3);
   ("extraction_config",
    JDict [("effective_date", JStr "What is the effective date?");
           ("strict", JBool true)]);
   ("document_types", JList [JStr "MSA"; JStr "SOW"])].

(** The same with a property that holds nothing. *)
Definition sample_sections_with_null : list (string * json) :=
  [("extraction_config", JDict [("effective_date", JNull)])].

(** Two sections whose rows are given the same key,
    [..._prop_a_b_c]. *)
Definition colliding_sections : list (string * json) :=
  [("a", JDict [("b_c", JInt 1)]); ("a_b", JDict [("c", JInt 2)])].

Definition press_validate (w : widgets) : widgets :=
  {| mode_select := mode_select w;
     json_text_area := json_text_area w;
     validate_clicked := true;
     switch_to_ui_clicked := switch_to_ui_clicked w;
     section_name := section_name w;
     delete_section_clicked := delete_section_clicked w;
     property_name := property_name w;
     property_value := property_value w;
     delete_property_clicked := delete_property_clicked w;
     add_property_form := add_property_form w;
     item_value := item_value w;
     delete_item_clicked := delete_item_clicked w;
     add_item_form := add_item_form w;
     simple_value := simple_value w;
     add_section_form := add_section_form w;
     switch_to_json_clicked := switch_to_json_clicked w |}.

(** The session state a step leaves, however it ends. *)
Definition flow_editor (f : flow) : editor :=
  match f with
  | Next e => e
  | Stop (Rerun e) => e
  | Stop (Crash e _) => e
  end.

(** The session state a pass of the editor leaves; none when the editor
    could not be opened. *)
Definition state_after (r : rendered) : option editor :=
  match r with
  | Returned e _ => Some e
  | Ended (Rerun e) => Some e
  | Ended (Crash e _) => Some e
  | Unopened _ => None
  end.

(** A row of [PROCESSING_CONFIGS_GET] whose [CONFIG_JSON] is a text that
    does not parse. *)
Definition broken_row : row :=
  [("CONFIG_NAME", JStr "draft");
   ("PROCESSING_TYPE", JStr "CORTEX_SEARCH");
   ("CONFIG_MODEL", JStr "claude-4-sonnet");
   ("CONFIG_JSON", JStr "{")].

(** ** Calls that change the warehouse *)

(** The button behind a call that changes something.  The calls that only
    read are sent without one; the two calls of the main page are not
    sent from the configuration page at all. *)
Definition caused_by (w : page_widgets) (c : call) : Prop :=
  match c with
  | FileTypeConfigsCreate _ _ _ _ _ => button w "Create Document Type" = true
  | FileTypeConfigsUpdate file_type _ _ _ _ => button w ("save_" ++ file_type) = true
  | FileTypeConfigsDelete file_type _ =>
      button w ("confirm_" ++ file_type) = true
      \/ button w ("cleanup_" ++ file_type) = true
  | SetupFileProcessingPipeline file_type _ _ _ =>
      button w ("setup_" ++ file_type) = true
      \/ button w ("setup_pipeline_" ++ file_type) = true
  | ProcessFilesSync file_type _ _ _ => button w ("sync_files_" ++ file_type) = true
  | ProcessingConfigsCreate _ _ _ _ => button w "Create Configuration" = true
  | ProcessingConfigsUpdate config_name _ _ _ =>
      button w ("save_proc_" ++ config_name) = true
  | ProcessingConfigsDelete config_name =>
      button w ("confirm_proc_" ++ config_name) = true
  | FilesGetByType _ | CompareFiles _ _ _ _ => False
  | GetAvailableModels | FileTypeConfigsGet | CheckPipelineStatus _
  | ProcessingConfigsGet | ProcessingConfigsValidate _ => True
  end.

(** The calls that only read. *)
Definition reads (c : call) : bool :=
  match c with
  | GetAvailableModels | FileTypeConfigsGet | CheckPipelineStatus _
  | ProcessingConfigsGet | ProcessingConfigsValidate _ => true
  | _ => false
  end.

(** A document type is created as the form holds it: the name typed, in
    capitals, and the other fields, the name and the description not
    empty and the name letters, digits, hyphens and underscores only. *)
Definition created_as_typed (str_upper : string -> string) (w : page_widgets)
    (c : call) : Prop :=
  match c with
  | FileTypeConfigsCreate file_type file_description chunk_size chunk_overlap target_lag =>
      file_type = str_upper (text_input w "File Type:")
      /\ file_description = text_input w "Description:"
      /\ chunk_size = number_input w "Chunk Size:"
      /\ chunk_overlap = number_input w "Chunk Overlap:"
      /\ target_lag = chosen EmptyString lag_options (selectbox w "Target Lag:")
      /\ PyStr.is_empty (text_input w "File Type:") = false
      /\ PyStr.is_empty (text_input w "Description:") = false
      /\ isalnum (PyStr.replace "-" "" (PyStr.replace "_" "" (text_input w "File Type:")))
         = true
  | _ => True
  end.

(* ===================================================================== *)
(** * The main page: [streamlit_app.py] *)
(* ===================================================================== *)

(** What the main page and the upload page send: the procedure calls,
    and three statements the configuration page has no use for. *)
Inductive request : Type :=
| Procedure (c : call)
| AvailableFileTypesGet
| ShowStagesLike (stage_name : string)
| ListStage (stage_name : string).

(** The text of a request, as the f-strings write it. *)
Definition request_text (float_repr : string -> string) (r : request) : string :=
  match r with
  | Procedure c => Sql.statement float_repr c
  | AvailableFileTypesGet => "CALL AVAILABLE_FILE_TYPES_GET()"
  | ShowStagesLike stage_name => "SHOW STAGES LIKE " ++ Sql.quoted stage_name
  | ListStage stage_name => "LIST " ++ stage_name
  end.

(** A computation that sends requests. *)
Definition Script (A : Type) : Type := list request -> A * list request.

Definition sret {A : Type} (a : A) : Script A := fun sent => (a, sent).

Definition sbind {A B : Type} (c : Script A) (k : A -> Script B) : Script B :=
  fun sent => let (a, sent') := c sent in k a sent'.

Notation "'letS' x ':=' c 'in' k" := (sbind c (fun x => k))
  (at level 10, x name, c at level 100, k at level 200, only parsing).

(** [self.session.sql(text).collect()] for the text of a request. *)
Definition ask (float_repr : string -> string) (sess : session) (r : request)
    : Script (attempt (list row)) :=
  fun sent =>
    (sess (map (request_text float_repr) sent) (request_text float_repr r),
     (sent ++ [r])%list).

(** The session as a wrapper of the earlier sections meets it when the
    requests [sent] have gone before. *)
Definition seen_by (float_repr : string -> string) (sess : session)
    (sent : list request) : session :=
  fun history text => sess (map (request_text float_repr) sent ++ history)%list text.

(** A wrapper of the earlier sections, called from a script. *)
Definition wrapped {A : Type} (float_repr : string -> string)
    (g : session -> Gateway A) (sess : session) : Script A :=
  fun sent =>
    let (a, new) := g (seen_by float_repr sess sent) [] in
    (a, (sent ++ map Procedure new)%list).

(** How a pass of the main page ends before its last line: [st.rerun()],
    [st.stop()], or an exception nothing catches. *)
Inductive finish : Type :=
| Reruns
| Stops
| Fails (why : string).

Inductive progress (A : Type) : Type :=
| Goes (a : A)
| Ends (f : finish).
Arguments Goes {A} a.
Arguments Ends {A} f.

(** A piece of a pass of the main page: [st.session_state] is a map from
    keys to values; a widget that is given a key keeps what it returns
    under that key. *)
Definition App (A : Type) : Type :=
  gmap string json -> list request -> (progress A * gmap string json) * list request.

Definition aret {A : Type} (a : A) : App A := fun st sent => ((Goes a, st), sent).

Definition abind {A B : Type} (c : App A) (k : A -> App B) : App B :=
  fun st sent =>
    match c st sent with
    | ((Goes a, st'), sent') => k a st' sent'
    | ((Ends f, st'), sent') => ((Ends f, st'), sent')
    end.

Notation "'letA' x ':=' c 'in' k" := (abind c (fun x => k))
  (at level 10, x name, c at level 100, k at level 200, only parsing).

Definition ends {A : Type} (f : finish) : App A := fun st sent => ((Ends f, st), sent).

Definition request_of {A : Type} (c : Script A) : App A :=
  fun st sent => let (a, sent') := c sent in ((Goes a, st), sent').

(** [st.session_state[key] = v] *)
Definition state_set (key : string) (v : json) : App unit :=
  fun st sent => ((Goes tt, <[key := v]> st), sent).

(** [st.session_state.get(key)] *)
Definition state_get (key : string) : App (option json) :=
  fun st sent => ((Goes (st !! key), st), sent).

(** [if key not in st.session_state: st.session_state[key] = v] *)
Definition state_default (key : string) (v : json) : App unit :=
  fun st sent =>
    ((Goes tt, match st !! key with Some _ => st | None => <[key := v]> st end), sent).

(** [d[key]] *)
Definition app_item (key : string) (d : row) : App json :=
  match PyDict.get key d with
  | Some v => aret v
  | None => ends (Fails ("KeyError: " ++ key))
  end.

Fixpoint app_each {A B : Type} (body : A -> App B) (l : list A) : App (list B) :=
  match l with
  | [] => aret []
  | a :: r =>
      letA b := body a in
      letA bs := app_each body r in
      aret (b :: bs)
  end.

(** What the widgets of the main page return in one pass, by key (by
    label for those without a key).  A select box returns one of its
    options, told by its place; when the options are no list it returns
    what the library makes of them. *)
Record app_widgets : Type := AppWidgets {
  app_selectbox : string -> nat;
  app_selectbox_value : string -> json;
  app_number_input : string -> Z;
  app_button : string -> bool
}.

(** The keys line 555 clears. *)
Definition selection_key (key : string) : bool :=
  String.prefix "doc_type_" key || String.prefix "file_" key.

Section MainPage.
Variable float_repr : string -> string.
Variable json_loads : string -> attempt json.
Variable missing_column : string -> string.
(** Python's [==] on two values, as [in] and [list.index] use it:
    [py_eq item x] is [item is x or item == x]. *)
Variable py_eq : json -> json -> bool.
Variable sess : session.
Variable w : app_widgets.

(** [[row["FILE_TYPE"] for row in result]] *)
Fixpoint file_type_column (rows : list row) : attempt (list json) :=
  match rows with
  | [] => Ok []
  | r :: rest =>
      letE file_type := row_item missing_column "FILE_TYPE" r in
      letE others := file_type_column rest in
      Ok (file_type :: others)
  end.

(** [FrostlogicApp.get_available_file_types]: [[]] on an exception. *)
Definition get_available_file_types : Script (list json) :=
  letS result := ask float_repr sess AvailableFileTypesGet in
  sret (match (letE rows := result in file_type_column rows) with
        | Ok file_types => file_types
        | Raise _ => []
        end).

(** [l.index(x)], [None] for [ValueError]. *)
Fixpoint list_index (x : json) (l : list json) : option nat :=
  match l with
  | [] => None
  | item :: rest =>
      if py_eq item x then Some O else option_map S (list_index x rest)
  end.

(** [x in l] *)
Definition list_contains (x : json) (l : list json) : bool :=
  existsb (fun item => py_eq item x) l.

(** Lines 458-465 of [run]: the list of models offered and the index
    preselected. *)
Definition model_choice (available_models : list json) (config_model : json)
    : list json * nat :=
  match list_index config_model available_models with
  | Some default_index => (available_models, default_index)
  | None =>
      if negb (list_contains config_model available_models)
      then (config_model :: available_models, O)
      else (available_models, O)
  end.

(** A select box that is given a key. *)
Definition keyed_selectbox (key : string) (fallback : json) (options : list json)
    : App json :=
  let value := chosen fallback options (app_selectbox w key) in
  letA _ := state_set key value in
  aret value.

(** A select box that is given a key and options that are no list. *)
Definition keyed_selectbox_value (key : string) : App json :=
  let value := app_selectbox_value w key in
  letA _ := state_set key value in
  aret value.

(** Lines 458-465 when the models are a text: [str.index] takes a text
    only, and finds one that is within the models; with one that is not,
    the [ValueError] is caught and line 464 calls [insert], which a text
    does not have. *)
Definition text_choice (available_models : string) (config_model : json) : App unit :=
  match config_model with
  | JStr model =>
      if PyStr.has_substring model available_models then aret tt
      else ends (Fails "AttributeError: 'str' object has no attribute 'insert'")
  | _ => ends (Fails "TypeError: must be str")
  end.

(** Lines 458-474: the model select box.  What is neither a list nor a
    text has no [index]. *)
Definition model_selection (supported_models config_model : json) : App json :=
  match supported_models with
  | JList supported =>
      let (available_models, default_index) := model_choice supported config_model in
      keyed_selectbox "model_selection" JNull available_models
  | JStr available_models =>
      letA _ := text_choice available_models config_model in
      keyed_selectbox_value "model_selection"
  | _ => ends (Fails "AttributeError: 'index'")
  end.

(** [f"{index}"] *)
Definition index_text (index : nat) : string := Json.int_to_string (Z.of_nat index).

(** The label of a file in the select box of line 38. *)
Definition file_label (f : row) : App string :=
  letA file_name := app_item "FILE_NAME" f in
  letA chunk_count := app_item "CHUNK_COUNT" f in
  aret (PyRepr.str float_repr file_name ++ " ("
        ++ PyRepr.str float_repr chunk_count ++ " chunks)").

(** The dictionary comprehension of line 35: a label met again takes the
    later file and keeps its place. *)
Fixpoint file_options (options : list (string * row)) (files : list row)
    : App (list (string * row)) :=
  match files with
  | [] => aret options
  | f :: rest =>
      letA label := file_label f in
      file_options (PyDict.set label f options) rest
  end.

(** [FrostlogicApp._render_document_selector] *)
Definition render_document_selector (index : nat) (available_types : list json)
    : App (option json) :=
  letA doc_type :=
    keyed_selectbox ("doc_type_" ++ index_text index) (JStr "None")
      (JStr "None" :: available_types) in
  if negb (is_text "None" doc_type) then
    letA files :=
      request_of (wrapped float_repr
                    (fun s => get_files_by_type float_repr s (PyRepr.str float_repr doc_type))
                    sess) in
    match files with
    | [] => aret None
    | _ :: _ =>
        letA options := file_options [] files in
        letA selected_file_key :=
          keyed_selectbox ("file_" ++ index_text index) (JStr EmptyString)
            (map JStr (PyDict.keys options)) in
        match PyDict.get (PyRepr.str float_repr selected_file_key) options with
        | None => ends (Fails "KeyError")
        | Some selected_file =>
            letA _ := app_item "FILE_NAME" selected_file in
            letA _ := app_item "CHUNK_COUNT" selected_file in
            letA _ := app_item "LAST_PROCESSED" selected_file in
            letA stage_path := app_item "STAGE_PATH" selected_file in
            aret (Some (JDict [("file_name", stage_path); ("file_type", doc_type)]))
        end
    end
  else aret None.

(** The labels of the configurations, line 441. *)
Definition config_label (config : row) : App string :=
  letA config_name := app_item "CONFIG_NAME" config in
  letA processing_type := app_item "PROCESSING_TYPE" config in
  aret (PyRepr.str float_repr config_name ++ " ("
        ++ PyRepr.str float_repr processing_type ++ ")").

Fixpoint config_options (options : list (string * row)) (configs : list row)
    : App (list (string * row)) :=
  match configs with
  | [] => aret options
  | config :: rest =>
      letA label := config_label config in
      config_options (PyDict.set label config options) rest
  end.

(** Lines 553-560: a changed number of documents clears the selections
    and the results.  [st.session_state.get('num_documents')] is [None]
    when the key is absent, and [None != num_documents] holds. *)
Definition set_num_documents (num_documents : Z) : App unit :=
  fun st sent =>
    let changed :=
      match st !! "num_documents" with
      | Some stored => negb (py_eq stored (JInt num_documents))
      | None => true
      end in
    let st1 :=
      if changed
      then <["processing_results" := JNull]>
             (filter (fun kv => selection_key (fst kv) = false) st)
      else st in
    ((Goes tt, <["num_documents" := JInt num_documents]> st1), sent).

(** The documents selected, lines 593-598: the selectors are rendered in
    order and those that return a document are kept. *)
Fixpoint select_documents (indexes : list nat) (available_types : list json)
    : App (list json) :=
  match indexes with
  | [] => aret []
  | i :: rest =>
      letA doc_info := render_document_selector i available_types in
      letA others := select_documents rest available_types in
      aret (match doc_info with
            | Some doc => doc :: others
            | None => others
            end)
  end.

(** [FrostlogicApp.run], lines 417-677.  The lines that only write to
    the screen (the recommendations, the captions, the results) are not
    followed. *)
Definition run : App unit :=
  letA _ := state_default "processing_results" JNull in
  letA _ := state_default "selected_files" (JDict []) in
  letA processing_configs :=
    request_of (wrapped float_repr
                  (fun s => get_processing_configs float_repr json_loads missing_column s)
                  sess) in
  match processing_configs with
  | [] => ends Stops
  | _ :: _ =>
      letA options := config_options [] processing_configs in
      let selected_config_key :=
        chosen EmptyString (PyDict.keys options)
          (app_selectbox w "Select Processing Configuration:") in
      match PyDict.get selected_config_key options with
      | None => ends (Fails "KeyError")
      | Some selected_config =>
          letA models_data :=
            request_of (wrapped float_repr
                          (fun s => app_get_available_models float_repr json_loads
                                      missing_column s)
                          sess) in
          match get_or "supported_models" (JList [JStr "claude-4-sonnet"]) models_data with
          | None => ends (Fails "AttributeError: 'get'")
          | Some supported_models =>
              letA config_model := app_item "CONFIG_MODEL" selected_config in
              letA selected_model := model_selection supported_models config_model in
              letA _ := state_set "selected_model" selected_model in
              letA _ := app_item "PROCESSING_TYPE" selected_config in
              letA config_json := app_item "CONFIG_JSON" selected_config in
              letA _ :=
                (match get_or "extraction_config" (JDict []) config_json with
                 | None => ends (Fails "AttributeError: 'get'")
                 | Some (JDict _) | Some (JList _) | Some (JStr _) => aret tt
                 | Some _ => ends (Fails "TypeError: len")
                 end) in
              let num_documents :=
                app_number_input w "Number of documents to compare:" in
              letA _ := set_num_documents num_documents in
              letA available_types := request_of get_available_file_types in
              match available_types with
              | [] => ends Stops
              | _ :: _ =>
                  if (num_documents <=? 0)%Z
                  then ends (Fails "StreamlitAPIException: columns")
                  else
                    letA selected_documents :=
                      select_documents (seq 0 (Z.to_nat num_documents))
                        available_types in
                    let button_text :=
                      if (1 <? length selected_documents)%nat
                      then "Process Documents" else "Analyze Document" in
                    letA _ :=
                      (if app_button w button_text then
                         match selected_documents with
                         | [] => aret tt
                         | _ :: _ =>
                             letA stored := state_get "selected_model" in
                             let model_to_use := default config_model stored in
                             letA results :=
                               request_of
                                 (wrapped float_repr
                                    (fun s =>
                                       process_documents float_repr json_loads
                                         missing_column s (JList selected_documents)
                                         selected_config
                                         (PyRepr.str float_repr model_to_use))
                                    sess) in
                             letA _ := state_set "processing_results" results in
                             ends Reruns
                         end
                       else aret tt) in
                    letA _ :=
                      (if app_button w "Clear Results" then
                         letA _ := state_set "processing_results" JNull in
                         ends Reruns
                       else aret tt) in
                    aret tt
              end
          end
      end
  end.

End MainPage.

(** ** Sample sessions of the main page *)

(** [==] for the runs that are evaluated: their values are texts and
    whole numbers. *)
Definition example_py_eq (a b : json) : bool :=
  match a, b with
  | JStr s, JStr t => String.eqb s t
  | JInt m, JInt n => (m =? n)%Z
  | _, _ => false
  end.

Definition contract_row : row :=
  [("FILE_NAME", JStr "contract1.pdf");
   ("STAGE_NAME", JStr "MSA_STAGE");
   ("FULL_PATH", JStr "contract1.pdf");
   ("CHUNK_COUNT", JInt 12);
   ("LAST_PROCESSED", JStr "2025-01-02")].

(** A warehouse with one processing configuration, one document type
    and one processed file; the comparison answers success. *)
Definition app_warehouse : session :=
  fun _ sql =>
    if String.eqb sql "CALL PROCESSING_CONFIGS_GET()" then Ok [standard_row]
    else if String.eqb sql "CALL GET_AVAILABLE_MODELS()" then Ok []
    else if String.eqb sql "CALL AVAILABLE_FILE_TYPES_GET()"
    then Ok [[("FILE_TYPE", JStr "MSA")]]
    else if String.prefix "CALL FILES_GET_BY_TYPE(" sql then Ok [contract_row]
    else Ok [[("COMPARE_FILES_AISQL", JDict [("success", JBool true)])]].

(** [app_warehouse] with a procedure that gives the models as one text. *)
Definition text_models_warehouse (models : string) : session :=
  fun history sql =>
    if String.eqb sql "CALL GET_AVAILABLE_MODELS()"
    then Ok [[("GET_AVAILABLE_MODELS", JDict [("supported_models", JStr models)])]]
    else app_warehouse history sql.

(** One document asked for; the first select box of a document type is
    at its option [choice] (option 0 is [None]). *)
Definition app_idle (choice : nat) : app_widgets :=
  {| app_selectbox := fun key => if String.eqb key "doc_type_0" then choice else O;
     app_selectbox_value := fun _ => JNull;
     app_number_input := fun _ => 1%Z;
     app_button := fun _ => false |}.

Definition app_pressing (label : string) (aw : app_widgets) : app_widgets :=
  {| app_selectbox := app_selectbox aw;
     app_selectbox_value := app_selectbox_value aw;
     app_number_input := app_number_input aw;
     app_button := fun k => String.eqb k label || app_button aw k |}.

(** ** What the properties of the main page speak of *)

(** [sends P c R]: the piece [c] only adds requests, every request it
    adds satisfies [P], and when it goes on its value satisfies [R]. *)
Definition sends {A : Type} (P : request -> Prop) (c : App A) (R : A -> Prop) : Prop :=
  forall st sent,
    exists new,
      snd (c st sent) = (sent ++ new)%list
      /\ Forall P new
      /\ forall a, fst (fst (c st sent)) = Goes a -> R a.

(** A file record with a stage path that starts with [@]. *)
Definition has_stage_path (f : row) : Prop :=
  exists path, PyDict.get "STAGE_PATH" f = Some (JStr (String "@" path)).

(** A selected document: its [file_name] is a stage path. *)
Definition stage_qualified (doc : json) : Prop :=
  exists path file_type,
    doc = JDict [("file_name", JStr (String "@" path)); ("file_type", file_type)].

(** The requests of the main page: four that read, and a comparison of
    at least one document, every one named by its stage path. *)
Definition main_page_request (r : request) : Prop :=
  match r with
  | Procedure ProcessingConfigsGet | Procedure GetAvailableModels
  | AvailableFileTypesGet | Procedure (FilesGetByType _) => True
  | Procedure (CompareFiles procedure_name file_config _ _) =>
      (procedure_name = "COMPARE_FILES" \/ procedure_name = "COMPARE_FILES_AISQL")
      /\ exists docs,
           file_config = JList docs /\ docs <> [] /\ Forall stage_qualified docs
  | _ => False
  end.

(* ===================================================================== *)
(** * The name shown for a file *)
(* ===================================================================== *)

(** [s.split(sep)] for a one-character separator: the pieces between
    the separators, one piece at least. *)
Fixpoint split (sep : ascii) (s : string) : list string :=
  match s with
  | EmptyString => [EmptyString]
  | String c rest =>
      if Ascii.eqb c sep then EmptyString :: split sep rest
      else match split sep rest with
           | piece :: pieces => String c piece :: pieces
           | [] => [String c EmptyString]
           end
  end.

(** [s.split('/')[-1] if '/' in s else s] *)
Definition after_last_slash (s : string) : string :=
  if PyStr.contains "/" s then List.last (split "/" s) EmptyString else s.

(** The name written for a selected or analysed file, lines 628-630 (and
    637-639, 289-291, 235-237, 313-315) of [streamlit_app.py]. *)
Definition file_display (file_name : string) : string :=
  let file_display := after_last_slash file_name in
  if PyStr.startswith "@" file_display
  then after_last_slash file_display
  else file_display.

(* ===================================================================== *)
(** * The stage browser: [pages/02_Upload_Files.py] *)
(* ===================================================================== *)

Section UploadPage.
Variable float_repr : string -> string.
Variable sess : session.
Variable w : app_widgets.

(** [f"{file_type}_STAGE"] *)
Definition stage_of (file_type : json) : string :=
  PyRepr.str float_repr file_type ++ "_STAGE".

(** [FileUploadManager.check_stage_exists]: [False] on an exception. *)
Definition check_stage_exists (file_type : json) : Script bool :=
  let stage_name := stage_of file_type in
  letS result := ask float_repr sess (ShowStagesLike stage_name) in
  sret (match result with
        | Ok rows => (0 <? length rows)%nat
        | Raise _ => false
        end).

(** One entry of [list_stage_files]. *)
Definition stage_file (row_dict : row) : row :=
  [("name", default (JStr "Unknown") (PyDict.get "name" row_dict));
   ("size", default (JInt 0) (PyDict.get "size" row_dict));
   ("last_modified", default (JStr "Unknown") (PyDict.get "last_modified" row_dict));
   ("md5", default (JStr "Unknown") (PyDict.get "md5" row_dict))].

(** [FileUploadManager.list_stage_files]: [[]] on an exception. *)
Definition list_stage_files (file_type : json) : Script (list row) :=
  let stage_name := "@" ++ stage_of file_type in
  letS result := ask float_repr sess (ListStage stage_name) in
  sret (match result with
        | Ok rows => map stage_file rows
        | Raise _ => []
        end).

(** [[f['FILE_TYPE'] for f in file_types]] *)
Definition file_type_options (file_types : list row) : App (list json) :=
  app_each (app_item "FILE_TYPE") file_types.

(** [render_stage_file_browser], lines 294-355, up to the table: the
    lines that format the table send nothing and are not followed. *)
Definition render_stage_file_browser : App unit :=
  letA file_types := request_of (wrapped float_repr (get_file_type_configs float_repr) sess) in
  match file_types with
  | [] => aret tt
  | _ :: _ =>
      letA options := file_type_options file_types in
      letA browse_file_type := keyed_selectbox w "browse_file_type" JNull options in
      if Json.truthy browse_file_type then
        letA stage_exists := request_of (check_stage_exists browse_file_type) in
        if stage_exists then
          letA stage_files := request_of (list_stage_files browse_file_type) in
          aret tt
        else aret tt
      else aret tt
  end.

End UploadPage.

(** A warehouse where every stage that is asked for is found (or none
    is) and holds one file. *)
Definition upload_warehouse (found : bool) : session :=
  fun _ sql =>
    if String.eqb sql "CALL FILE_TYPE_CONFIGS_GET()"
    then Ok [[("FILE_TYPE", JStr "MSA")]]
    else if String.prefix "SHOW STAGES LIKE " sql
    then Ok (if found then [[("name", JStr "MSA_STAGE")]] else [])
    else Ok [[("name", JStr "msa_stage/contract1.pdf"); ("size", JInt 2048)]].

(** The text a request is sent as after the requests [sent], and what
    the session answers to it. *)
Definition reply (float_repr : string -> string) (sess : session)
    (sent : list request) (r : request) : attempt (list row) :=
  sess (map (request_text float_repr) sent) (request_text float_repr r).

(* ===================================================================== *)
(** * Properties *)
(* ===================================================================== *)

Example coerce_samples :
  map (fun s => convert_string_to_appropriate_type (JStr s))
      ["42"; "-7"; "+5"; "007"; "1.5"; "-1.5"; ".5"; "5."; "1.2.3"; "1-2.3";
       "TRUE"; "False"; "abc"; ""; "-"; "."; "-."]
  = [JInt 42; JInt (-7); JStr "+5"; JInt 7; JFloat "1.5"; JFloat "-1.5";
     JFloat ".5"; JFloat "5."; JStr "1.2.3"; JStr "1-2.3";
     JBool true; JBool false; JStr "abc"; JStr ""; JStr "-"; JStr "."; JStr "-."].
Proof. vm_compute. reflexivity. Qed.

(** ** Characters and runs of digits *)

#[local] Arguments Ascii.eqb : simpl never.
#[local] Arguments PyStr.is_decimal : simpl never.
#[local] Arguments PyStr.is_digit : simpl never.
#[local] Arguments PyStr.within_str_digits : simpl never.

Section CoercionFacts.
Import PyStr CoercionSpec.

Lemma decimal_is_digit c : is_decimal c = true -> is_digit c = true.
Proof. unfold is_digit. intros ->. reflexivity. Qed.

Lemma all_decimal_all_digit s :
  all_chars is_decimal s = true -> all_chars is_digit s = true.
Proof.
  induction s as [|c t IH]; simpl; [reflexivity|].
  intros [Hc Ht]%andb_prop.
  rewrite (decimal_is_digit _ Hc), (IH Ht). reflexivity.
Qed.

Lemma decimal_run_isdigit s : is_decimal_run s = true -> isdigit s = true.
Proof.
  unfold is_decimal_run, isdigit.
  intros [Hn Ha]%andb_prop.
  rewrite Hn, (all_decimal_all_digit _ Ha). reflexivity.
Qed.

Lemma head_viewP s : head_view s.
Proof.
  destruct s as [|c t]; [constructor|].
  destruct c as [[] [] [] [] [] [] [] []];
    first [ apply HeadMinus | apply HeadPlus
          | apply HeadOther; reflexivity ].
Qed.
Lemma point_not_decimal c : Ascii.eqb c "." = true -> is_decimal c = false.
Proof. intros ->%Ascii.eqb_eq. reflexivity. Qed.

(** [float_body] read off as three independent conditions. *)
Lemma float_body_spec u : forall seen_point seen_digit,
  float_body seen_point seen_digit u
  = all_chars digit_or_point u
    && Nat.leb (count_char "." u + (if seen_point then 1 else 0)) 1
    && (seen_digit || has_char is_decimal u).
Proof.
  induction u as [|c t IH]; intros sp sd; simpl.
  - destruct sp, sd; reflexivity.
  - unfold digit_or_point at 1.
    destruct (is_decimal c) eqn:Hd; simpl.
    + assert (Ascii.eqb "." c = false) as ->.
      { destruct (Ascii.eqb_spec "." c) as [<-|]; [discriminate Hd|reflexivity]. }
      rewrite IH. simpl. rewrite orb_true_r. reflexivity.
    + destruct (Ascii.eqb_spec c ".") as [->|Hne]; simpl.
      * destruct sp; simpl.
        -- replace (count_char "." t + 1)%nat with (S (count_char "." t)) by lia.
           simpl. rewrite andb_false_r. reflexivity.
        -- rewrite IH, Nat.add_0_r.
           replace (count_char "." t + 1)%nat with (S (count_char "." t)) by lia.
           reflexivity.
      * reflexivity.
Qed.

Lemma replace_point_decimal u :
  all_chars digit_or_point u = true ->
  all_chars is_decimal (replace "." "" u) = true.
Proof.
  induction u as [|c t IH]; simpl; [reflexivity|].
  intros [Hc Ht]%andb_prop. unfold digit_or_point in Hc.
  destruct (Ascii.eqb_spec "." c) as [<-|Hne]; simpl.
  - apply IH, Ht.
  - apply orb_prop in Hc as [Hc|Hc].
    + rewrite Hc. apply IH, Ht.
    + apply Ascii.eqb_eq in Hc. congruence.
Qed.

Lemma replace_point_nonempty u :
  has_char is_decimal u = true -> is_empty (replace "." "" u) = false.
Proof.
  induction u as [|c t IH]; simpl; [discriminate|].
  destruct (Ascii.eqb_spec "." c) as [<-|Hne]; simpl.
  - intros H. apply IH, H.
  - reflexivity.
Qed.

Lemma replace_minus_decimal v :
  all_chars is_decimal v = true -> replace "-" "" v = v.
Proof.
  induction v as [|c t IH]; simpl; [reflexivity|].
  intros [Hc Ht]%andb_prop.
  destruct (Ascii.eqb_spec "-" c) as [<-|Hne]; [discriminate Hc|].
  rewrite (IH Ht). reflexivity.
Qed.

Lemma count_contains c u : contains c u = negb (Nat.eqb (count_char c u) 0).
Proof.
  induction u as [|d t IH]; simpl; [reflexivity|].
  destruct (Ascii.eqb c d); simpl; [reflexivity|exact IH].
Qed.

(** The first [try] block returns exactly on [minus_int_digits]. *)
Lemma try_int_spec s :
  try_int s = if minus_int_digits s then Some (JInt (signed_value s)) else None.
Proof.
  unfold try_int, minus_int_digits, minus_digits, strip_minus, signed_value, py_int,
    int_digits.
  destruct (head_viewP s) as [|t|t|c t Hm Hp Hsel Hsel2].
  - reflexivity.
  - change (isdigit (String "-" t)) with false. simpl.
    destruct (is_decimal_run t) eqn:Hr.
    + rewrite (decimal_run_isdigit _ Hr). simpl.
      destruct (within_str_digits t); reflexivity.
    + destruct (isdigit t); reflexivity.
  - change (isdigit (String "+" t)) with false.
    change (is_decimal_run (String "+" t)) with false. reflexivity.
  - rewrite !Hsel, !Hsel2. unfold startswith. rewrite Ascii.eqb_sym, Hm. simpl.
    rewrite orb_false_r.
    destruct (is_decimal_run (String c t)) eqn:Hr.
    + rewrite (decimal_run_isdigit _ Hr). simpl.
      destruct (within_str_digits (String c t)); reflexivity.
    + destruct (isdigit (String c t)); reflexivity.
Qed.

(** A run of digits has no point. *)
Lemma decimal_run_no_point u :
  all_chars is_decimal u = true -> all_chars digit_or_point u = true /\ count_char "." u = O.
Proof.
  induction u as [|c t IH]; simpl; [split; reflexivity|].
  intros [Hc Ht]%andb_prop. destruct (IH Ht) as [Ha Hn].
  unfold digit_or_point at 1. rewrite Hc, Ha, Hn.
  destruct (Ascii.eqb_spec "." c) as [<-|_]; [discriminate Hc|split; reflexivity].
Qed.

(** Digits after an optional minus sign are not a number with a point. *)
Lemma minus_digits_not_point_number s :
  minus_digits s = true -> minus_point_number s = false.
Proof.
  unfold minus_digits, minus_point_number, strip_minus, is_decimal_run.
  destruct (head_viewP s) as [|t|t|c t Hm Hp Hsel Hsel2].
  - discriminate.
  - intros [_ Ha]%andb_prop. destruct (decimal_run_no_point _ Ha) as [_ ->]. reflexivity.
  - intros [_ Ha]%andb_prop. destruct (decimal_run_no_point _ Ha) as [_ ->]. reflexivity.
  - rewrite !Hsel2. intros [_ Ha]%andb_prop.
    destruct (decimal_run_no_point _ Ha) as [_ ->]. reflexivity.
Qed.

Lemma float_guard_body u :
  float_body false false u = true ->
  contains "." u = true ->
  Nat.eqb (count_char "." u) 1 = true
  /\ all_chars digit_or_point u = true
  /\ has_char is_decimal u = true.
Proof.
  rewrite float_body_spec, count_contains. simpl. rewrite Nat.add_0_r.
  intros [[Ha Hc]%andb_prop Hh]%andb_prop Hn.
  repeat split; try assumption.
  apply Nat.leb_le in Hc. apply negb_true_iff, Nat.eqb_neq in Hn.
  apply Nat.eqb_eq. lia.
Qed.

Lemma point_number_body u :
  Nat.eqb (count_char "." u) 1 = true ->
  all_chars digit_or_point u = true ->
  has_char is_decimal u = true ->
  float_body false false u = true
  /\ contains "." u = true
  /\ isdigit (replace "-" "" (replace "." "" u)) = true.
Proof.
  intros Hc Ha Hh. apply Nat.eqb_eq in Hc.
  rewrite float_body_spec, count_contains, Ha, Hh, Hc. simpl.
  repeat split.
  pose proof (replace_point_decimal _ Ha) as Hd.
  rewrite (replace_minus_decimal _ Hd).
  apply decimal_run_isdigit. unfold is_decimal_run.
  rewrite Hd, (replace_point_nonempty _ Hh). reflexivity.
Qed.

(** The second [try] block returns exactly on [minus_point_number]. *)
Lemma try_float_spec s :
  try_float s = if minus_point_number s then Some (JFloat s) else None.
Proof.
  unfold try_float, minus_point_number, strip_minus, py_float_ok.
  destruct (head_viewP s) as [|t|t|c t Hm Hp Hsel Hsel2].
  - reflexivity.
  - change (contains "." (String "-" t)) with (contains "." t).
    change (replace "-" "" (replace "." "" (String "-" t)))
      with (replace "-" "" (replace "." "" t)).
    destruct (Nat.eqb (count_char "." t) 1 && all_chars digit_or_point t
              && has_char is_decimal t) eqn:E.
    + apply andb_prop in E as [[Hc Ha]%andb_prop Hh].
      destruct (point_number_body t Hc Ha Hh) as (-> & -> & ->). reflexivity.
    + destruct (contains "." t) eqn:Hin; [|reflexivity].
      destruct (isdigit _); [|reflexivity]. cbn [andb].
      destruct (float_body false false t) eqn:Hb; [|reflexivity].
      destruct (float_guard_body t Hb Hin) as (Hc & Ha & Hh).
      rewrite Hc, Ha, Hh in E. discriminate E.
  - change (all_chars digit_or_point (String "+" t)) with false.
    rewrite andb_false_r. simpl.
    change (isdigit (String "+" (replace "-" "" (replace "." "" t)))) with false.
    rewrite andb_false_r. reflexivity.
  - rewrite !Hsel, !Hsel2.
    destruct (Nat.eqb (count_char "." (String c t)) 1
              && all_chars digit_or_point (String c t)
              && has_char is_decimal (String c t)) eqn:E.
    + apply andb_prop in E as [[Hc Ha]%andb_prop Hh].
      destruct (point_number_body _ Hc Ha Hh) as (-> & -> & ->). reflexivity.
    + destruct (contains "." (String c t)) eqn:Hin; [|reflexivity].
      destruct (isdigit _); [|reflexivity]. cbn [andb].
      destruct (float_body false false (String c t)) eqn:Hb; [|reflexivity].
      destruct (float_guard_body _ Hb Hin) as (Hc & Ha & Hh).
      rewrite Hc, Ha, Hh in E. discriminate E.
Qed.
End CoercionFacts.

(** ** The coercion rule *)


(** A run of digits longer than [int] converts stays text: [int] raises,
    the [except] swallows it, and no later clause applies. *)
Lemma long_digit_run_stays_text (s : string) :
  CoercionSpec.minus_digits s = true ->
  PyStr.within_str_digits (CoercionSpec.strip_minus s) = false ->
  convert_string_to_appropriate_type (JStr s) = JStr s.
Proof.
  intros Hd Hlong. unfold convert_string_to_appropriate_type.
  rewrite try_int_spec, try_float_spec. unfold CoercionSpec.minus_int_digits.
  rewrite Hd, Hlong, (minus_digits_not_point_number s Hd). cbn [andb].
  destruct (String.eqb (PyStr.lower s) "true" || String.eqb (PyStr.lower s) "false")
    eqn:E; [|reflexivity].
  exfalso. revert Hd E. clear. unfold CoercionSpec.minus_digits, PyStr.is_decimal_run.
  destruct s as [|c t]; [discriminate|].
  destruct (Ascii.eqb_spec c "-") as [->|Hc].
  - intros _. cbn. discriminate.
  - assert (Hrun : PyStr.is_decimal c && PyStr.all_chars PyStr.is_decimal t = true ->
                   String.eqb (PyStr.lower (String c t)) "true"
                   || String.eqb (PyStr.lower (String c t)) "false" = true -> False).
    { intros [Hdec _]%andb_prop.
      destruct c as [[] [] [] [] [] [] [] []]; try discriminate Hdec; cbn; discriminate. }
    intros H. apply Hrun.
    destruct c as [[] [] [] [] [] [] [] []]; try exact H; contradiction Hc; reflexivity.
Qed.

(** 4300 digits are an integer, and 4301 digits stay the text they
    were. *)
Example digits_at_the_limit :
  let ones n := String.concat EmptyString (List.repeat "1"%string n) in
  (exists n, convert_string_to_appropriate_type (JStr (ones 4300%nat)) = JInt n)
  /\ convert_string_to_appropriate_type (JStr (ones 4301%nat)) = JStr (ones 4301%nat)
  /\ convert_string_to_appropriate_type (JStr ("-" ++ ones 4301%nat))
     = JStr ("-" ++ ones 4301%nat).
Proof.
  cbv zeta. split; [eexists; vm_compute; reflexivity|].
  split; vm_compute; reflexivity.
Qed.


(** ** Idempotence of the coercion *)

Lemma coercion_keeps_text s s' :
  convert_string_to_appropriate_type (JStr s) = JStr s' -> s' = s.
Proof.
  unfold convert_string_to_appropriate_type.
  rewrite try_int_spec, try_float_spec.
  destruct (CoercionSpec.minus_int_digits s); [discriminate|].
  destruct (CoercionSpec.minus_point_number s); [discriminate|].
  match goal with |- (if ?b then _ else _) = _ -> _ => destruct b end;
    [discriminate|congruence].
Qed.

(** C9: coercing the output of the coercion again yields the same typed
    value, and every input that is not a string is returned unchanged. *)
Theorem coercion_idempotent (v : json) :
  convert_string_to_appropriate_type (convert_string_to_appropriate_type v)
  = convert_string_to_appropriate_type v
  /\ (is_str v = false -> convert_string_to_appropriate_type v = v).
Proof.
  split.
  - destruct v as [| b | n | lit | s | items | fields]; try reflexivity.
    destruct (convert_string_to_appropriate_type (JStr s)) eqn:E;
      try reflexivity.
    pose proof (coercion_keeps_text _ _ E) as ->. exact E.
  - destruct v; try reflexivity. discriminate.
Qed.

Lemma coercion_idempotent_witness :
  is_str (JInt 42) = false
  /\ convert_string_to_appropriate_type (convert_string_to_appropriate_type (JStr "42"))
     = JInt 42
  /\ convert_string_to_appropriate_type (JInt 42) = JInt 42.
Proof.
  split; [reflexivity|]. split.
  - rewrite (proj1 (coercion_idempotent (JStr "42"))). reflexivity.
  - apply (proj2 (coercion_idempotent (JInt 42))). reflexivity.
Defined.

(* ===================================================================== *)
(** * The gateway *)
(* ===================================================================== *)

Section DictFacts.
Context {V : Type}.
Implicit Types (d : list (string * V)) (k : string) (v : V).

Lemma get_set_same k v d : PyDict.get k (PyDict.set k v d) = Some v.
Proof.
  induction d as [|[k' v'] r IH]; simpl.
  - rewrite String.eqb_refl. reflexivity.
  - destruct (String.eqb k k') eqn:E; simpl; rewrite E; [reflexivity|exact IH].
Qed.

Lemma get_set_other k k' v d :
  k' <> k -> PyDict.get k' (PyDict.set k v d) = PyDict.get k' d.
Proof.
  intros Hne. induction d as [|[k0 v0] r IH]; simpl.
  - destruct (String.eqb_spec k' k); [contradiction|reflexivity].
  - destruct (String.eqb_spec k k0) as [->|Hk]; simpl.
    + destruct (String.eqb_spec k' k0); [contradiction|reflexivity].
    + rewrite IH. reflexivity.
Qed.
End DictFacts.

(** ** Stage paths *)

(** C7: a file record whose stage name is the text [S] and whose relative
    path is the text [P] gets, under [STAGE_PATH], the text ["@" ++ S]
    when [P] is empty and ["@" ++ S ++ "/" ++ P] otherwise; the file
    listing returns every record of the answer extended in this way, its
    other columns untouched. *)
Theorem stage_path_construction
    (float_repr : string -> string) (sess : session) (file_type : string)
    (rows : list row) (i : nat) (file_dict : row) (S P : string) :
  answer float_repr sess [] (FilesGetByType file_type) = Ok rows ->
  rows !! i = Some file_dict ->
  PyDict.get "STAGE_NAME" file_dict = Some (JStr S) ->
  PyDict.get "FULL_PATH" file_dict = Some (JStr P) ->
  exists listed : row,
    outcome (get_files_by_type float_repr sess file_type) !! i = Some listed
    /\ PyDict.get "STAGE_PATH" listed
       = Some (JStr (if PyStr.is_empty P then "@" ++ S else "@" ++ S ++ "/" ++ P))
    /\ forall column, column <> "STAGE_PATH" ->
         PyDict.get column listed = PyDict.get column file_dict.
Proof.
  intros Hsess Hrow Hs Hp.
  exists (with_stage_path float_repr file_dict). split; [|split].
  - unfold outcome, get_files_by_type, gbind, collect, gret. simpl.
    rewrite Hsess. rewrite list_lookup_fmap, Hrow. reflexivity.
  - unfold with_stage_path. rewrite get_set_same.
    unfold stage_path, get_or_empty. rewrite Hs, Hp. simpl.
    destruct P; reflexivity.
  - intros column Hne. unfold with_stage_path. apply get_set_other, Hne.
Qed.

Lemma stage_path_construction_witness :
  exists listed : row,
    outcome (get_files_by_type example_float_repr
               (answering [sample_file_record]) "MSA") !! 0%nat = Some listed
    /\ PyDict.get "STAGE_PATH" listed = Some (JStr "@MSA_STAGE/contract1.pdf")
    /\ forall column, column <> "STAGE_PATH" ->
         PyDict.get column listed = PyDict.get column sample_file_record.
Proof.
  apply (stage_path_construction example_float_repr
           (answering [sample_file_record]) "MSA" [sample_file_record]
           0%nat sample_file_record "MSA_STAGE" "contract1.pdf");
    reflexivity.
Defined.

Example stage_path_without_relative_path :
  stage_path example_float_repr [("STAGE_NAME", JStr "MSA_STAGE"); ("FULL_PATH", JStr "")]
  = "@MSA_STAGE"
  /\ stage_path example_float_repr [("STAGE_NAME", JStr "MSA_STAGE")] = "@MSA_STAGE"
  /\ stage_path example_float_repr [("STAGE_NAME", JStr "MSA_STAGE"); ("FULL_PATH", JNull)]
     = "@MSA_STAGE".
Proof. repeat split. Qed.

(** ** Argument encoding *)

Lemma double_quotes_quote t :
  Sql.double_quotes (String "'" t) = String "'" (String "'" (Sql.double_quotes t)).
Proof. reflexivity. Qed.

Lemma double_quotes_other c t :
  c <> "'"%char -> Sql.double_quotes (String c t) = String c (Sql.double_quotes t).
Proof.
  intros Hne. unfold Sql.double_quotes. cbn [PyStr.replace].
  destruct (Ascii.eqb_spec "'" c) as [<-|_]; [contradiction|reflexivity].
Qed.

Lemma undouble_other c r :
  c <> "'"%char -> undouble_quotes (String c r) = String c (undouble_quotes r).
Proof.
  intros Hne. destruct c as [[] [] [] [] [] [] [] []];
    first [ reflexivity | exfalso; apply Hne; reflexivity ].
Qed.

Lemma paired_other c r :
  c <> "'"%char -> quotes_paired (String c r) = quotes_paired r.
Proof.
  intros Hne. destruct c as [[] [] [] [] [] [] [] []];
    first [ reflexivity | exfalso; apply Hne; reflexivity ].
Qed.

(** Doubling loses nothing: the text is read back from its encoding. *)
Lemma undouble_double s : undouble_quotes (Sql.double_quotes s) = s.
Proof.
  induction s as [|c t IH]; [reflexivity|].
  destruct (Ascii.eqb_spec c "'") as [->|Hne].
  - rewrite double_quotes_quote. cbn [undouble_quotes]. f_equal. exact IH.
  - rewrite (double_quotes_other c t Hne), (undouble_other c _ Hne), IH.
    reflexivity.
Qed.

(** After doubling, no quote stands alone. *)
Lemma double_quotes_paired s : quotes_paired (Sql.double_quotes s) = true.
Proof.
  induction s as [|c t IH]; [reflexivity|].
  destruct (Ascii.eqb_spec c "'") as [->|Hne].
  - rewrite double_quotes_quote. exact IH.
  - rewrite (double_quotes_other c t Hne), (paired_other c _ Hne). exact IH.
Qed.

Lemma double_quotes_without_quote s :
  PyStr.contains "'" s = false -> Sql.double_quotes s = s.
Proof.
  induction s as [|c t IH]; [reflexivity|].
  cbn [PyStr.contains].
  destruct (Ascii.eqb_spec "'" c) as [<-|Hne]; [discriminate|].
  intros H. rewrite double_quotes_other by congruence. rewrite (IH H). reflexivity.
Qed.

Lemma double_quotes_length s :
  String.length s <= String.length (Sql.double_quotes s).
Proof.
  induction s as [|c t IH]; [reflexivity|].
  destruct (Ascii.eqb_spec c "'") as [->|Hne].
  - rewrite double_quotes_quote. cbn [String.length]. lia.
  - rewrite double_quotes_other by exact Hne. cbn [String.length]. lia.
Qed.

Lemma double_quotes_with_quote s :
  PyStr.contains "'" s = true -> Sql.double_quotes s <> s.
Proof.
  intros Hin Heq. apply (f_equal String.length) in Heq.
  revert Hin Heq. induction s as [|c t IH]; [discriminate|].
  cbn [PyStr.contains].
  destruct (Ascii.eqb_spec "'" c) as [<-|Hne].
  - intros _. rewrite double_quotes_quote. cbn [String.length].
    pose proof (double_quotes_length t). lia.
  - cbn [orb]. intros Hin. rewrite double_quotes_other by congruence.
    cbn [String.length]. intros [= Hl]. exact (IH Hin Hl).
Qed.

Lemma length_append a b :
  String.length (String.append a b) = String.length a + String.length b.
Proof.
  induction a as [|x a IH]; [reflexivity|].
  change (S (String.length (String.append a b)) = S (String.length a + String.length b)).
  rewrite IH. reflexivity.
Qed.

Lemma append_cancel_r a b c : String.append a c = String.append b c -> a = b.
Proof.
  revert b. induction a as [|x a IHa]; intros [|y b] Hc.
  - reflexivity.
  - exfalso. apply (f_equal String.length) in Hc.
    rewrite !length_append in Hc. cbn [String.length] in Hc. lia.
  - exfalso. apply (f_equal String.length) in Hc.
    rewrite !length_append in Hc. cbn [String.length] in Hc. lia.
  - change (String x (String.append a c) = String y (String.append b c)) in Hc.
    injection Hc as -> Hc. f_equal. apply IHa, Hc.
Qed.

(** An argument written between quotes as it stands is the encoded
    argument exactly when it holds no quote. *)
Lemma quoted_is_encoded s :
  Sql.quoted s = encoded_string_argument s <-> PyStr.contains "'" s = false.
Proof.
  unfold encoded_string_argument, Sql.quoted. split.
  - intros H. destruct (PyStr.contains "'" s) eqn:E; [|reflexivity].
    exfalso. apply (double_quotes_with_quote s E).
    change (String "'" (String.append s "'")
            = String "'" (String.append (Sql.double_quotes s) "'")) in H.
    injection H as H. symmetry. exact (append_cancel_r _ _ _ H).
  - intros H. rewrite (double_quotes_without_quote s H). reflexivity.
Qed.

(** Which arguments the wrappers encode: the description and the JSON
    payloads are quote-doubled, booleans are lowercase tokens, numbers
    are written as they are; the other texts go between quotes as they
    stand. *)
Lemma encoded_arguments
    (float_repr : string -> string) (file_type file_description target_lag : string)
    (chunk_size chunk_overlap : Z) (config_name processing_type config_model : string)
    (config_json file_config : json) (drop_data : bool) :
  Sql.file_type_configs_create file_type file_description chunk_size chunk_overlap target_lag
  = Sql.call_block "FILE_TYPE_CONFIGS_CREATE"
      [Sql.quoted file_type; encoded_string_argument file_description;
       Json.int_to_string chunk_size; Json.int_to_string chunk_overlap;
       Sql.quoted target_lag]
  /\ Sql.processing_configs_create float_repr config_name processing_type config_model config_json
     = Sql.call_block "PROCESSING_CONFIGS_CREATE"
         [Sql.quoted config_name; Sql.quoted processing_type;
          encoded_string_argument (Json.dumps float_repr config_json);
          Sql.quoted config_model]
  /\ Sql.compare_files float_repr "COMPARE_FILES" file_config config_json config_model
     = Sql.call_block "COMPARE_FILES"
         ["PARSE_JSON(" ++ encoded_string_argument (Json.dumps float_repr file_config) ++ ")";
          "PARSE_JSON(" ++ encoded_string_argument (Json.dumps float_repr config_json) ++ ")";
          Sql.quoted config_model]
  /\ Sql.file_type_configs_delete file_type drop_data
     = "CALL FILE_TYPE_CONFIGS_DELETE(" ++ Sql.quoted file_type ++ ", "
       ++ (if drop_data then "true" else "false") ++ ")".
Proof. repeat split. destruct drop_data; reflexivity. Qed.

(** C5 at a configuration name with a quote: the statement sent by
    [create_processing_config] carries the name between quotes with its
    quote left single, which is not the encoded argument; the
    configuration document of the same call is quote-doubled. *)
Theorem config_name_not_encoded :
  calls (create_processing_config example_float_repr JsonDecode.loads
           example_missing_column (answering [])
           "O'Brien" "AI_EXTRACT" "claude-4-sonnet"
           (JDict [("note", JStr "it's")]))
  = [ProcessingConfigsCreate "O'Brien" "AI_EXTRACT" "claude-4-sonnet"
       (JDict [("note", JStr "it's")])]
  /\ Sql.statement example_float_repr
       (ProcessingConfigsCreate "O'Brien" "AI_EXTRACT" "claude-4-sonnet"
          (JDict [("note", JStr "it's")]))
     = Sql.call_block "PROCESSING_CONFIGS_CREATE"
         ["'O'Brien'"; "'AI_EXTRACT'";
          "'{" ++ Json.quote ++ "note" ++ Json.quote ++ ": "
               ++ Json.quote ++ "it''s" ++ Json.quote ++ "}'";
          "'claude-4-sonnet'"]
  /\ encoded_string_argument "O'Brien" = "'O''Brien'"
  /\ quotes_paired "O'Brien" = false.
Proof. repeat split. Qed.

(** ** Envelopes *)

Section Envelopes.
Variable float_repr : string -> string.
Variable json_loads : string -> attempt json.
Variable missing_column : string -> string.

Lemma wrapper_outcome fail (sess : session) c sent :
  fst (wrapper float_repr json_loads missing_column fail sess c sent)
  = match first_response json_loads missing_column (procedure c) (answer float_repr sess sent c) with
    | Ok (Some response) => response
    | Ok None => fail "No response"
    | Raise msg => fail msg
    end.
Proof. reflexivity. Qed.

Lemma wrapper_calls fail (sess : session) c sent :
  snd (wrapper float_repr json_loads missing_column fail sess c sent) = (sent ++ [c])%list.
Proof. reflexivity. Qed.

(** The two failures of a wrapper: both return what [fail] builds, and no
    row is the failure with message [No response]. *)
Lemma wrapper_failure fail (sess : session) c sent msg :
  answer float_repr sess sent c = Raise msg \/ (answer float_repr sess sent c = Ok [] /\ msg = "No response") ->
  fst (wrapper float_repr json_loads missing_column fail sess c sent) = fail msg.
Proof.
  rewrite wrapper_outcome. intros [-> | [-> ->]]; reflexivity.
Qed.

Lemma failure_is_error_envelope msg : error_envelope msg (failure msg).
Proof. split; reflexivity. Qed.

Lemma error_only_is_error_envelope msg : error_envelope msg (error_only msg).
Proof. split; reflexivity. Qed.

Lemma envelope_call_failure (sess : session) c sent msg :
  answers_with_envelope c = true ->
  answer float_repr sess sent c = Raise msg \/ (answer float_repr sess sent c = Ok [] /\ msg = "No response") ->
  fst (run_envelope_call float_repr json_loads missing_column sess c sent)
  = match c with
    | CheckPipelineStatus _ => error_only msg
    | _ => failure msg
    end.
Proof.
  intros Hc H.
  destruct c; try discriminate Hc; cbn [run_envelope_call];
    unfold create_file_type_config, update_file_type_config,
      delete_file_type_config, setup_file_processing_pipeline,
      check_pipeline_status, sync_files, create_processing_config,
      update_processing_config, delete_processing_config;
    apply wrapper_failure, H.
Qed.

(** C6 (as amended): for the nine wrappers that answer with a success or
    error envelope, a call that raises yields a dictionary whose [error]
    is the message of the exception and whose [success] is false or
    absent, and a call that returns no row yields the same dictionary as
    a call that raises [No response].  [process_documents], once it sends
    its call, yields [error] alone, prefixed for an exception and
    [No response from procedure] for no row; [validate_processing_config]
    yields [is_valid] false with the message in [errors]. *)
Theorem envelope_normalization (sess : session) (sent : list call) (msg : string) :
  (forall sql, sess (map (Sql.statement float_repr) sent) sql = Raise msg)
  \/ ((forall sql, sess (map (Sql.statement float_repr) sent) sql = Ok [])
      /\ msg = "No response") ->
  (forall c : call,
      answers_with_envelope c = true ->
      error_envelope msg
        (fst (run_envelope_call float_repr json_loads missing_column sess c sent))
      /\ fst (run_envelope_call float_repr json_loads missing_column sess c sent)
         = fst (run_envelope_call float_repr json_loads missing_column (raising msg) c sent))
  /\ (forall config_json,
         fst (validate_processing_config float_repr json_loads missing_column sess config_json sent)
         = invalid msg)
  /\ (forall file_config processing_config model_name c,
         process_documents_plan float_repr file_config processing_config model_name
         = Ok (inr c) ->
         fst (process_documents float_repr json_loads missing_column sess
                file_config processing_config model_name sent)
         = error_only (match answer float_repr sess sent c with
                       | Raise _ => "Processing failed: " ++ msg
                       | Ok _ => "No response from procedure"
                       end)).
Proof.
  intros H.
  assert (Hanswer : forall c,
             answer float_repr sess sent c = Raise msg
             \/ (answer float_repr sess sent c = Ok [] /\ msg = "No response")).
  { intros c. unfold answer.
    destruct H as [H | [H ->]]; [left; apply H | right; split; [apply H | reflexivity]]. }
  split; [|split].
  - intros c Hc. rewrite (envelope_call_failure sess c sent msg Hc (Hanswer c)).
    rewrite (envelope_call_failure (raising msg) c sent msg Hc)
      by (left; reflexivity).
    split; [|reflexivity].
    destruct c; try discriminate Hc;
      first [ apply failure_is_error_envelope | apply error_only_is_error_envelope ].
  - intros config_json. unfold validate_processing_config.
    apply wrapper_failure, Hanswer.
  - intros file_config processing_config model_name c Hplan.
    unfold process_documents. rewrite Hplan.
    change (fst (gbind (collect float_repr sess c) _ sent))
      with (match first_response json_loads missing_column (procedure c) (answer float_repr sess sent c) with
            | Ok (Some response_data) => response_data
            | Ok None => error_only "No response from procedure"
            | Raise m => error_only ("Processing failed: " ++ m)
            end).
    destruct (Hanswer c) as [-> | [-> ->]]; reflexivity.
Qed.
End Envelopes.

Lemma envelope_normalization_witness :
  error_envelope "connection lost"
    (outcome (delete_processing_config example_float_repr JsonDecode.loads
                example_missing_column (raising "connection lost") "standard"))
  /\ outcome (validate_processing_config example_float_repr JsonDecode.loads
                example_missing_column (raising "connection lost") (JDict []))
     = invalid "connection lost"
  /\ outcome (process_documents example_float_repr JsonDecode.loads
                example_missing_column (raising "connection lost")
                sample_file_config sample_processing_config "claude-4-sonnet")
     = error_only "Processing failed: connection lost"
  /\ outcome (create_file_type_config example_float_repr JsonDecode.loads
                example_missing_column (answering [])
                "INVOICE" "Invoices" 1000 100 "5 minutes")
     = failure "No response".
Proof.
  destruct (envelope_normalization example_float_repr JsonDecode.loads
              example_missing_column (raising "connection lost") []
              "connection lost" (or_introl (fun _ => eq_refl)))
    as (Hcalls & Hvalidate & Hprocess).
  destruct (envelope_normalization example_float_repr JsonDecode.loads
              example_missing_column (answering []) []
              "No response" (or_intror (conj (fun _ => eq_refl) eq_refl)))
    as (Hempty & _ & _).
  split; [exact (proj1 (Hcalls (ProcessingConfigsDelete "standard") eq_refl))|].
  split; [exact (Hvalidate (JDict []))|].
  split.
  - exact (Hprocess sample_file_config sample_processing_config "claude-4-sonnet"
             _ eq_refl).
  - destruct (Hempty (FileTypeConfigsCreate "INVOICE" "Invoices" 1000 100 "5 minutes")
                eq_refl)
      as [_ Hsame].
    exact Hsame.
Defined.

(** C6 (as stated) fails: not every wrapper answers a failure with an
    [error] entry, and not every one words the missing row as
    [No response].  [validate_processing_config] returns [is_valid] and
    [errors]; [process_documents] says [No response from procedure], which
    is not what it returns for an exception with message [No response];
    the model wrapper returns a list of models. *)
Lemma envelope_normalization_as_stated_fails :
  has_error (outcome (validate_processing_config example_float_repr JsonDecode.loads
                        example_missing_column (answering []) (JDict [])))
  = false
  /\ has_error (outcome (validate_processing_config example_float_repr JsonDecode.loads
                           example_missing_column (raising "connection lost") (JDict [])))
     = false
  /\ outcome (process_documents example_float_repr JsonDecode.loads
                example_missing_column (answering [])
                sample_file_config sample_processing_config "claude-4-sonnet")
     = error_only "No response from procedure"
  /\ outcome (process_documents example_float_repr JsonDecode.loads
                example_missing_column (raising "No response")
                sample_file_config sample_processing_config "claude-4-sonnet")
     = error_only "Processing failed: No response"
  /\ has_error (outcome (app_get_available_models example_float_repr JsonDecode.loads
                           example_missing_column (raising "connection lost")))
     = false.
Proof. repeat split. Qed.

(** ** The model list *)

Lemma models_answer_returned float_repr json_loads missing_column (models_data : json) sent :
  is_str models_data = false ->
  fst (configuration_get_available_models float_repr json_loads missing_column
         (answering (models_answer models_data)) sent) = models_data
  /\ fst (app_get_available_models float_repr json_loads missing_column
            (answering (models_answer models_data)) sent) = models_data.
Proof.
  intros Hs. destruct models_data; try discriminate Hs; split; reflexivity.
Qed.

(** C10 (as amended): when the model procedure raises or returns no row,
    both wrappers return a dictionary without [error] whose
    [default_model] is [claude-4-sonnet], and which a one-row answer of
    the procedure would produce as well.  Its [supported_models] is not
    empty, except that [FrostlogicApp.get_available_models] returns an
    empty list when the procedure returns no row. *)
Theorem model_list_fallback
    (float_repr : string -> string) (json_loads : string -> attempt json)
    (missing_column : string -> string) (sess : session) (sent : list call) :
  (exists msg, answer float_repr sess sent GetAvailableModels = Raise msg)
  \/ answer float_repr sess sent GetAvailableModels = Ok [] ->
  let from_configuration :=
    fst (configuration_get_available_models float_repr json_loads missing_column sess sent) in
  let from_app :=
    fst (app_get_available_models float_repr json_loads missing_column sess sent) in
  from_configuration = configuration_fallback_models
  /\ from_app = match answer float_repr sess sent GetAvailableModels with
                | Raise _ => app_fallback_models
                | Ok _ => app_empty_models
                end
  /\ default_model from_configuration = Some (JStr "claude-4-sonnet")
  /\ default_model from_app = Some (JStr "claude-4-sonnet")
  /\ has_error from_configuration = false
  /\ has_error from_app = false
  /\ (exists first rest, supported_models from_configuration = Some (first :: rest))
  /\ match answer float_repr sess sent GetAvailableModels with
     | Raise _ => exists first rest, supported_models from_app = Some (first :: rest)
     | Ok _ => supported_models from_app = Some []
     end
  /\ (forall sent',
         fst (configuration_get_available_models float_repr json_loads missing_column
                (answering (models_answer from_configuration)) sent')
         = from_configuration
         /\ fst (app_get_available_models float_repr json_loads missing_column
                   (answering (models_answer from_app)) sent')
            = from_app).
Proof.
  intros H. cbn zeta.
  assert (Hc : fst (configuration_get_available_models float_repr json_loads
                      missing_column sess sent)
               = configuration_fallback_models).
  { unfold configuration_get_available_models, gbind, collect, gret. cbn.
    destruct H as [[msg ->] | ->]; reflexivity. }
  assert (Ha : fst (app_get_available_models float_repr json_loads missing_column sess sent)
               = match answer float_repr sess sent GetAvailableModels with
                 | Raise _ => app_fallback_models
                 | Ok _ => app_empty_models
                 end).
  { unfold app_get_available_models, gbind, collect, gret. cbn.
    destruct H as [[msg ->] | ->]; reflexivity. }
  rewrite Hc, Ha.
  repeat split; try reflexivity.
  - destruct (answer float_repr sess sent GetAvailableModels); reflexivity.
  - destruct (answer float_repr sess sent GetAvailableModels); reflexivity.
  - eexists _, _. reflexivity.
  - destruct H as [[msg ->] | ->]; [eexists _, _|]; reflexivity.
  - destruct (answer float_repr sess sent GetAvailableModels); reflexivity.
Qed.

Lemma model_list_fallback_witness :
  outcome (configuration_get_available_models example_float_repr JsonDecode.loads
             example_missing_column (raising "connection lost"))
  = configuration_fallback_models
  /\ outcome (app_get_available_models example_float_repr JsonDecode.loads
                example_missing_column (raising "connection lost"))
     = app_fallback_models
  /\ outcome (app_get_available_models example_float_repr JsonDecode.loads
                example_missing_column (answering []))
     = app_empty_models.
Proof.
  pose proof (model_list_fallback example_float_repr JsonDecode.loads
                example_missing_column (raising "connection lost") []
                (or_introl (ex_intro _ "connection lost" eq_refl))) as Hraise.
  pose proof (model_list_fallback example_float_repr JsonDecode.loads
                example_missing_column (answering []) [] (or_intror eq_refl)) as Hempty.
  cbn zeta in Hraise, Hempty.
  split; [exact (proj1 Hraise)|].
  split; [exact (proj1 (proj2 Hraise))|exact (proj1 (proj2 Hempty))].
Defined.

(** C10 (as stated) fails: with no row, [FrostlogicApp.get_available_models]
    returns an empty list of supported models. *)
Lemma model_list_fallback_as_stated_fails :
  supported_models
    (outcome (app_get_available_models example_float_repr JsonDecode.loads
                example_missing_column (answering [])))
  = Some [].
Proof. reflexivity. Qed.

(* ===================================================================== *)
(** * The configuration editor *)
(* ===================================================================== *)

Section EditorFacts.
Variable float_repr : string -> string.
Variable json_loads : string -> attempt json.

Local Abbreviation render := (render_json_editor float_repr json_loads).

(** ** Switching from the text editor to the visual editor *)

(** The button of the text editor: with a text that does not parse, the
    pass goes on to its [return]; the document and the mode are as they
    were, and the buffer holds the text of the box. *)
Lemma switch_button_on_invalid_text
    (config_json : json) (e : editor) (w : widgets) (msg : string) :
  edit_mode e = JSONEditor ->
  mode_select w = JSONEditor ->
  switch_to_ui_clicked w = true ->
  json_loads (json_text_area w) = Raise msg ->
  exists e',
    render config_json (Some e) w = return_config e'
    /\ config e' = config e
    /\ edit_mode e' = JSONEditor
    /\ json_text e' = json_text_area w.
Proof.
  intros Hmode Hsel Hclick Hbad.
  unfold render_json_editor, open_editor. rewrite Hsel, Hmode. cbn [mode_eqb negb].
  unfold json_editor. rewrite Hclick, Hbad.
  destruct (validate_clicked w);
    destruct (String.eqb_spec (json_text_area w) (json_text e)) as [Heq|Hne];
    cbn [negb]; eexists; (split; [reflexivity|]);
    repeat split; try assumption; try reflexivity; symmetry; exact Heq.
Qed.

(** C1, on the radio button: when the stored mode is the text editor, the
    radio selects the visual editor and the buffer does not parse, the
    pass ends by a rerun with the document and the buffer as they were
    and the mode set to the visual editor. *)
Theorem radio_switch_on_invalid_text
    (config_json : json) (e : editor) (w : widgets) (msg : string) :
  edit_mode e = JSONEditor ->
  mode_select w = UIEditor ->
  json_loads (json_text e) = Raise msg ->
  exists e',
    render config_json (Some e) w = Ended (Rerun e')
    /\ config e' = config e
    /\ json_text e' = json_text e
    /\ edit_mode e' = UIEditor.
Proof.
  intros Hmode Hsel Hbad.
  unfold render_json_editor, open_editor. rewrite Hsel, Hmode. cbn [mode_eqb negb].
  eexists. split; [reflexivity|].
  unfold change_mode. cbn [with_mode json_text]. rewrite Hbad.
  repeat split.
Qed.

(** On either way from the text editor to the visual editor, a text that
    does not parse leaves the document as it was. *)
Lemma mode_switch_keeps_document
    (config_json : json) (e : editor) (w : widgets) (msg : string) :
  edit_mode e = JSONEditor ->
  (mode_select w = UIEditor /\ json_loads (json_text e) = Raise msg)
  \/ (mode_select w = JSONEditor /\ switch_to_ui_clicked w = true
      /\ json_loads (json_text_area w) = Raise msg) ->
  exists e',
    (render config_json (Some e) w = Ended (Rerun e')
     \/ render config_json (Some e) w = return_config e')
    /\ config e' = config e.
Proof.
  intros Hmode [[Hsel Hbad] | (Hsel & Hclick & Hbad)].
  - unfold render_json_editor, open_editor. rewrite Hsel, Hmode.
    cbn [mode_eqb negb]. eexists. split; [left; reflexivity|].
    unfold change_mode. cbn [with_mode json_text]. rewrite Hbad. reflexivity.
  - destruct (switch_button_on_invalid_text config_json e w msg Hmode Hsel Hclick Hbad)
      as (e' & Hr & Hc & _).
    exists e'. split; [right; exact Hr | exact Hc].
Qed.

(** ** The text buffer follows the document *)

Lemma reserialize_synced e : synced float_repr (reserialize float_repr e).
Proof. reflexivity. Qed.

Lemma bump_counter_synced key e :
  synced float_repr e -> synced float_repr (bump_counter key e).
Proof. intros H. exact H. Qed.

Lemma touch_counter_mode key e : edit_mode (touch_counter key e) = edit_mode e.
Proof. unfold touch_counter. destruct (counters e !! key); reflexivity. Qed.

Lemma touch_counter_config key e : config (touch_counter key e) = config e.
Proof. unfold touch_counter. destruct (counters e !! key); reflexivity. Qed.

(** A step settles when every rerun it ends the pass with has the
    buffer written from the document. *)
Local Abbreviation settles :=
  (fun f : editor -> flow => forall e e', f e = Stop (Rerun e') -> synced float_repr e').

Ltac step_cases H :=
  repeat match type of H with
         | context [match ?x with _ => _ end] => destruct x eqn:?
         | context [if ?x then _ else _] => destruct x eqn:?
         end;
  try discriminate H;
  try (injection H as <-).

Ltac settled :=
  intros ? ? H; unfold on_sections in H; step_cases H;
  repeat first [ apply bump_counter_synced | apply reserialize_synced ].

Lemma and_then_settles f g : settles f -> settles g -> settles (and_then f g).
Proof.
  intros Hf Hg e e'. unfold and_then. destruct (f e) as [e1|x] eqn:E.
  - apply Hg.
  - intros [= ->]. exact (Hf _ _ E).
Qed.

Lemma for_each_settles {A : Type} (body : A -> editor -> flow) (l : list A) :
  (forall a, In a l -> settles (body a)) -> settles (for_each body l).
Proof.
  induction l as [|a r IH]; intros Hb; cbn [for_each].
  - intros e e' H. discriminate H.
  - apply and_then_settles; [apply Hb; left; reflexivity|].
    apply IH. intros b Hin. apply Hb. right. exact Hin.
Qed.

Lemma after_touch_settles key (f : editor -> flow) :
  settles f -> settles (fun e => f (touch_counter key e)).
Proof. intros Hf e e' H. exact (Hf _ _ H). Qed.

Lemma delete_section_settles main_key clicked :
  settles (delete_section float_repr main_key clicked).
Proof. unfold delete_section. settled. Qed.

Lemma edit_property_settles main_key prop_key v :
  settles (edit_property main_key prop_key v).
Proof. unfold edit_property. settled. Qed.

Lemma delete_property_settles main_key prop_key clicked :
  settles (delete_property float_repr main_key prop_key clicked).
Proof. unfold delete_property. settled. Qed.

Lemma add_property_settles main_key form :
  settles (add_property float_repr main_key form).
Proof.
  unfold add_property. destruct form as [submitted [new_key new_value]]. settled.
Qed.

Lemma edit_item_settles main_key i v : settles (edit_item main_key i v).
Proof. unfold edit_item. settled. Qed.

Lemma delete_item_settles main_key i clicked :
  settles (delete_item float_repr main_key i clicked).
Proof. unfold delete_item. settled. Qed.

Lemma add_item_settles main_key form : settles (add_item float_repr main_key form).
Proof. unfold add_item. destruct form as [submitted new_item]. settled. Qed.

Lemma edit_simple_settles main_key v : settles (edit_simple main_key v).
Proof. unfold edit_simple. settled. Qed.

Lemma add_section_settles form : settles (add_section float_repr form).
Proof.
  unfold add_section. destruct form as [submitted [new_key kind]]. settled.
Qed.

(** A name box that holds the name of its section, or a name that is
    taken, ends no pass. *)
Lemma rename_section_settles current_keys main_key new_main_key :
  new_main_key = main_key \/ In new_main_key current_keys ->
  settles (rename_section current_keys main_key new_main_key).
Proof.
  intros Hname e e'. unfold rename_section.
  assert (Hidle : negb (String.eqb new_main_key main_key)
                  && negb (existsb (String.eqb new_main_key) current_keys) = false).
  { destruct Hname as [->|Hin].
    - rewrite String.eqb_refl. reflexivity.
    - apply andb_false_iff. right. apply negb_false_iff, existsb_exists.
      exists new_main_key. split; [exact Hin|apply String.eqb_refl]. }
  rewrite Hidle. discriminate.
Qed.

Lemma rename_property_settles snapshot main_key prop_key :
  settles (rename_property snapshot main_key prop_key prop_key).
Proof.
  intros e e'. unfold rename_property, on_sections. rewrite String.eqb_refl.
  destruct (config e); discriminate.
Qed.

Lemma render_property_settles w main_key snapshot earlier prop_key :
  property_name w main_key prop_key = prop_key ->
  settles (render_property float_repr w main_key snapshot earlier prop_key).
Proof.
  intros Hname. unfold render_property.
  destruct (existsb _ earlier); [intros e e' H; discriminate H|].
  rewrite Hname.
  apply and_then_settles; [apply rename_property_settles|].
  apply and_then_settles; [apply edit_property_settles|apply delete_property_settles].
Qed.

Lemma render_item_settles w main_key i : settles (render_item float_repr w main_key i).
Proof.
  unfold render_item.
  apply and_then_settles; [apply edit_item_settles|apply delete_item_settles].
Qed.

Lemma render_section_settles w current_keys earlier main_key main_value :
  section_name w main_key = main_key \/ In (section_name w main_key) current_keys ->
  (forall fields prop_key,
      main_value = JDict fields -> In prop_key (PyDict.keys fields) ->
      property_name w main_key prop_key = prop_key) ->
  settles (render_section float_repr w current_keys (earlier, (main_key, main_value))).
Proof.
  intros Hname Hprops. unfold render_section.
  apply and_then_settles; [apply rename_section_settles, Hname|].
  apply and_then_settles; [apply delete_section_settles|].
  destruct main_value as [| b | n | lit | s | items | fields];
    try apply edit_simple_settles.
  - apply and_then_settles.
    + apply for_each_settles. intros i _. apply render_item_settles.
    + apply (after_touch_settles (item_form_counter_key main_key)
               (fun e' => add_item float_repr main_key
                            (add_item_form w main_key
                               (counter (item_form_counter_key main_key) e')) e')).
      intros e e'. apply add_item_settles.
  - apply and_then_settles.
    + apply for_each_settles. intros p Hp.
      apply render_property_settles, (Hprops fields p eq_refl Hp).
    + apply (after_touch_settles (form_counter_key main_key)
               (fun e' => add_property float_repr main_key
                            (add_property_form w main_key
                               (counter (form_counter_key main_key) e')) e')).
      intros e e'. apply add_property_settles.
Qed.

Lemma with_earlier_in sections : forall earlier entry,
  In entry (with_earlier earlier sections) -> In (snd entry) sections.
Proof.
  induction sections as [|section rest IH]; intros earlier entry; cbn [with_earlier In];
    [trivial|].
  intros [<-|H]; [left; reflexivity|right; exact (IH _ _ H)].
Qed.

(** When the visual editor reaches its [return], the buffer is the
    serialization of the document and the document is what is returned. *)
Lemma ui_editor_returns_synced (w : widgets) (e e' : editor) (result : json) :
  ui_editor float_repr w e = Returned e' result ->
  synced float_repr e' /\ result = config e'.
Proof.
  unfold ui_editor. intros H.
  destruct (config e) as [| | | | | |current_config] eqn:Hc; try discriminate H.
  destruct (and_then _ _ e) as [e1|x] eqn:Hloop; [|discriminate H].
  destruct (switch_to_json_clicked w); [discriminate H|].
  unfold return_config in H.
  destruct (copy (config (reserialize float_repr e1))) as [c|] eqn:Hcopy;
    [|discriminate H].
  injection H as <- <-.
  split; [apply reserialize_synced|].
  cbn [reserialize with_text config] in *.
  destruct (config e1); cbn [copy] in Hcopy; congruence.
Qed.

(** When the visual editor ends its pass by a rerun and no name box
    holds a name that is taken, the buffer is the serialization of the
    document. *)
Lemma ui_editor_reruns_synced (w : widgets) (e e' : editor) (d : list (string * json)) :
  config e = JDict d ->
  names_kept w d ->
  ui_editor float_repr w e = Ended (Rerun e') ->
  synced float_repr e'.
Proof.
  intros Hc Hnames. unfold ui_editor. rewrite Hc.
  destruct (and_then _ _ e) as [e1|x] eqn:Hloop.
  - destruct (switch_to_json_clicked w).
    + intros [= <-]. apply reserialize_synced.
    + unfold return_config. destruct (copy _); discriminate.
  - intros [= ->]. revert Hloop. apply and_then_settles.
    + apply for_each_settles. intros [earlier [main_key main_value]] Hin.
      apply with_earlier_in in Hin. cbn [snd] in Hin.
      destruct (Hnames _ _ Hin) as [Hname Hprops].
      apply render_section_settles; assumption.
    + apply (after_touch_settles section_form_counter_key
               (fun e2 => add_section float_repr
                            (add_section_form w (counter section_form_counter_key e2)) e2)).
      intros e0 e0'. apply add_section_settles.
Qed.

Lemma json_editor_returns_mode (w : widgets) (e e' : editor) (result : json) :
  json_editor float_repr json_loads w e = Returned e' result ->
  edit_mode e' = edit_mode e.
Proof.
  unfold json_editor, return_config. intros H.
  step_cases H; reflexivity.
Qed.

(** C2 (as amended): in the visual editor, the text buffer equals the
    serialization of the document at the point [render_json_editor]
    returns, where the document is also the value returned, and at the
    end of every pass of the visual editor that ends by a rerun while no
    name box holds a name that is taken: the passes ended by deleting a
    section, a property or an item, by adding a section, a property or
    an item, or by the switch to the text editor.  (A property, item or
    value edit is written to the buffer by the last update of its pass;
    a rename ends its pass with the buffer as it was.) *)
Theorem text_follows_document
    (config_json : json) (saved : option editor) (w : widgets) :
  (forall (e : editor) (result : json),
      render config_json saved w = Returned e result ->
      edit_mode e = UIEditor ->
      synced float_repr e /\ result = config e)
  /\ (forall (e0 e : editor) (d : list (string * json)),
         open_editor float_repr config_json saved = Ok e0 ->
         edit_mode e0 = UIEditor ->
         mode_select w = UIEditor ->
         config e0 = JDict d ->
         names_kept w d ->
         render config_json saved w = Ended (Rerun e) ->
         synced float_repr e).
Proof.
  split.
  - intros e result Hr Hmode.
    unfold render_json_editor in Hr.
    destruct (open_editor float_repr config_json saved) as [e0|why]; [|discriminate Hr].
    destruct (negb (mode_eqb (mode_select w) (edit_mode e0))) eqn:Hsame;
      [discriminate Hr|].
    destruct (mode_select w) eqn:Hsel.
    + exact (ui_editor_returns_synced w e0 e result Hr).
    + apply json_editor_returns_mode in Hr.
      destruct (edit_mode e0); [discriminate Hsame|]. congruence.
  - intros e0 e d Hopen Hmode Hsel Hc Hnames.
    unfold render_json_editor. rewrite Hopen, Hsel, Hmode. cbn [mode_eqb negb].
    exact (ui_editor_reruns_synced w e0 e d Hc Hnames).
Qed.

End EditorFacts.

(** ** Runs of the editor *)

Lemma radio_switch_on_invalid_text_witness :
  edit_mode editing_broken_text = JSONEditor
  /\ JsonDecode.loads (json_text editing_broken_text)
     = Raise "Expecting property name enclosed in double quotes"
  /\ exists e',
       render_json_editor example_float_repr JsonDecode.loads sample_document
         (Some editing_broken_text) (sample_widgets UIEditor "{" (fun k => k))
       = Ended (Rerun e')
       /\ config e' = sample_document
       /\ json_text e' = "{"
       /\ edit_mode e' = UIEditor.
Proof.
  split; [reflexivity|]. split; [reflexivity|].
  apply (radio_switch_on_invalid_text example_float_repr JsonDecode.loads
           sample_document editing_broken_text
           (sample_widgets UIEditor "{" (fun k => k))
           "Expecting property name enclosed in double quotes");
    reflexivity.
Defined.

(** The same buffer and the button of the text editor: the pass returns,
    still in the text editor. *)
Example switch_button_on_broken_text :
  render_json_editor example_float_repr JsonDecode.loads sample_document
    (Some editing_broken_text)
    (press_switch_to_ui (sample_widgets JSONEditor "{" (fun k => k)))
  = Returned editing_broken_text sample_document.
Proof. reflexivity. Qed.

Lemma text_follows_document_witness :
  (render_json_editor example_float_repr JsonDecode.loads sample_document
     (Some editing_visually) (sample_widgets UIEditor "" (fun k => k))
   = Returned editing_visually_rendered sample_document
   /\ synced example_float_repr editing_visually_rendered
   /\ sample_document = config editing_visually_rendered)
  /\ (render_json_editor example_float_repr JsonDecode.loads sample_document
        (Some editing_visually)
        (press_delete_section (sample_widgets UIEditor "" (fun k => k)))
      = Ended (Rerun editing_visually_emptied)
      /\ synced example_float_repr editing_visually_emptied).
Proof.
  assert (Hrun : render_json_editor example_float_repr JsonDecode.loads sample_document
                   (Some editing_visually) (sample_widgets UIEditor "" (fun k => k))
                 = Returned editing_visually_rendered sample_document)
    by (vm_compute; reflexivity).
  assert (Hdel : render_json_editor example_float_repr JsonDecode.loads sample_document
                   (Some editing_visually)
                   (press_delete_section (sample_widgets UIEditor "" (fun k => k)))
                 = Ended (Rerun editing_visually_emptied))
    by (vm_compute; reflexivity).
  split.
  - split; [exact Hrun|].
    exact (proj1 (text_follows_document example_float_repr JsonDecode.loads
                    sample_document (Some editing_visually)
                    (sample_widgets UIEditor "" (fun k => k)))
             editing_visually_rendered sample_document Hrun eq_refl).
  - split; [exact Hdel|].
    apply (proj2 (text_follows_document example_float_repr JsonDecode.loads
                    sample_document (Some editing_visually)
                    (press_delete_section (sample_widgets UIEditor "" (fun k => k))))
             editing_visually editing_visually_emptied [("search_limit", JInt 3)]
             eq_refl eq_refl eq_refl eq_refl); [|exact Hdel].
    intros k v [[= <- <-]|[]]. split; [left; reflexivity|]. intros fields p Hv. discriminate Hv.
Defined.

(** C2 (as stated) fails: renaming a section ends the pass with the
    document changed and the buffer as it was, and right after a value is
    edited the buffer still holds the old value. *)
Lemma text_follows_document_as_stated_fails :
  render_json_editor example_float_repr JsonDecode.loads sample_document
    (Some editing_visually) (sample_widgets UIEditor "" (fun _ => "limit"))
  = Ended (Rerun editing_visually_renamed)
  /\ edit_mode editing_visually_renamed = UIEditor
  /\ json_text editing_visually_renamed
     <> dumps2 example_float_repr (config editing_visually_renamed)
  /\ edit_simple "search_limit" "5" editing_visually
     = Next (with_config (JDict [("search_limit", JInt 5)]) editing_visually)
  /\ json_text (with_config (JDict [("search_limit", JInt 5)]) editing_visually)
     <> dumps2 example_float_repr
          (config (with_config (JDict [("search_limit", JInt 5)]) editing_visually)).
Proof.
  split; [vm_compute; reflexivity|].
  split; [reflexivity|].
  split; [vm_compute; discriminate|].
  split; [vm_compute; reflexivity|].
  vm_compute; discriminate.
Qed.

(* ===================================================================== *)
(** * The pages *)
(* ===================================================================== *)

(** ** A logic of passes *)

Section PageLogic.
Variable Q : list call -> list call -> Prop.
Hypothesis Q_nil : forall base, Q base [].
Hypothesis Q_app : forall base n1 n2,
  Q base n1 -> Q (base ++ n1)%list n2 -> Q base (n1 ++ n2)%list.

Lemma triple_pret {A : Type} (P : page_state -> Prop) (a : A) (R : A -> page_state -> Prop) :
  (forall s, P s -> R a s) -> triple Q P (pret a) R.
Proof.
  intros HR s sent HP. exists []. cbn. rewrite app_nil_r.
  split; [reflexivity|]. split; [apply Q_nil|].
  intros a' [= <-]. exact (HR s HP).
Qed.

Lemma triple_halt {A : Type} (P : page_state -> Prop) (c : Page A)
    (R : A -> page_state -> Prop) :
  (forall s sent, exists h s', c s sent = ((Halt h, s'), sent)) -> triple Q P c R.
Proof.
  intros Hc s sent _. destruct (Hc s sent) as (h & s' & ->).
  exists []. cbn. rewrite app_nil_r.
  split; [reflexivity|]. split; [apply Q_nil|]. discriminate.
Qed.

Lemma triple_crash {A : Type} P why (R : A -> page_state -> Prop) :
  triple Q P (crash why) R.
Proof. apply triple_halt. intros s sent. eexists _, _. reflexivity. Qed.

Lemma triple_rerun {A : Type} P (R : A -> page_state -> Prop) : triple Q P rerun R.
Proof. apply triple_halt. intros s sent. eexists _, _. reflexivity. Qed.

Lemma triple_set_flag_and_rerun {A : Type} P key b (R : A -> page_state -> Prop) :
  triple Q P (set_flag_and_rerun key b) R.
Proof. apply triple_halt. intros s sent. eexists _, _. reflexivity. Qed.

Lemma triple_pbind {A B : Type} P (c : Page A) (R1 : A -> page_state -> Prop)
    (k : A -> Page B) (R2 : B -> page_state -> Prop) :
  triple Q P c R1 -> (forall a, triple Q (R1 a) (k a) R2) -> triple Q P (pbind c k) R2.
Proof.
  intros Hc Hk s sent HP.
  destruct (Hc s sent HP) as (n1 & Hsent & HQ1 & HR1).
  unfold pbind. destruct (c s sent) as [[[a|h] s1] sent1]; cbn in Hsent, HR1; subst sent1.
  - destruct (Hk a s1 (sent ++ n1)%list (HR1 a eq_refl)) as (n2 & Hsent2 & HQ2 & HR2).
    exists (n1 ++ n2)%list. rewrite Hsent2, app_assoc.
    split; [reflexivity|]. split; [apply Q_app; assumption | exact HR2].
  - exists n1. cbn. split; [reflexivity|]. split; [exact HQ1|discriminate].
Qed.

Lemma triple_weaken {A : Type} (P P' : page_state -> Prop) (c : Page A)
    (R R' : A -> page_state -> Prop) :
  triple Q P' c R' -> (forall s, P s -> P' s) -> (forall a s, R' a s -> R a s) ->
  triple Q P c R.
Proof.
  intros Hc HP HR s sent Hs.
  destruct (Hc s sent (HP s Hs)) as (new & H1 & H2 & H3).
  exists new. split; [exact H1|]. split; [exact H2|].
  intros a Ha. exact (HR _ _ (H3 a Ha)).
Qed.

Lemma triple_when P (b : bool) (c : Page unit) (R : unit -> page_state -> Prop) :
  (b = true -> triple Q P c R) -> (forall s, P s -> R tt s) -> triple Q P (when b c) R.
Proof.
  intros Hc HR. destruct b; cbn [when]; [apply Hc; reflexivity|].
  apply triple_pret, HR.
Qed.

Lemma triple_each {A : Type} P (body : A -> Page unit) (l : list A) :
  (forall a, triple Q P (body a) (fun _ => P)) ->
  triple Q P (page_each body l) (fun _ => P).
Proof.
  intros Hbody. induction l as [|a r IH]; cbn [page_each].
  - apply triple_pret. trivial.
  - eapply triple_pbind; [apply Hbody|]. intros u. exact IH.
Qed.

Lemma triple_get_flag P key :
  triple Q P (get_flag key)
    (fun b s => P s /\ b = default false (flags s !! key)).
Proof.
  intros s sent HP. exists []. cbn. rewrite app_nil_r.
  split; [reflexivity|]. split; [apply Q_nil|].
  intros b [= <-]. split; [exact HP|reflexivity].
Qed.

(** A wrapper sends one call. *)
Lemma triple_remote {A : Type} P (g : Gateway A) (c : call) :
  (forall sent, snd (g sent) = (sent ++ [c])%list) ->
  (forall base, Q base [c]) ->
  triple Q P (remote g) (fun _ => P).
Proof.
  intros Hg HQ s sent HP. exists [c]. unfold remote.
  specialize (Hg sent). destruct (g sent) as [a sent']. cbn in Hg. subst sent'. cbn.
  split; [reflexivity|]. split; [apply HQ|]. intros a' _. exact HP.
Qed.

Lemma triple_item P key config :
  triple Q P (item key config) (fun _ => P).
Proof.
  unfold item. destruct (PyDict.get key config); [apply triple_pret; trivial|apply triple_crash].
Qed.
End PageLogic.

(** ** Passes that keep the flags *)

Section Steady.
Variable Q : list call -> list call -> Prop.
Hypothesis Q_nil : forall base, Q base [].
Hypothesis Q_app : forall base n1 n2,
  Q base n1 -> Q (base ++ n1)%list n2 -> Q base (n1 ++ n2)%list.
Variable f0 : gmap string bool.

Lemma steady_pret {A : Type} (a : A) : steady Q f0 (pret a).
Proof. apply triple_pret; trivial. Qed.

Lemma steady_crash {A : Type} why : steady Q f0 (@crash A why).
Proof. apply triple_crash; trivial. Qed.

Lemma steady_rerun {A : Type} : steady Q f0 (@rerun A).
Proof. apply triple_rerun; trivial. Qed.

Lemma steady_set_flag_and_rerun {A : Type} key b :
  steady Q f0 (@set_flag_and_rerun A key b).
Proof. apply triple_set_flag_and_rerun; trivial. Qed.

Lemma steady_pbind {A B : Type} (c : Page A) (k : A -> Page B) :
  steady Q f0 c -> (forall a, steady Q f0 (k a)) -> steady Q f0 (pbind c k).
Proof. intros Hc Hk. eapply triple_pbind; [exact Q_app|exact Hc|exact Hk]. Qed.

Lemma steady_when (b : bool) (c : Page unit) :
  (b = true -> steady Q f0 c) -> steady Q f0 (when b c).
Proof. intros Hc. apply triple_when; trivial. Qed.

Lemma steady_each {A : Type} (body : A -> Page unit) (l : list A) :
  (forall a, steady Q f0 (body a)) -> steady Q f0 (page_each body l).
Proof. intros Hb. apply triple_each; trivial. Qed.

Lemma steady_item key config : steady Q f0 (item key config).
Proof. apply triple_item; trivial. Qed.

Lemma steady_remote {A : Type} (g : Gateway A) (c : call) :
  (forall sent, snd (g sent) = (sent ++ [c])%list) ->
  (forall base, Q base [c]) ->
  steady Q f0 (remote g).
Proof. intros Hg Hc. eapply triple_remote; eassumption. Qed.

(** What a flag read returns is what the pass started with. *)
Lemma steady_get_flag {B : Type} key (k : bool -> Page B) :
  (forall b, b = default false (f0 !! key) -> steady Q f0 (k b)) ->
  steady Q f0 (pbind (get_flag key) k).
Proof.
  intros Hk. eapply triple_pbind; [exact Q_app|apply triple_get_flag, Q_nil|].
  intros b s sent [Hs Hb]. apply (Hk b); [|exact Hs].
  rewrite Hb. unfold keeps in Hs. rewrite Hs. reflexivity.
Qed.

Lemma steady_says key result : steady Q f0 (says key result).
Proof.
  unfold says. destruct (reports key result); [apply steady_pret|apply steady_crash].
Qed.

(** The wrapper of the update of a document type sends its call, or
    nothing when the description is no text. *)
Lemma steady_update_file_type_config float_repr json_loads missing_column sess
    file_type file_description chunk_size chunk_overlap target_lag :
  (forall description base,
      Q base [FileTypeConfigsUpdate file_type description chunk_size chunk_overlap
                target_lag]) ->
  steady Q f0
    (remote (update_file_type_config float_repr json_loads missing_column sess
               file_type file_description chunk_size chunk_overlap target_lag)).
Proof.
  intros HQ.
  destruct file_description;
    first [ eapply steady_remote; [intros ?; reflexivity|apply HQ]
          | intros s sent Hs; exists []; rewrite app_nil_r; cbn;
            split; [reflexivity|]; split; [apply Q_nil|]; intros a _; exact Hs ].
Qed.

Lemma steady_edit_document float_repr json_loads w config_json key_prefix :
  steady Q f0 (edit_document float_repr json_loads w config_json key_prefix).
Proof.
  intros s sent Hs. exists []. rewrite app_nil_r. unfold edit_document.
  destruct (render_json_editor _ _ _ _ _) as [e result|[e|e why]|why]; cbn;
    (split; [reflexivity|]); (split; [apply Q_nil|]);
    first [ discriminate | intros a _; exact Hs ].
Qed.
End Steady.

(** ** Validation comes before saving *)

Lemma app_cons_split {A : Type} (n1 n2 pre post : list A) (c : A) :
  (n1 ++ n2 = pre ++ c :: post)%list ->
  (exists post1, n1 = pre ++ c :: post1)%list
  \/ (exists pre2, pre = n1 ++ pre2 /\ n2 = pre2 ++ c :: post)%list.
Proof.
  revert pre. induction n1 as [|x n1 IH]; intros pre H.
  - right. exists pre. split; [reflexivity|exact H].
  - destruct pre as [|y pre]; cbn in H.
    + injection H as -> H. left. exists n1. reflexivity.
    + injection H as -> H. destruct (IH pre H) as [[post1 ->] | (pre2 & -> & ->)].
      * left. exists post1. reflexivity.
      * right. exists pre2. split; reflexivity.
Qed.

Section ValidateBeforeSave.
Variable float_repr : string -> string.
Variable json_loads : string -> attempt json.
Variable missing_column : string -> string.
Variable str_upper : string -> string.
Variable py_eq : json -> json -> bool.
Variable sess : session.
Variable w : page_widgets.

Local Abbreviation Q := (validated_saves float_repr json_loads missing_column sess).

Lemma validated_saves_nil base : Q base [].
Proof. intros pre c post config_json H. destruct pre; discriminate H. Qed.

Lemma validated_saves_app base n1 n2 :
  Q base n1 -> Q (base ++ n1)%list n2 -> Q base (n1 ++ n2)%list.
Proof.
  intros H1 H2 pre c post config_json Hsplit Hsave.
  destruct (app_cons_split _ _ _ _ _ Hsplit) as [[post1 ->] | (pre2 & -> & ->)].
  - exact (H1 pre c post1 config_json eq_refl Hsave).
  - destruct (H2 pre2 c post config_json eq_refl Hsave) as (pre' & -> & Hvalid).
    exists (n1 ++ pre')%list. split; [apply app_assoc|].
    rewrite app_assoc. exact Hvalid.
Qed.

(** The property looks back from a save only, so it holds for every
    first part of a run, which is where a pass that raises stops. *)
Lemma validated_saves_first_part base new more :
  Q base (new ++ more)%list -> Q base new.
Proof.
  intros H pre c post config_json Hsplit Hsave.
  apply (H pre c (post ++ more)%list config_json); [|exact Hsave].
  rewrite Hsplit, <- app_assoc. reflexivity.
Qed.

Lemma validated_saves_single base c : saves c = None -> Q base [c].
Proof.
  intros Hc pre c' post config_json Hsplit Hsave.
  destruct pre as [|x pre]; cbn in Hsplit.
  - injection Hsplit as <- _. congruence.
  - injection Hsplit as _ Hsplit. destruct pre; discriminate Hsplit.
Qed.

(** The save of [validate_then] is sent only after a validation of the
    same document that reported [is_valid]. *)
Lemma steady_validate_then f0 config_json (save : Gateway json) (c : call)
    (on_success : Page unit) :
  (forall sent, snd (save sent) = (sent ++ [c])%list) ->
  saves c = Some config_json ->
  steady Q f0 on_success ->
  steady Q f0
    (validate_then float_repr json_loads missing_column sess config_json save on_success).
Proof.
  intros Hsave Hc Hon s sent Hs.
  unfold validate_then, pbind, remote, says, when.
  destruct (validate_processing_config float_repr json_loads missing_column sess
              config_json sent) as [validation sent1] eqn:Hv.
  assert (Hsent1 : sent1 = (sent ++ [ProcessingConfigsValidate config_json])%list).
  { apply (f_equal snd) in Hv. cbn in Hv. rewrite <- Hv. reflexivity. }
  assert (Hval : validation
                 = fst (validate_processing_config float_repr json_loads missing_column
                          sess config_json (sent ++ [])%list)).
  { rewrite app_nil_r, Hv. reflexivity. }
  subst sent1.
  destruct (reports "is_valid" validation) as [[|]|] eqn:Hvalid; cbn.
  - specialize (Hsave (sent ++ [ProcessingConfigsValidate config_json])%list).
    destruct (save _) as [result sent2]. cbn in Hsave. subst sent2.
    assert (HQ : Q sent [ProcessingConfigsValidate config_json; c]).
    { intros pre c' post cfg Hsplit Hsaves.
      destruct pre as [|x [|y pre]]; cbn in Hsplit.
      - injection Hsplit as <- _. discriminate Hsaves.
      - injection Hsplit as <- <- _. rewrite Hc in Hsaves. injection Hsaves as <-.
        exists []. split; [reflexivity|]. rewrite <- Hval. exact Hvalid.
      - injection Hsplit as _ _ Hsplit. destruct pre; discriminate Hsplit. }
    destruct (reports "success" result) as [[|]|]; cbn.
    + destruct (Hon s (sent ++ [ProcessingConfigsValidate config_json] ++ [c])%list Hs)
        as (new & Hnew & HQnew & Hgo).
      rewrite <- !app_assoc. cbn [app].
      change ([ProcessingConfigsValidate config_json; c])
        with ([ProcessingConfigsValidate config_json] ++ [c])%list.
      exists (([ProcessingConfigsValidate config_json] ++ [c]) ++ new)%list.
      split; [rewrite Hnew, !app_assoc; reflexivity|].
      split; [|exact Hgo].
      apply validated_saves_app; [exact HQ|].
      rewrite app_assoc in HQnew |- *. exact HQnew.
    + exists [ProcessingConfigsValidate config_json; c].
      split; [rewrite <- app_assoc; reflexivity|]. split; [exact HQ|].
      intros a _. exact Hs.
    + exists [ProcessingConfigsValidate config_json; c].
      split; [rewrite <- app_assoc; reflexivity|]. split; [exact HQ|]. discriminate.
  - exists [ProcessingConfigsValidate config_json].
    split; [reflexivity|]. split; [apply validated_saves_single; reflexivity|].
    intros a _. exact Hs.
  - exists [ProcessingConfigsValidate config_json].
    split; [reflexivity|]. split; [apply validated_saves_single; reflexivity|].
    discriminate.
Qed.

Ltac steady_step :=
  first
    [ apply steady_pret; [apply validated_saves_nil]
    | apply steady_crash; [apply validated_saves_nil]
    | apply steady_rerun; [apply validated_saves_nil]
    | apply steady_set_flag_and_rerun; [apply validated_saves_nil]
    | apply steady_item; [apply validated_saves_nil]
    | apply steady_says; [apply validated_saves_nil]
    | apply steady_edit_document; [apply validated_saves_nil]
    | eapply steady_update_file_type_config;
        [apply validated_saves_nil
        | intros ? ?; apply validated_saves_single; reflexivity]
    | eapply steady_remote;
        [intros ?; reflexivity | intros ?; apply validated_saves_single; reflexivity]
    | eapply steady_validate_then; [intros ?; reflexivity | reflexivity | ]
    | apply steady_each; [apply validated_saves_nil | apply validated_saves_app | intros ?]
    | apply steady_when; [apply validated_saves_nil | intros ?]
    | apply steady_get_flag;
        [apply validated_saves_nil | apply validated_saves_app | intros ? ?]
    | apply steady_pbind; [apply validated_saves_app | | intros ?]
    | match goal with
      | |- steady _ _ (match ?x with _ => _ end) => destruct x
      | |- steady _ _ (if ?x then _ else _) => destruct x
      end ].

Lemma steady_choose_model f0 key current :
  steady Q f0 (choose_model float_repr json_loads missing_column sess w key current).
Proof.
  unfold choose_model, model_options, recommended_model, recommended_models, model_index.
  repeat steady_step.
Qed.

Lemma steady_processing_config_entry f0 config :
  steady Q f0
    (processing_config_entry float_repr json_loads missing_column sess w config).
Proof.
  unfold processing_config_entry, edit_processing_config,
    confirm_processing_config_deletion.
  repeat first [ apply steady_choose_model | steady_step ].
Qed.

Lemma steady_render_processing_config_management f0 :
  steady Q f0
    (render_processing_config_management float_repr json_loads missing_column sess w).
Proof.
  unfold render_processing_config_management, create_processing_config_form.
  repeat first [ apply steady_choose_model | apply steady_processing_config_entry
               | steady_step ].
Qed.

Lemma steady_read_document_type f0 config :
  steady Q f0 (read_document_type config).
Proof. unfold read_document_type. repeat steady_step. Qed.

Lemma steady_render_file_type_management f0 :
  steady Q f0
    (render_file_type_management float_repr json_loads missing_column str_upper sess w).
Proof.
  unfold render_file_type_management, file_type_entry, edit_file_type,
    confirm_file_type_deletion, create_file_type.
  repeat first [ apply steady_read_document_type | steady_step ].
Qed.

Lemma steady_file_types f0 file_configs : steady Q f0 (file_types file_configs).
Proof.
  induction file_configs as [|config rest IH]; cbn [file_types].
  - repeat steady_step.
  - repeat first [ exact IH | steady_step ].
Qed.

Lemma steady_find_config f0 selected file_configs :
  steady Q f0 (find_config py_eq selected file_configs).
Proof.
  induction file_configs as [|config rest IH]; cbn [find_config].
  - repeat steady_step.
  - repeat first [ exact IH | steady_step ].
Qed.

Lemma steady_render_pipeline_management f0 :
  steady Q f0
    (render_pipeline_management float_repr json_loads missing_column py_eq sess w).
Proof.
  unfold render_pipeline_management, overview_entry, manage_pipeline, cleanup_pipeline.
  repeat first [ apply steady_read_document_type | apply steady_file_types
               | apply steady_find_config | steady_step ].
Qed.

Lemma steady_main_saves f0 :
  steady Q f0 (main float_repr json_loads missing_column str_upper py_eq sess w).
Proof.
  unfold main.
  repeat first [ apply steady_render_file_type_management
               | apply steady_render_processing_config_management
               | apply steady_render_pipeline_management
               | steady_step ].
Qed.

End ValidateBeforeSave.

(** C8: in every pass of the processing-configuration tab, and of the
    whole page, each call that creates or updates a processing
    configuration comes right after a call that validates the same
    document, and that validation reported [is_valid]; so a save is
    never sent when the validation does not report [is_valid]. *)
Theorem validate_before_save
    (float_repr : string -> string) (json_loads : string -> attempt json)
    (missing_column : string -> string) (str_upper : string -> string)
    (py_eq : json -> json -> bool)
    (sess : session) (w : page_widgets) (s : page_state) (sent : list call) :
  (exists new,
      snd (render_processing_config_management float_repr json_loads missing_column
             sess w s sent) = (sent ++ new)%list
      /\ validated_saves float_repr json_loads missing_column sess sent new)
  /\ (exists new,
         snd (main float_repr json_loads missing_column str_upper py_eq sess w s sent)
         = (sent ++ new)%list
         /\ validated_saves float_repr json_loads missing_column sess sent new).
Proof.
  split.
  - destruct (steady_render_processing_config_management float_repr json_loads
                missing_column sess w (flags s) s sent eq_refl) as (new & H1 & H2 & _).
    exists new. split; assumption.
  - destruct (steady_main_saves float_repr json_loads missing_column str_upper py_eq
                sess w (flags s) s sent eq_refl) as (new & H1 & H2 & _).
    exists new. split; assumption.
Qed.

(** The save button of the edit form, with a validator that accepts and
    one that refuses. *)
Example save_after_validation :
  let w := pressing "save_proc_standard" (showing "show_config_standard" idle) in
  calls_of (render_processing_config_management example_float_repr JsonDecode.loads
              example_missing_column (sample_warehouse true) w)
           (flagged "editing_proc_standard")
  = [ProcessingConfigsGet; GetAvailableModels;
     ProcessingConfigsValidate sample_document;
     ProcessingConfigsUpdate "standard" "CORTEX_SEARCH" "claude-4-sonnet" sample_document]
  /\ calls_of (render_processing_config_management example_float_repr JsonDecode.loads
                 example_missing_column (sample_warehouse false) w)
              (flagged "editing_proc_standard")
     = [ProcessingConfigsGet; GetAvailableModels;
        ProcessingConfigsValidate sample_document].
Proof. split; vm_compute; reflexivity. Qed.

(** The creation form passes the name on as it was typed: a name with a
    quote reaches the call, once the document is validated. *)
Example typed_name_reaches_call :
  exists config_json,
    calls_of (render_processing_config_management example_float_repr JsonDecode.loads
                example_missing_column (sample_warehouse true)
                (pressing "Create Configuration"
                   (showing "show_create_config_form"
                      (typing "Configuration Name:" "O'Brien" idle))))
             fresh
    = [ProcessingConfigsGet; GetAvailableModels;
       ProcessingConfigsValidate config_json;
       ProcessingConfigsCreate "O'Brien" "CORTEX_SEARCH" "claude-4-sonnet" config_json].
Proof. eexists. vm_compute. reflexivity. Qed.

(** ** Deletions and their confirmation *)

Lemma default_false_true (o : option bool) : true = default false o -> o = Some true.
Proof. destruct o as [[|]|]; cbn; congruence. Qed.

Section DeletionGuard.
Variable float_repr : string -> string.
Variable json_loads : string -> attempt json.
Variable missing_column : string -> string.
Variable str_upper : string -> string.
Variable py_eq : json -> json -> bool.
Variable sess : session.
Variable w : page_widgets.
Variable f0 : gmap string bool.

Local Abbreviation G := (all_confirmed f0 w).

Lemma all_confirmed_nil base : G base [].
Proof. constructor. Qed.

Lemma all_confirmed_app base n1 n2 :
  G base n1 -> G (base ++ n1)%list n2 -> G base (n1 ++ n2)%list.
Proof. intros H1 H2. apply Forall_app. split; assumption. Qed.

Lemma all_confirmed_first_part base new more :
  G base (new ++ more)%list -> G base new.
Proof. intros H. apply Forall_app in H. exact (proj1 H). Qed.

Lemma all_confirmed_single base c : confirmed f0 w c -> G base [c].
Proof. intros H. constructor; [exact H|constructor]. Qed.

Ltac confirmed_call :=
  cbn [confirmed];
  first [ exact I
        | split;
          [ apply default_false_true; congruence
          | assumption ] ].

Ltac guard_step :=
  first
    [ apply steady_pret; [apply all_confirmed_nil]
    | apply steady_crash; [apply all_confirmed_nil]
    | apply steady_rerun; [apply all_confirmed_nil]
    | apply steady_set_flag_and_rerun; [apply all_confirmed_nil]
    | apply steady_item; [apply all_confirmed_nil]
    | apply steady_says; [apply all_confirmed_nil]
    | apply steady_edit_document; [apply all_confirmed_nil]
    | eapply steady_update_file_type_config;
        [apply all_confirmed_nil
        | intros ? ?; apply all_confirmed_single; confirmed_call]
    | eapply steady_remote;
        [intros ?; reflexivity | intros ?; apply all_confirmed_single; confirmed_call]
    | apply steady_each; [apply all_confirmed_nil | apply all_confirmed_app | intros ?]
    | apply steady_when; [apply all_confirmed_nil | intros ?]
    | apply steady_get_flag;
        [apply all_confirmed_nil | apply all_confirmed_app | intros ? ?]
    | apply steady_pbind; [apply all_confirmed_app | | intros ?]
    | match goal with
      | |- steady _ _ (match ?x with _ => _ end) => destruct x
      | |- steady _ _ (if ?x then _ else _) => destruct x
      end ].

Lemma guard_read_document_type config :
  steady G f0 (read_document_type config).
Proof. unfold read_document_type. repeat guard_step. Qed.

Lemma guard_render_file_type_management :
  steady G f0
    (render_file_type_management float_repr json_loads missing_column str_upper sess w).
Proof.
  unfold render_file_type_management, file_type_entry, edit_file_type,
    confirm_file_type_deletion, create_file_type.
  repeat first [ apply guard_read_document_type | guard_step ].
Qed.

Lemma guard_render_processing_config_management :
  steady G f0
    (render_processing_config_management float_repr json_loads missing_column sess w).
Proof.
  unfold render_processing_config_management, create_processing_config_form,
    processing_config_entry, edit_processing_config,
    confirm_processing_config_deletion, choose_model, model_options,
    recommended_model, recommended_models, model_index, validate_then.
  repeat guard_step.
Qed.

End DeletionGuard.

(** In the document-type tab and the processing-configuration tab, a
    deletion is sent only in a pass that started with the confirmation
    flag of what it deletes set and in which its confirm button is
    pressed. *)
Lemma deletion_guard
    (float_repr : string -> string) (json_loads : string -> attempt json)
    (missing_column : string -> string) (str_upper : string -> string)
    (sess : session) (w : page_widgets) (s : page_state) (sent : list call) :
  exists new,
    snd (pbind (render_file_type_management float_repr json_loads missing_column
                  str_upper sess w)
           (fun _ => render_processing_config_management float_repr json_loads
                       missing_column sess w) s sent)
    = (sent ++ new)%list
    /\ Forall (confirmed (flags s) w) new.
Proof.
  assert (H : steady (all_confirmed (flags s) w) (flags s)
                (pbind (render_file_type_management float_repr json_loads missing_column
                          str_upper sess w)
                   (fun _ => render_processing_config_management float_repr json_loads
                               missing_column sess w))).
  { apply steady_pbind; [apply all_confirmed_app| |intros _].
    - apply guard_render_file_type_management.
    - apply guard_render_processing_config_management. }
  destruct (H s sent eq_refl) as (new & H1 & H2 & _).
  exists new. split; assumption.
Qed.

(** The cancel buttons of the two confirmations: the flag is reset, the
    pass reruns, and no call is sent. *)
Lemma cancel_deletion
    (float_repr : string -> string) (json_loads : string -> attempt json)
    (missing_column : string -> string)
    (sess : session) (w : page_widgets) (s : page_state) (sent : list call)
    (file_type config_name : string) :
  (button w ("confirm_" ++ file_type) = false ->
   button w ("cancel_delete_" ++ file_type) = true ->
   confirm_file_type_deletion float_repr json_loads missing_column sess w file_type s sent
   = ((Halt Reran,
       {| flags := <["confirm_delete_" ++ file_type := false]> (flags s);
          editors := editors s |}), sent))
  /\ (button w ("confirm_proc_" ++ config_name) = false ->
      button w ("cancel_delete_proc_" ++ config_name) = true ->
      confirm_processing_config_deletion float_repr json_loads missing_column sess w
        config_name s sent
      = ((Halt Reran,
          {| flags := <["confirm_delete_proc_" ++ config_name := false]> (flags s);
             editors := editors s |}), sent)).
Proof.
  split; intros Hconfirm Hcancel.
  - unfold confirm_file_type_deletion, pbind, when. rewrite Hconfirm, Hcancel. reflexivity.
  - unfold confirm_processing_config_deletion, pbind, when.
    rewrite Hconfirm, Hcancel. reflexivity.
Qed.

(** ** Where a confirmation flag comes from *)

Section Provenance.
Variable float_repr : string -> string.
Variable json_loads : string -> attempt json.
Variable missing_column : string -> string.
Variable str_upper : string -> string.
Variable py_eq : json -> json -> bool.
Variable sess : session.
Variable w : page_widgets.

Lemma follows_refl f : follows w f f.
Proof. intros key H. left. exact H. Qed.

Lemma lands_pret {A : Type} (a : A) : lands w (pret a).
Proof. intros s sent. apply follows_refl. Qed.

Lemma lands_crash {A : Type} why : lands w (@crash A why).
Proof. intros s sent. apply follows_refl. Qed.

Lemma lands_rerun {A : Type} : lands w (@rerun A).
Proof. intros s sent. apply follows_refl. Qed.

Lemma lands_get_flag key : lands w (get_flag key).
Proof. intros s sent. apply follows_refl. Qed.

Lemma lands_remote {A : Type} (g : Gateway A) : lands w (remote g).
Proof. intros s sent. unfold remote. destruct (g sent). apply follows_refl. Qed.

Lemma lands_item key config : lands w (item key config).
Proof. unfold item. destruct (PyDict.get key config); [apply lands_pret|apply lands_crash]. Qed.

Lemma lands_says key result : lands w (says key result).
Proof. unfold says. destruct (reports key result); [apply lands_pret|apply lands_crash]. Qed.

Lemma lands_edit_document config_json key_prefix :
  lands w (edit_document float_repr json_loads w config_json key_prefix).
Proof.
  intros s sent. unfold edit_document.
  destruct (render_json_editor _ _ _ _ _) as [e result|[e|e why]|why];
    apply follows_refl.
Qed.

(** A flag that is lowered raises nothing. *)
Lemma lands_lower {A : Type} key : lands w (@set_flag_and_rerun A key false).
Proof.
  intros s sent key' H. cbn in H. left.
  destruct (decide (key = key')) as [<-|Hne].
  - rewrite lookup_insert_eq in H. discriminate H.
  - rewrite lookup_insert_ne in H by exact Hne. exact H.
Qed.

Lemma lands_raise {A : Type} key :
  raises w key -> lands w (@set_flag_and_rerun A key true).
Proof.
  intros Hkey s sent key' H. cbn in H.
  destruct (decide (key = key')) as [<-|Hne].
  - right. exact Hkey.
  - left. rewrite lookup_insert_ne in H by exact Hne. exact H.
Qed.

Lemma lands_pbind {A B : Type} (c : Page A) (k : A -> Page B) :
  lands w c -> (forall a, lands w (k a)) -> lands w (pbind c k).
Proof.
  intros Hc Hk s sent. unfold pbind. specialize (Hc s sent).
  destruct (c s sent) as [[[a|h] s1] sent1]; cbn in Hc |- *.
  - intros key Hkey. destruct (Hk a s1 sent1 key Hkey) as [H|H].
    + exact (Hc key H).
    + right. exact H.
  - exact Hc.
Qed.

Lemma lands_when (b : bool) (c : Page unit) :
  (b = true -> lands w c) -> lands w (when b c).
Proof. intros Hc. destruct b; cbn [when]; [apply Hc; reflexivity|apply lands_pret]. Qed.

Lemma lands_each {A : Type} (body : A -> Page unit) (l : list A) :
  (forall a, lands w (body a)) -> lands w (page_each body l).
Proof.
  intros Hb. induction l as [|a r IH]; cbn [page_each].
  - apply lands_pret.
  - apply lands_pbind; [apply Hb|]. intros u. exact IH.
Qed.

Ltac pressed :=
  match goal with
  | H : button w _ = true |- raises w _ =>
      eexists; first [ left; split; [reflexivity|exact H]
                     | right; split; [reflexivity|exact H] ]
  end.

Ltac lands_step :=
  first
    [ apply lands_pret | apply lands_crash | apply lands_rerun
    | apply lands_get_flag | apply lands_remote | apply lands_item
    | apply lands_says | apply lands_edit_document | apply lands_lower
    | apply lands_raise; pressed
    | apply lands_each; intros ?
    | apply lands_when; intros ?
    | apply lands_pbind; [|intros ?]
    | match goal with
      | |- lands _ (match ?x with _ => _ end) => destruct x
      | |- lands _ (if ?x then _ else _) => destruct x
      end ].

Lemma lands_read_document_type config : lands w (read_document_type config).
Proof. unfold read_document_type. repeat lands_step. Qed.

Lemma lands_render_file_type_management :
  lands w (render_file_type_management float_repr json_loads missing_column str_upper sess w).
Proof.
  unfold render_file_type_management, file_type_entry, edit_file_type,
    confirm_file_type_deletion, create_file_type.
  repeat first [ apply lands_read_document_type | lands_step ].
Qed.

Lemma lands_render_processing_config_management :
  lands w (render_processing_config_management float_repr json_loads missing_column sess w).
Proof.
  unfold render_processing_config_management, create_processing_config_form,
    processing_config_entry, edit_processing_config,
    confirm_processing_config_deletion, choose_model, model_options,
    recommended_model, recommended_models, model_index, validate_then.
  repeat lands_step.
Qed.

Lemma lands_file_types file_configs : lands w (file_types file_configs).
Proof.
  induction file_configs as [|config rest IH]; cbn [file_types].
  - repeat lands_step.
  - repeat first [ exact IH | lands_step ].
Qed.

Lemma lands_find_config selected file_configs :
  lands w (find_config py_eq selected file_configs).
Proof.
  induction file_configs as [|config rest IH]; cbn [find_config].
  - repeat lands_step.
  - repeat first [ exact IH | lands_step ].
Qed.

Lemma lands_render_pipeline_management :
  lands w (render_pipeline_management float_repr json_loads missing_column py_eq sess w).
Proof.
  unfold render_pipeline_management, overview_entry, manage_pipeline, cleanup_pipeline.
  repeat first [ apply lands_read_document_type | apply lands_file_types
               | apply lands_find_config | lands_step ].
Qed.

(** Whatever a pass of the page does, a flag it leaves set was set
    before or was raised by its button in this pass. *)
Lemma lands_main :
  lands w (main float_repr json_loads missing_column str_upper py_eq sess w).
Proof.
  unfold main.
  repeat first [ apply lands_render_file_type_management
               | apply lands_render_processing_config_management
               | apply lands_render_pipeline_management
               | lands_step ].
Qed.

End Provenance.

(** X15: a deletion from the two guarded tabs takes two presses: its
    confirm button in the pass that sends it, and, unless the flag was
    already there, its delete button in the pass before. *)
Lemma deletion_takes_two_presses
    (float_repr : string -> string) (json_loads : string -> attempt json)
    (missing_column : string -> string) (str_upper : string -> string)
    (py_eq : json -> json -> bool)
    (sess : session) (w0 w1 : page_widgets) (s0 : page_state)
    (sent0 sent1 : list call) (file_type : string) (drop_data : bool) :
  let s1 := snd (fst (main float_repr json_loads missing_column str_upper py_eq sess w0 s0 sent0)) in
  In (FileTypeConfigsDelete file_type drop_data)
     (snd (pbind (render_file_type_management float_repr json_loads missing_column
                    str_upper sess w1)
             (fun _ => render_processing_config_management float_repr json_loads
                         missing_column sess w1) s1 sent1)) ->
  ~ In (FileTypeConfigsDelete file_type drop_data) sent1 ->
  button w1 ("confirm_" ++ file_type) = true
  /\ (flags s0 !! ("confirm_delete_" ++ file_type) = Some true
      \/ button w0 ("delete_" ++ file_type) = true).
Proof.
  intros s1 Hin Hnew.
  destruct (deletion_guard float_repr json_loads missing_column str_upper sess w1 s1 sent1)
    as (new & Hsnd & Hall).
  rewrite Hsnd in Hin. apply in_app_or in Hin as [Hin|Hin]; [contradiction|].
  rewrite List.Forall_forall in Hall. specialize (Hall _ Hin) as [Hflag Hbutton].
  split; [exact Hbutton|].
  destruct (lands_main float_repr json_loads missing_column str_upper py_eq sess w0
              s0 sent0 _ Hflag) as [H|(name & [[Hk Hb]|[Hk Hb]])].
  - left. exact H.
  - discriminate Hk.
  - right. injection Hk as Hk. change (file_type = name) in Hk. subst name. exact Hb.
Qed.

Lemma config_deletion_takes_two_presses
    (float_repr : string -> string) (json_loads : string -> attempt json)
    (missing_column : string -> string) (str_upper : string -> string)
    (py_eq : json -> json -> bool)
    (sess : session) (w0 w1 : page_widgets) (s0 : page_state)
    (sent0 sent1 : list call) (config_name : string) :
  let s1 := snd (fst (main float_repr json_loads missing_column str_upper py_eq sess w0 s0 sent0)) in
  In (ProcessingConfigsDelete config_name)
     (snd (pbind (render_file_type_management float_repr json_loads missing_column
                    str_upper sess w1)
             (fun _ => render_processing_config_management float_repr json_loads
                         missing_column sess w1) s1 sent1)) ->
  ~ In (ProcessingConfigsDelete config_name) sent1 ->
  button w1 ("confirm_proc_" ++ config_name) = true
  /\ (flags s0 !! ("confirm_delete_proc_" ++ config_name) = Some true
      \/ button w0 ("delete_proc_" ++ config_name) = true).
Proof.
  intros s1 Hin Hnew.
  destruct (deletion_guard float_repr json_loads missing_column str_upper sess w1 s1 sent1)
    as (new & Hsnd & Hall).
  rewrite Hsnd in Hin. apply in_app_or in Hin as [Hin|Hin]; [contradiction|].
  rewrite List.Forall_forall in Hall. specialize (Hall _ Hin) as [Hflag Hbutton].
  split; [exact Hbutton|].
  destruct (lands_main float_repr json_loads missing_column str_upper py_eq sess w0
              s0 sent0 _ Hflag) as [H|(name & [[Hk Hb]|[Hk Hb]])].
  - left. exact H.
  - discriminate Hk.
  - right. injection Hk as Hk. change ("proc_" ++ config_name = name) in Hk.
    subst name. exact Hb.
Qed.

(** C3 at the cleanup of a pipeline: on a first visit, with no
    confirmation flag in the session state, pressing the one button
    [Cleanup Pipeline for INVOICE] sends the deletion of the document
    type in that same pass.  The confirm button of the document-type tab
    is not pressed, and there the same deletion takes two passes. *)
Theorem cleanup_without_confirmation :
  calls_of (main example_float_repr JsonDecode.loads example_missing_column
              (fun s => s) example_py_eq (sample_warehouse true) (pressing "cleanup_INVOICE" idle))
           fresh
  = [FileTypeConfigsGet; ProcessingConfigsGet; FileTypeConfigsGet;
     CheckPipelineStatus "INVOICE"; FileTypeConfigsDelete "INVOICE" false]
  /\ flags fresh !! "confirm_delete_INVOICE" = None
  /\ button (pressing "cleanup_INVOICE" idle) "confirm_INVOICE" = false
  /\ ~ confirmed (flags fresh) (pressing "cleanup_INVOICE" idle)
         (FileTypeConfigsDelete "INVOICE" false)
  /\ calls_of (main example_float_repr JsonDecode.loads example_missing_column
                 (fun s => s) example_py_eq (sample_warehouse true) (pressing "delete_INVOICE" idle))
              fresh
     = [FileTypeConfigsGet]
  /\ calls_of (main example_float_repr JsonDecode.loads example_missing_column
                 (fun s => s) example_py_eq (sample_warehouse true) (pressing "confirm_INVOICE" idle))
              (flagged "confirm_delete_INVOICE")
     = [FileTypeConfigsGet; FileTypeConfigsDelete "INVOICE" false].
Proof.
  split; [vm_compute; reflexivity|].
  split; [reflexivity|].
  split; [reflexivity|].
  split; [intros [H _]; vm_compute in H; discriminate H|].
  split; vm_compute; reflexivity.
Qed.

(** A document type whose chunk size is missing is written as it is
    (lines 312-318), and its buttons work: the pipeline is set up with
    [None] for the size, and the type is deleted once confirmed. *)
Example unsized_document_type :
  let tab w :=
    render_file_type_management example_float_repr JsonDecode.loads
      example_missing_column (fun s => s) unsized_warehouse w in
  calls_of (tab (pressing "setup_INVOICE" idle)) fresh
  = [FileTypeConfigsGet;
     SetupFileProcessingPipeline "INVOICE" JNull (JInt 100) "5 minutes"]
  /\ calls_of (tab (pressing "confirm_INVOICE" idle)) (flagged "confirm_delete_INVOICE")
     = [FileTypeConfigsGet; FileTypeConfigsDelete "INVOICE" false].
Proof. repeat split; vm_compute; reflexivity. Qed.

(* ===================================================================== *)
(** * Further properties of the editor *)
(* ===================================================================== *)

(** ** What a value box shows and what is read back *)

Lemma digits_value_acc d : forall acc,
  PyStr.digits_value (Zpos acc) (NilEmpty.string_of_uint d)
  = Zpos (Pos.of_uint_acc d acc).
Proof.
  induction d as [|d IH|d IH|d IH|d IH|d IH|d IH|d IH|d IH|d IH|d IH]; intros acc;
    cbn [NilEmpty.string_of_uint PyStr.digits_value Pos.of_uint_acc];
    [reflexivity|rewrite <- IH; f_equal; cbn; lia ..].
Qed.

Lemma digits_value_uint d :
  PyStr.digits_value 0 (NilEmpty.string_of_uint d) = Z.of_N (Pos.of_uint d).
Proof.
  induction d as [|d IH|d IH|d IH|d IH|d IH|d IH|d IH|d IH|d IH|d IH];
    cbn [NilEmpty.string_of_uint PyStr.digits_value Pos.of_uint];
    [reflexivity|exact IH|apply digits_value_acc ..].
Qed.

Lemma uint_all_decimal d :
  PyStr.all_chars PyStr.is_decimal (NilEmpty.string_of_uint d) = true.
Proof.
  induction d as [|d IH|d IH|d IH|d IH|d IH|d IH|d IH|d IH|d IH|d IH];
    cbn [NilEmpty.string_of_uint PyStr.all_chars];
    [reflexivity|rewrite IH; reflexivity ..].
Qed.

Lemma uint_minus_digits d :
  d <> Decimal.Nil ->
  CoercionSpec.minus_digits (NilEmpty.string_of_uint d) = true
  /\ CoercionSpec.signed_value (NilEmpty.string_of_uint d) = Z.of_N (Pos.of_uint d).
Proof.
  intros Hd. pose proof (uint_all_decimal d) as Ha. pose proof (digits_value_uint d) as Hv.
  destruct d; [contradiction|..];
    cbn [NilEmpty.string_of_uint] in *;
    (split; [unfold CoercionSpec.minus_digits, PyStr.is_decimal_run; exact Ha|exact Hv]).
Qed.

Lemma int_text_minus_digits (n : Z) :
  CoercionSpec.minus_digits (Json.int_to_string n) = true
  /\ CoercionSpec.signed_value (Json.int_to_string n) = n.
Proof.
  destruct n as [|p|p]; [split; reflexivity| |].
  - unfold Json.int_to_string. cbn [Z.to_int NilZero.string_of_int].
    pose proof (Unsigned.to_uint_nonnil p) as Hd.
    destruct (uint_minus_digits _ Hd) as [H1 H2].
    rewrite Unsigned.of_to in H2.
    unfold NilZero.string_of_uint. destruct (Pos.to_uint p); [contradiction|split; assumption ..].
  - unfold Json.int_to_string. cbn [Z.to_int NilZero.string_of_int].
    pose proof (Unsigned.to_uint_nonnil p) as Hd.
    pose proof (uint_all_decimal (Pos.to_uint p)) as Ha.
    pose proof (digits_value_uint (Pos.to_uint p)) as Hv.
    rewrite Unsigned.of_to in Hv.
    unfold NilZero.string_of_uint. destruct (Pos.to_uint p); [contradiction|..];
      (split; [exact Ha|cbn [CoercionSpec.signed_value]; rewrite Hv; reflexivity]).
Qed.

Lemma bracket_text_kept (c : ascii) (t : string) :
  c = "["%char \/ c = "{"%char ->
  convert_string_to_appropriate_type (JStr (String c t)) = JStr (String c t).
Proof.
  intros Hc. unfold convert_string_to_appropriate_type.
  rewrite try_int_spec, try_float_spec.
  unfold CoercionSpec.minus_int_digits, CoercionSpec.minus_point_number.
  destruct Hc as [-> | ->];
    match goal with
    | |- context [CoercionSpec.minus_digits ?s] =>
        change (CoercionSpec.minus_digits s) with false;
        change (CoercionSpec.strip_minus s) with s;
        change (PyStr.all_chars CoercionSpec.digit_or_point s) with false
    end;
    rewrite andb_false_r; reflexivity.
Qed.

Section Boxes.
Variable float_repr : string -> string.

Lemma nested_text_kept (v : json) :
  is_nested v = true ->
  convert_string_to_appropriate_type (JStr (PyRepr.str float_repr v))
  = JStr (PyRepr.str float_repr v).
Proof.
  destruct v as [| b | n | lit | s | items | fields]; try discriminate; intros _.
  - reflexivity.
  - apply (bracket_text_kept "["). left. reflexivity.
  - apply (bracket_text_kept "{"). right. reflexivity.
Qed.

End Boxes.

(** X1: an integer or a boolean that a value box of the visual editor
    shows comes back as the same integer or boolean when the box is left
    alone: the coercion undoes [str].  The integers are those the program
    can hold, which [str] writes with 4300 digits at most. *)
Theorem scalar_box_round_trip (float_repr : string -> string) :
  (forall n : Z, int_within_str_digits n = true -> kept_by_box float_repr (JInt n))
  /\ (forall b : bool, kept_by_box float_repr (JBool b)).
Proof.
  split.
  - intros n Hn. unfold kept_by_box, convert_string_to_appropriate_type.
    cbn [PyRepr.str PyRepr.repr]. rewrite try_int_spec.
    unfold CoercionSpec.minus_int_digits. unfold int_within_str_digits in Hn. rewrite Hn.
    destruct (int_text_minus_digits n) as [-> ->]. reflexivity.
  - intros [|]; reflexivity.
Qed.

Lemma scalar_box_round_trip_witness :
  kept_by_box example_float_repr (JInt (-1024)).
Proof.
  apply (proj1 (scalar_box_round_trip example_float_repr) (-1024)%Z). reflexivity.
Defined.

(** The bound is needed: the text of an integer of 4301 digits, were one
    held, would come back as text. *)
Example longer_integer_comes_back_as_text :
  int_within_str_digits (10 ^ 4300) = false
  /\ ~ kept_by_box example_float_repr (JInt (10 ^ 4300)).
Proof.
  split; [vm_compute; reflexivity|].
  unfold kept_by_box. vm_compute. discriminate.
Qed.

Section DictLookups.
Context {V : Type}.
Implicit Types (d : list (string * V)) (k : string) (v : V).

Lemma set_get_id k v d : PyDict.get k d = Some v -> PyDict.set k v d = d.
Proof.
  induction d as [|[k' v'] r IH]; cbn [PyDict.get PyDict.set]; [discriminate|].
  destruct (String.eqb k k') eqn:E.
  - intros [= ->]. reflexivity.
  - intros H. rewrite (IH H). reflexivity.
Qed.

Lemma get_of_key k d : In k (PyDict.keys d) -> exists v, PyDict.get k d = Some v.
Proof.
  induction d as [|[k' v'] r IH]; cbn [PyDict.keys map fst In PyDict.get]; [contradiction|].
  intros [<- | H].
  - rewrite String.eqb_refl. eexists. reflexivity.
  - destruct (String.eqb k k'); [eexists; reflexivity|]. apply IH, H.
Qed.

Lemma get_of_pair k v d :
  NoDup (PyDict.keys d) -> In (k, v) d -> PyDict.get k d = Some v.
Proof.
  induction d as [|[k' v'] r IH]; cbn [PyDict.keys map fst In PyDict.get]; [contradiction|].
  intros Hnd [[= -> ->] | H].
  - rewrite String.eqb_refl. reflexivity.
  - apply NoDup_cons in Hnd as [Hk' Hr].
    destruct (String.eqb_spec k k') as [->|_].
    + exfalso. apply Hk'. apply list_elem_of_In. apply (in_map fst _ _ H).
    + apply IH; assumption.
Qed.
End DictLookups.

(** ** A pass of the visual editor in which nothing is touched *)

Section Untouched.
Variable float_repr : string -> string.
Variable json_loads : string -> attempt json.
Variable w : widgets.
Variable d : list (string * json).
Hypothesis Hw : untouched float_repr w d.
Hypothesis Hkept : boxes_keep float_repr d.

Local Abbreviation at_rest := (fun e : editor => config e = JDict d /\ edit_mode e = UIEditor).

Lemma for_each_rest {A : Type} (body : A -> editor -> flow) (l : list A) :
  (forall a, In a l -> forall e, at_rest e -> exists e', body a e = Next e' /\ at_rest e') ->
  forall e, at_rest e -> exists e', for_each body l e = Next e' /\ at_rest e'.
Proof.
  induction l as [|a r IH]; intros Hbody e He; cbn [for_each].
  - exists e. split; [reflexivity|exact He].
  - unfold and_then.
    destruct (Hbody a (or_introl eq_refl) e He) as (e1 & -> & He1).
    apply IH; [|exact He1]. intros b Hb. apply Hbody. right. exact Hb.
Qed.

Lemma with_same_config e : at_rest e -> at_rest (with_config (JDict d) e).
Proof. intros [_ Hm]. split; [reflexivity|exact Hm]. Qed.

Lemma property_rest main_key fields earlier prop_key prop_value e :
  PyDict.get main_key d = Some (JDict fields) ->
  PyDict.get prop_key fields = Some prop_value ->
  existsb (String.eqb (box_key main_key prop_key)) earlier = false ->
  at_rest e ->
  exists e', render_property float_repr w main_key fields earlier prop_key e = Next e'
             /\ at_rest e'.
Proof.
  intros Hk Hp Hfresh He. pose proof He as [Hc Hm].
  destruct Hw as (_ & _ & _ & Hsec).
  destruct (Hsec _ _ Hk) as (_ & _ & _ & Hprops).
  destruct (Hprops _ _ Hp) as (Hname & Hval & Hdel).
  pose proof (Hkept _ _ Hk _ _ Hp) as Hback. unfold kept_by_box in Hback.
  exists (with_config (JDict d) e). split; [|apply with_same_config, He].
  unfold render_property. rewrite Hfresh. unfold and_then.
  assert (H1 : rename_property fields main_key prop_key (property_name w main_key prop_key) e
               = Next e).
  { unfold rename_property, on_sections. rewrite Hc, Hname, String.eqb_refl. reflexivity. }
  rewrite H1.
  assert (H2 : edit_property main_key prop_key (property_value w main_key prop_key) e
               = Next (with_config (JDict d) e)).
  { unfold edit_property, on_sections. rewrite Hc, Hk, Hval, Hback.
    rewrite (set_get_id _ _ _ Hp), (set_get_id _ _ _ Hk). reflexivity. }
  rewrite H2.
  unfold delete_property. rewrite Hdel. reflexivity.
Qed.

Lemma item_rest main_key items i e :
  PyDict.get main_key d = Some (JList items) ->
  (i < length items)%nat ->
  at_rest e ->
  exists e', render_item float_repr w main_key i e = Next e' /\ at_rest e'.
Proof.
  intros Hk Hi He. pose proof He as [Hc Hm].
  destruct Hw as (_ & _ & _ & Hsec).
  destruct (Hsec _ _ Hk) as (_ & _ & _ & Hitems).
  destruct (lookup_lt_is_Some_2 items i Hi) as [item Hitem].
  destruct (Hitems _ _ Hitem) as (Hval & Hdel).
  pose proof (Hkept _ _ Hk _ _ Hitem) as Hback. unfold kept_by_box in Hback.
  exists (with_config (JDict d) e). split; [|apply with_same_config, He].
  unfold render_item, and_then.
  assert (H1 : edit_item main_key i (item_value w main_key i) e
               = Next (with_config (JDict d) e)).
  { unfold edit_item, on_sections. rewrite Hc, Hk, Hval, Hback.
    apply Nat.ltb_lt in Hi. rewrite Hi. unfold list_assign.
    rewrite (list_insert_id _ _ _ Hitem), (set_get_id _ _ _ Hk). reflexivity. }
  rewrite H1.
  unfold delete_item. rewrite Hdel. reflexivity.
Qed.

Lemma touch_counter_rest key e : at_rest e -> at_rest (touch_counter key e).
Proof.
  intros [Hc Hm]. split; [rewrite touch_counter_config|rewrite touch_counter_mode]; assumption.
Qed.

Lemma section_rest current_keys earlier main_key main_value e :
  PyDict.get main_key d = Some main_value ->
  (forall box, In box (section_boxes (main_key, main_value)) -> ~ In box earlier) ->
  at_rest e ->
  exists e', render_section float_repr w current_keys (earlier, (main_key, main_value)) e
             = Next e'
             /\ at_rest e'.
Proof.
  intros Hk Hfresh He. pose proof He as [Hc Hm].
  pose proof Hw as (_ & _ & _ & Hsec).
  destruct (Hsec _ _ Hk) as (Hname & Hdel & Hvalue).
  unfold render_section, and_then.
  assert (H1 : rename_section current_keys main_key (section_name w main_key) e = Next e).
  { unfold rename_section. rewrite Hname, String.eqb_refl. reflexivity. }
  rewrite H1.
  assert (H2 : delete_section float_repr main_key (delete_section_clicked w main_key) e
               = Next e).
  { unfold delete_section. rewrite Hdel. reflexivity. }
  rewrite H2.
  assert (Hsimple : kept_by_box float_repr main_value ->
            simple_value w main_key = PyRepr.str float_repr main_value ->
            exists e', edit_simple main_key (simple_value w main_key) e = Next e'
                       /\ at_rest e').
  { intros Hback Hval. unfold kept_by_box in Hback.
    exists (with_config (JDict d) e). split; [|apply with_same_config, He].
    unfold edit_simple, on_sections. rewrite Hc, Hval, Hback, (set_get_id _ _ _ Hk).
    reflexivity. }
  pose proof (Hkept _ _ Hk) as Hback.
  destruct main_value as [| b | n | lit | s | items | fields];
    try (apply Hsimple; assumption).
  - destruct Hvalue as [Hform _].
    destruct (for_each_rest (render_item float_repr w main_key) (seq 0 (length items)))
      with (e := e) as (e1 & -> & He1); [|exact He|].
    { intros i Hi e0 He0. apply in_seq in Hi. apply (item_rest _ items); [exact Hk|lia|exact He0]. }
    exists (touch_counter (item_form_counter_key main_key) e1).
    split; [|apply touch_counter_rest, He1].
    unfold add_item. specialize (Hform (counter (item_form_counter_key main_key)
      (touch_counter (item_form_counter_key main_key) e1))).
    destruct (add_item_form w main_key _) as [submitted new_item]. cbn [fst] in Hform.
    subst submitted. reflexivity.
  - destruct Hvalue as [Hform _].
    destruct (for_each_rest (render_property float_repr w main_key fields earlier)
                (PyDict.keys fields))
      with (e := e) as (e1 & -> & He1); [|exact He|].
    { intros p Hp e0 He0. destruct (get_of_key _ _ Hp) as [pv Hpv].
      apply (property_rest _ _ _ _ pv); try assumption.
      destruct (existsb _ earlier) eqn:Hused; [|reflexivity].
      apply existsb_exists in Hused as (box & Hbox & Heq).
      apply String.eqb_eq in Heq. subst box.
      exfalso. apply (Hfresh (box_key main_key p)); [|exact Hbox].
      cbn [section_boxes fst snd]. apply in_map, Hp. }
    exists (touch_counter (form_counter_key main_key) e1).
    split; [|apply touch_counter_rest, He1].
    unfold add_property. specialize (Hform (counter (form_counter_key main_key)
      (touch_counter (form_counter_key main_key) e1))).
    destruct (add_property_form w main_key _) as [submitted [new_key new_value]].
    cbn [fst] in Hform. subst submitted. reflexivity.
Qed.

End Untouched.

Lemma seeded_widgets_untouched float_repr d : untouched float_repr (seeded_widgets float_repr d) d.
Proof.
  unfold untouched. cbn [seeded_widgets mode_select switch_to_json_clicked add_section_form
    section_name delete_section_clicked add_property_form property_name property_value
    delete_property_clicked add_item_form item_value delete_item_clicked simple_value fst].
  split; [reflexivity|]. split; [reflexivity|]. split; [intros n; reflexivity|].
  intros k v Hk. rewrite Hk.
  split; [reflexivity|]. split; [reflexivity|].
  destruct v; try reflexivity.
  - split; [intros n; reflexivity|]. intros i item Hi. rewrite Hi. split; reflexivity.
  - split; [intros n; reflexivity|]. intros p pv Hp. rewrite Hp.
    split; [reflexivity|]. split; reflexivity.
Qed.

(** The entries of the loop: a section, and the keys of the rows of the
    sections before it. *)
Lemma with_earlier_split sections : forall earlier entry,
  In entry (with_earlier earlier sections) ->
  exists before after,
    sections = (before ++ snd entry :: after)%list
    /\ fst entry = (earlier ++ flat_map section_boxes before)%list.
Proof.
  induction sections as [|section rest IH]; intros earlier entry; cbn [with_earlier In];
    [contradiction|].
  intros [<-|H].
  - exists [], rest. cbn. rewrite app_nil_r. split; reflexivity.
  - destruct (IH _ _ H) as (before & after & -> & ->).
    exists (section :: before), after. cbn [flat_map app]. rewrite app_assoc.
    split; reflexivity.
Qed.

(** X2: a pass of the visual editor in which nothing is touched returns
    the document it was given, with the text buffer written from it,
    provided every value shown is one its box gives back (integers,
    booleans, texts that do not read as a number or a boolean) and no
    two rows of properties are given the same key. *)
Theorem untouched_pass_keeps_document
    (float_repr : string -> string) (json_loads : string -> attempt json)
    (config_json : json) (w : widgets) (e : editor) (d : list (string * json)) :
  config e = JDict d ->
  edit_mode e = UIEditor ->
  NoDup (PyDict.keys d) ->
  NoDup (flat_map section_boxes d) ->
  untouched float_repr w d ->
  boxes_keep float_repr d ->
  exists e',
    render_json_editor float_repr json_loads config_json (Some e) w = Returned e' (JDict d)
    /\ config e' = JDict d
    /\ json_text e' = Json.dumps_indent2 float_repr (JDict d)
    /\ edit_mode e' = UIEditor.
Proof.
  intros Hc Hm Hnd Hboxes Hw Hkept.
  pose proof Hw as (Hsel & Hswitch & Hform & _).
  unfold render_json_editor, open_editor. rewrite Hsel, Hm. cbn [mode_eqb negb].
  unfold ui_editor. rewrite Hc. unfold and_then.
  destruct (for_each_rest d (render_section float_repr w (PyDict.keys d))
              (with_earlier [] d))
    with (e := e) as (e1 & -> & He1); [|split; assumption|].
  { intros [earlier [k v]] Hin e0 He0.
    destruct (with_earlier_split _ _ _ Hin) as (before & after & Hd & Hearlier).
    cbn [fst snd app] in Hd, Hearlier. subst earlier.
    apply (section_rest float_repr w d Hw Hkept); [| |exact He0].
    - apply get_of_pair; [exact Hnd|]. rewrite Hd. apply in_elt.
    - intros box Hbox Hused. rewrite Hd, flat_map_app in Hboxes. cbn [flat_map] in Hboxes.
      apply NoDup_app in Hboxes as (_ & Hapart & _).
      apply (Hapart box); [apply list_elem_of_In, Hused|].
      apply list_elem_of_In, in_or_app. left. exact Hbox. }
  specialize (Hform (counter section_form_counter_key
                       (touch_counter section_form_counter_key e1))).
  unfold add_section.
  destruct (add_section_form w _) as [submitted [new_key kind]]. cbn [fst] in Hform.
  subst submitted. rewrite Hswitch.
  destruct He1 as [Hc1 Hm1].
  unfold return_config, reserialize. cbn [with_text config].
  rewrite touch_counter_config, Hc1. cbn [copy].
  eexists. split; [reflexivity|].
  cbn [with_text config json_text edit_mode].
  rewrite touch_counter_config, touch_counter_mode, Hc1.
  repeat split. exact Hm1.
Qed.

Lemma sample_sections_keep : boxes_keep example_float_repr sample_sections.
Proof.
  intros k v H. unfold sample_sections in H. cbn [PyDict.get] in H.
  repeat (destruct (String.eqb k _); [injection H as <-|]); [..|discriminate H].
  - reflexivity.
  - intros p pv Hp. cbn [PyDict.get] in Hp.
    repeat (destruct (String.eqb p _); [injection Hp as <-; reflexivity|]).
    discriminate Hp.
  - intros i item Hi. destruct i as [|[|i]]; cbn in Hi; try discriminate Hi;
      injection Hi as <-; reflexivity.
Qed.

Lemma untouched_pass_keeps_document_witness :
  exists e',
    render_json_editor example_float_repr JsonDecode.loads (JDict sample_sections)
      (Some {| config := JDict sample_sections; json_text := EmptyString;
               edit_mode := UIEditor; counters := ∅ |})
      (seeded_widgets example_float_repr sample_sections)
    = Returned e' (JDict sample_sections)
    /\ config e' = JDict sample_sections
    /\ json_text e' = Json.dumps_indent2 example_float_repr (JDict sample_sections)
    /\ edit_mode e' = UIEditor.
Proof.
  apply (untouched_pass_keeps_document example_float_repr JsonDecode.loads
           (JDict sample_sections)
           (seeded_widgets example_float_repr sample_sections)
           {| config := JDict sample_sections; json_text := EmptyString;
              edit_mode := UIEditor; counters := ∅ |}
           sample_sections).
  - reflexivity.
  - reflexivity.
  - unfold sample_sections. cbn [PyDict.keys map fst].
    repeat (apply NoDup_cons; split; [intros H; repeat (apply elem_of_cons in H as [H|H];
      [discriminate H|]); apply elem_of_nil in H; exact H|]).
    apply NoDup_nil. exact I.
  - unfold sample_sections.
    cbn [flat_map section_boxes snd fst PyDict.keys map app box_key].
    repeat (apply NoDup_cons; split; [intros H; repeat (apply elem_of_cons in H as [H|H];
      [discriminate H|]); apply elem_of_nil in H; exact H|]).
    apply NoDup_nil. exact I.
  - apply seeded_widgets_untouched.
  - apply sample_sections_keep.
Defined.

(** Without the last but one condition the pass does not return: the
    row of the second section is refused its key. *)
Example colliding_rows_end_the_pass :
  render_json_editor example_float_repr JsonDecode.loads (JDict colliding_sections)
    (Some {| config := JDict colliding_sections; json_text := EmptyString;
             edit_mode := UIEditor; counters := ∅ |})
    (seeded_widgets example_float_repr colliding_sections)
  = Ended (Crash {| config := JDict colliding_sections; json_text := EmptyString;
                    edit_mode := UIEditor;
                    counters := {[ form_counter_key "a" := 0%nat ]} |}
             "StreamlitDuplicateElementKey").
Proof. vm_compute. reflexivity. Qed.

(** X3: a property that holds [None], a list or a dictionary does not
    survive its box: the box shows [str(value)], and the update of line
    700 stores that text in place of the value. *)
Theorem nested_property_becomes_text
    (float_repr : string -> string) (main_key prop_key : string) (e : editor)
    (d fields : list (string * json)) (v : json) :
  config e = JDict d ->
  PyDict.get main_key d = Some (JDict fields) ->
  PyDict.get prop_key fields = Some v ->
  is_nested v = true ->
  exists d' fields',
    edit_property main_key prop_key (PyRepr.str float_repr v) e
    = Next (with_config (JDict d') e)
    /\ PyDict.get main_key d' = Some (JDict fields')
    /\ PyDict.get prop_key fields' = Some (JStr (PyRepr.str float_repr v))
    /\ JStr (PyRepr.str float_repr v) <> v.
Proof.
  intros Hc Hk Hp Hv.
  eexists _, _. split; [|split; [|split]].
  - unfold edit_property, on_sections. rewrite Hc, Hk.
    rewrite (nested_text_kept float_repr v Hv). reflexivity.
  - apply get_set_same.
  - apply get_set_same.
  - destruct v; discriminate.
Qed.

Lemma nested_property_becomes_text_witness :
  exists d' fields',
    edit_property "extraction_config" "effective_date" "None"
      {| config := JDict sample_sections_with_null; json_text := EmptyString;
         edit_mode := UIEditor; counters := ∅ |}
    = Next (with_config (JDict d')
              {| config := JDict sample_sections_with_null; json_text := EmptyString;
                 edit_mode := UIEditor; counters := ∅ |})
    /\ PyDict.get "extraction_config" d' = Some (JDict fields')
    /\ PyDict.get "effective_date" fields' = Some (JStr "None")
    /\ JStr "None" <> JNull.
Proof.
  apply (nested_property_becomes_text example_float_repr
           "extraction_config" "effective_date"
           {| config := JDict sample_sections_with_null; json_text := EmptyString;
              edit_mode := UIEditor; counters := ∅ |}
           sample_sections_with_null [("effective_date", JNull)] JNull);
    reflexivity.
Defined.

(** ** Sections renamed, deleted and added *)

Section DictChanges.
Context {V : Type}.
Implicit Types (d : list (string * V)) (k : string) (v : V).

Lemma get_none_not_key k d : PyDict.get k d = None <-> ~ In k (PyDict.keys d).
Proof.
  induction d as [|[k' v'] r IH]; cbn [PyDict.get PyDict.keys map fst In].
  - split; [intros _ []|reflexivity].
  - destruct (String.eqb_spec k k') as [->|Hne].
    + split; [discriminate|]. intros H. exfalso. apply H. left. reflexivity.
    + rewrite IH. unfold PyDict.keys. split.
      * intros H [Heq|Hin]; [congruence|exact (H Hin)].
      * intros H Hin. apply H. right. exact Hin.
Qed.

Lemma get_remove_other k k' d :
  k' <> k -> PyDict.get k' (PyDict.remove k d) = PyDict.get k' d.
Proof.
  intros Hne. induction d as [|[k0 v0] r IH]; cbn [PyDict.remove PyDict.get]; [reflexivity|].
  destruct (String.eqb_spec k k0) as [->|Hk].
  - destruct (String.eqb_spec k' k0); [contradiction|reflexivity].
  - cbn [PyDict.get]. rewrite IH. reflexivity.
Qed.

Lemma get_remove_same k d :
  NoDup (PyDict.keys d) -> PyDict.get k (PyDict.remove k d) = None.
Proof.
  induction d as [|[k0 v0] r IH]; cbn [PyDict.remove PyDict.get PyDict.keys map fst];
    [reflexivity|].
  intros [Hk0 Hr]%NoDup_cons.
  destruct (String.eqb_spec k k0) as [->|Hk].
  - apply get_none_not_key. intros Hin. apply Hk0, list_elem_of_In, Hin.
  - cbn [PyDict.get]. destruct (String.eqb_spec k k0); [contradiction|]. apply IH, Hr.
Qed.

Lemma keys_set_new k v d :
  PyDict.get k d = None -> PyDict.keys (PyDict.set k v d) = (PyDict.keys d ++ [k])%list.
Proof.
  induction d as [|[k0 v0] r IH]; cbn [PyDict.get PyDict.set PyDict.keys map fst app];
    [reflexivity|].
  destruct (String.eqb k k0); [discriminate|].
  intros H. cbn [map fst]. f_equal. apply IH, H.
Qed.

Lemma keys_set_old k v d :
  PyDict.mem k d = true -> PyDict.keys (PyDict.set k v d) = PyDict.keys d.
Proof.
  unfold PyDict.mem.
  induction d as [|[k0 v0] r IH]; cbn [PyDict.get PyDict.set PyDict.keys map fst];
    [discriminate|].
  destruct (String.eqb k k0); [reflexivity|].
  intros H. cbn [map fst]. f_equal. apply IH, H.
Qed.

Lemma keys_remove_sub k k' d :
  In k' (PyDict.keys (PyDict.remove k d)) -> In k' (PyDict.keys d).
Proof.
  induction d as [|[k0 v0] r IH]; cbn [PyDict.remove PyDict.keys map fst In]; [trivial|].
  destruct (String.eqb k k0).
  - intros H. right. exact H.
  - cbn [map fst In]. intros [H|H]; [left; exact H|right; apply IH, H].
Qed.
End DictChanges.

(** X4: a section renamed in the visual editor keeps its value under the
    new name, leaves the old name, moves behind all other sections and
    leaves them as they were; the pass reruns with the text buffer as it
    was.  A new name that is the old one or the name of another section
    is ignored. *)
Theorem renamed_section_keeps_value
    (main_key new_main_key : string) (e : editor)
    (d : list (string * json)) (v : json) :
  config e = JDict d ->
  NoDup (PyDict.keys d) ->
  PyDict.get main_key d = Some v ->
  (new_main_key <> main_key /\ ~ In new_main_key (PyDict.keys d) ->
   exists d',
     rename_section (PyDict.keys d) main_key new_main_key e
     = Stop (Rerun (with_config (JDict d') e))
     /\ PyDict.get new_main_key d' = Some v
     /\ PyDict.get main_key d' = None
     /\ (forall k, k <> main_key -> k <> new_main_key ->
                   PyDict.get k d' = PyDict.get k d)
     /\ PyDict.keys d' = (PyDict.keys (PyDict.remove main_key d) ++ [new_main_key])%list)
  /\ (new_main_key = main_key \/ In new_main_key (PyDict.keys d) ->
      rename_section (PyDict.keys d) main_key new_main_key e = Next e).
Proof.
  intros Hc Hnd Hk. split.
  - intros [Hne Hnew].
    assert (Hrest : PyDict.get new_main_key (PyDict.remove main_key d) = None).
    { apply get_none_not_key. intros Hin. apply Hnew. apply (keys_remove_sub main_key), Hin. }
    exists (PyDict.set new_main_key v (PyDict.remove main_key d)).
    split; [|split; [|split; [|split]]].
    + unfold rename_section, on_sections, PyDict.pop.
      destruct (String.eqb_spec new_main_key main_key) as [Heq|_]; [contradiction|].
      destruct (existsb (String.eqb new_main_key) (PyDict.keys d)) eqn:Hex.
      * exfalso. apply existsb_exists in Hex as (k & Hin & Heq).
        apply String.eqb_eq in Heq. subst k. exact (Hnew Hin).
      * cbn [negb andb]. rewrite Hc, Hk. reflexivity.
    + apply get_set_same.
    + rewrite get_set_other by (intros Heq; apply Hne; symmetry; exact Heq).
      apply get_remove_same, Hnd.
    + intros k Hk1 Hk2. rewrite get_set_other by exact Hk2.
      apply get_remove_other, Hk1.
    + apply keys_set_new, Hrest.
  - intros Hsame. unfold rename_section.
    destruct (String.eqb_spec new_main_key main_key) as [Heq|Hne]; [reflexivity|].
    destruct Hsame as [Heq|Hin]; [contradiction|].
    replace (existsb (String.eqb new_main_key) (PyDict.keys d)) with true; [reflexivity|].
    symmetry. apply existsb_exists. exists new_main_key. split; [exact Hin|].
    apply String.eqb_refl.
Qed.

Lemma renamed_section_keeps_value_witness :
  (("limit" : string) <> "search_limit" /\ ~ In "limit" (PyDict.keys [("search_limit", JInt 3)]) ->
   exists d',
     rename_section (PyDict.keys [("search_limit", JInt 3)]) "search_limit" "limit"
       editing_visually
     = Stop (Rerun (with_config (JDict d') editing_visually))
     /\ PyDict.get "limit" d' = Some (JInt 3)
     /\ PyDict.get "search_limit" d' = None
     /\ (forall k, k <> "search_limit" -> k <> "limit" ->
                   PyDict.get k d' = PyDict.get k [("search_limit", JInt 3)])
     /\ PyDict.keys d'
        = (PyDict.keys (PyDict.remove "search_limit" [("search_limit", JInt 3)])
           ++ ["limit"])%list)
  /\ (("limit" : string) = "search_limit"
      \/ In "limit" (PyDict.keys [("search_limit", JInt 3)]) ->
      rename_section (PyDict.keys [("search_limit", JInt 3)]) "search_limit" "limit"
        editing_visually = Next editing_visually).
Proof.
  apply (renamed_section_keeps_value "search_limit" "limit" editing_visually
           [("search_limit", JInt 3)] (JInt 3)).
  - reflexivity.
  - apply NoDup_cons. split; [intros H; apply elem_of_nil in H; exact H|apply NoDup_nil; exact I].
  - reflexivity.
Defined.

Ltac flow_cases H :=
  repeat match type of H with
         | context [match ?x with _ => _ end] => destruct x eqn:?
         | context [if ?x then _ else _] => destruct x eqn:?
         end;
  try discriminate H;
  try (injection H as <-).

Lemma mem_false_get_none {V : Type} k (d : list (string * V)) :
  PyDict.mem k d = false -> PyDict.get k d = None.
Proof. unfold PyDict.mem. destruct (PyDict.get k d); [discriminate|reflexivity]. Qed.

Lemma set_new_keeps {V : Type} k (x : V) (d : list (string * V)) k' v :
  PyDict.mem k d = false -> PyDict.get k' d = Some v ->
  PyDict.get k' (PyDict.set k x d) = Some v.
Proof.
  intros Hnew Hold. rewrite get_set_other; [exact Hold|].
  intros ->. rewrite (mem_false_get_none _ _ Hnew) in Hold. discriminate Hold.
Qed.

(** X5: the add forms of the visual editor never overwrite: when a
    section or a property is added, every section, respectively every
    property of that section, that was there keeps its value, and the
    other sections are as they were; a submitted name that is already
    there changes nothing and the pass goes on. *)
Theorem adding_never_overwrites (float_repr : string -> string) (e : editor) :
  (forall form e',
      add_section float_repr form e = Stop (Rerun e') ->
      exists d d',
        config e = JDict d /\ config e' = JDict d'
        /\ forall k v, PyDict.get k d = Some v -> PyDict.get k d' = Some v)
  /\ (forall main_key form e',
         add_property float_repr main_key form e = Stop (Rerun e') ->
         exists d fields d' fields',
           config e = JDict d /\ PyDict.get main_key d = Some (JDict fields)
           /\ config e' = JDict d' /\ PyDict.get main_key d' = Some (JDict fields')
           /\ (forall p v, PyDict.get p fields = Some v -> PyDict.get p fields' = Some v)
           /\ forall k, k <> main_key -> PyDict.get k d' = PyDict.get k d)
  /\ (forall d name kind,
         config e = JDict d -> PyDict.mem name d = true ->
         add_section float_repr (true, (name, kind)) e = Next e)
  /\ (forall d main_key fields name value,
         config e = JDict d -> PyDict.get main_key d = Some (JDict fields) ->
         PyDict.mem name fields = true ->
         add_property float_repr main_key (true, (name, value)) e = Next e).
Proof.
  split; [|split; [|split]].
  - intros [submitted [name kind]] e' H. unfold add_section, on_sections in H.
    destruct submitted; [|discriminate H].
    destruct (config e) as [| | | | | |d] eqn:Hc; try discriminate H.
    destruct (negb (PyStr.is_empty name) && negb (PyDict.mem name d)) eqn:Hok;
      [|discriminate H].
    injection H as <-. apply andb_prop in Hok as [_ Hnew]. apply negb_true_iff in Hnew.
    eexists _, _. split; [reflexivity|]. split; [reflexivity|].
    intros k v Hk. apply set_new_keeps; assumption.
  - intros main_key [submitted [name value]] e' H. unfold add_property, on_sections in H.
    destruct submitted; [|discriminate H].
    destruct (config e) as [| | | | | |d] eqn:Hc; try discriminate H.
    destruct (PyDict.get main_key d) as [[| | | | | |fields]|] eqn:Hk; try discriminate H.
    destruct (negb (PyStr.is_empty name) && negb (PyDict.mem name fields)) eqn:Hok;
      [|discriminate H].
    injection H as <-. apply andb_prop in Hok as [_ Hnew]. apply negb_true_iff in Hnew.
    eexists _, _, _, _. split; [reflexivity|]. split; [exact Hk|].
    split; [reflexivity|]. split; [apply get_set_same|]. split.
    + intros p v Hp. apply set_new_keeps; assumption.
    + intros k Hne. apply get_set_other, Hne.
  - intros d name kind Hc Hmem. unfold add_section, on_sections.
    rewrite Hc, Hmem, andb_false_r. reflexivity.
  - intros d main_key fields name value Hc Hk Hmem. unfold add_property, on_sections.
    rewrite Hc, Hk, Hmem, andb_false_r. reflexivity.
Qed.

Lemma adding_never_overwrites_witness :
  exists e',
    add_section example_float_repr (true, ("notes", SimpleValue)) editing_visually
    = Stop (Rerun e')
    /\ exists d d',
         config editing_visually = JDict d /\ config e' = JDict d'
         /\ forall k v, PyDict.get k d = Some v -> PyDict.get k d' = Some v.
Proof.
  eexists. split; [reflexivity|].
  apply (proj1 (adding_never_overwrites example_float_repr editing_visually)
           (true, ("notes", SimpleValue))).
  reflexivity.
Defined.

(** ** The text editor *)

(** X6: the button [Validate & Apply JSON].  A text that parses to an
    object becomes the document and the buffer is rewritten from it; a
    text that does not parse leaves the document as it was and stays in
    the buffer as typed; a text that parses to anything but an object is
    stored as the document all the same, and the pass then fails at the
    preview. *)
Theorem validate_and_apply
    (float_repr : string -> string) (json_loads : string -> attempt json)
    (config_json : json) (w : widgets) (e : editor) :
  edit_mode e = JSONEditor ->
  mode_select w = JSONEditor ->
  validate_clicked w = true ->
  switch_to_ui_clicked w = false ->
  match json_loads (json_text_area w) with
  | Ok (JDict fields) =>
      exists e',
        render_json_editor float_repr json_loads config_json (Some e) w
        = Returned e' (JDict fields)
        /\ config e' = JDict fields
        /\ json_text e' = Json.dumps_indent2 float_repr (JDict fields)
        /\ edit_mode e' = JSONEditor
  | Ok parsed =>
      exists e' why,
        render_json_editor float_repr json_loads config_json (Some e) w
        = Ended (Crash e' why)
        /\ config e' = parsed
  | Raise _ =>
      forall c, copy (config e) = Some c ->
        exists e',
          render_json_editor float_repr json_loads config_json (Some e) w
          = Returned e' c
          /\ config e' = config e
          /\ json_text e' = json_text_area w
          /\ edit_mode e' = JSONEditor
  end.
Proof.
  intros Hm Hsel Hval Hswitch.
  unfold render_json_editor, open_editor. rewrite Hsel, Hm. cbn [mode_eqb negb].
  unfold json_editor. rewrite Hval, Hswitch.
  destruct (json_loads (json_text_area w)) as [parsed|msg].
  - destruct parsed as [| b | n | lit | s | items | fields];
      try (eexists _, _; split; [reflexivity|];
           destruct (negb (json_text_area w =? json_text e)%string); reflexivity).
    unfold return_config. cbn [with_text with_config config copy].
    eexists. split; [reflexivity|].
    destruct (negb (json_text_area w =? json_text e)%string);
      (split; [reflexivity|]); (split; [reflexivity|]); exact Hm.
  - intros c Hcopy. unfold return_config.
    destruct (String.eqb_spec (json_text_area w) (json_text e)) as [Heq|Hne]; cbn [negb].
    + rewrite Hcopy. eexists. split; [reflexivity|].
      split; [reflexivity|]. split; [symmetry; exact Heq|exact Hm].
    + cbn [with_text config]. rewrite Hcopy. eexists. split; [reflexivity|].
      split; [reflexivity|]. split; [reflexivity|exact Hm].
Qed.

Lemma validate_and_apply_witness :
  exists e',
    render_json_editor example_float_repr JsonDecode.loads sample_document
      (Some editing_broken_text)
      (press_validate (sample_widgets JSONEditor "{}" (fun k => k)))
    = Returned e' (JDict [])
    /\ config e' = JDict []
    /\ json_text e' = Json.dumps_indent2 example_float_repr (JDict [])
    /\ edit_mode e' = JSONEditor.
Proof.
  exact (validate_and_apply example_float_repr JsonDecode.loads sample_document
           (press_validate (sample_widgets JSONEditor "{}" (fun k => k)))
           editing_broken_text eq_refl eq_refl eq_refl eq_refl).
Defined.

(** ** The mode of the editor *)

Section ModeKept.
Variable float_repr : string -> string.
Variable json_loads : string -> attempt json.

Local Abbreviation keeps_mode :=
  (fun f : editor -> flow => forall e, edit_mode (flow_editor (f e)) = edit_mode e).

Ltac mode_cases :=
  intros ?; unfold on_sections;
  repeat match goal with
         | |- context [match ?x with _ => _ end] => destruct x
         | |- context [if ?x then _ else _] => destruct x
         end;
  reflexivity.

Lemma and_then_keeps_mode f g : keeps_mode f -> keeps_mode g -> keeps_mode (and_then f g).
Proof.
  intros Hf Hg e. unfold and_then. specialize (Hf e).
  destruct (f e) as [e1|x]; [|exact Hf].
  cbn [flow_editor] in Hf. rewrite <- Hf. apply Hg.
Qed.

Lemma for_each_keeps_mode {A : Type} (body : A -> editor -> flow) (l : list A) :
  (forall a, keeps_mode (body a)) -> keeps_mode (for_each body l).
Proof.
  intros Hb. induction l as [|a r IH]; cbn [for_each].
  - intros e. reflexivity.
  - apply and_then_keeps_mode; [apply Hb|exact IH].
Qed.

Lemma render_property_keeps_mode w main_key snapshot earlier prop_key :
  keeps_mode (render_property float_repr w main_key snapshot earlier prop_key).
Proof.
  unfold render_property. destruct (existsb _ earlier); [intros e; reflexivity|].
  repeat apply and_then_keeps_mode.
  - unfold rename_property. mode_cases.
  - unfold edit_property. mode_cases.
  - unfold delete_property. mode_cases.
Qed.

Lemma render_item_keeps_mode w main_key i :
  keeps_mode (render_item float_repr w main_key i).
Proof.
  unfold render_item. apply and_then_keeps_mode.
  - unfold edit_item. mode_cases.
  - unfold delete_item. mode_cases.
Qed.

Lemma after_touch_keeps_mode key (f : editor -> flow) :
  keeps_mode f -> keeps_mode (fun e => f (touch_counter key e)).
Proof. intros Hf e. rewrite Hf. apply touch_counter_mode. Qed.

Lemma render_section_keeps_mode w current_keys entry :
  keeps_mode (render_section float_repr w current_keys entry).
Proof.
  destruct entry as [earlier [main_key main_value]]. unfold render_section.
  apply and_then_keeps_mode; [unfold rename_section; mode_cases|].
  apply and_then_keeps_mode; [unfold delete_section; mode_cases|].
  destruct main_value; try (unfold edit_simple; mode_cases).
  - apply and_then_keeps_mode.
    + apply for_each_keeps_mode. intros i. apply render_item_keeps_mode.
    + intros e. rewrite <- (touch_counter_mode (item_form_counter_key main_key) e).
      generalize (touch_counter (item_form_counter_key main_key) e). intros e1.
      unfold add_item.
      destruct (add_item_form w main_key _) as [submitted new_item]. revert e1. mode_cases.
  - apply and_then_keeps_mode.
    + apply for_each_keeps_mode. intros p. apply render_property_keeps_mode.
    + intros e. rewrite <- (touch_counter_mode (form_counter_key main_key) e).
      generalize (touch_counter (form_counter_key main_key) e). intros e1.
      unfold add_property.
      destruct (add_property_form w main_key _) as [submitted [new_key new_value]].
      revert e1. mode_cases.
Qed.

Lemma ui_editor_keeps_mode w e e' :
  switch_to_json_clicked w = false ->
  state_after (ui_editor float_repr w e) = Some e' ->
  edit_mode e' = edit_mode e.
Proof.
  intros Hswitch. unfold ui_editor.
  destruct (config e) as [| | | | | |current_config];
    try (cbn [state_after]; intros [= <-]; reflexivity).
  assert (Hloop : keeps_mode
            (and_then (for_each (render_section float_repr w (PyDict.keys current_config))
                         (with_earlier [] current_config))
               (fun e1 => add_section float_repr
                            (add_section_form w (counter section_form_counter_key
                               (touch_counter section_form_counter_key e1)))
                            (touch_counter section_form_counter_key e1)))).
  { apply and_then_keeps_mode.
    - apply for_each_keeps_mode. intros s. apply render_section_keeps_mode.
    - intros e1. rewrite <- (touch_counter_mode section_form_counter_key e1).
      generalize (touch_counter section_form_counter_key e1). intros e2.
      unfold add_section.
      destruct (add_section_form w _) as [submitted [new_key kind]]. revert e2. mode_cases. }
  specialize (Hloop e).
  destruct (and_then _ _ e) as [e1|[e1|e1 why]]; cbn [flow_editor] in Hloop.
  - rewrite Hswitch. unfold return_config.
    destruct (copy _); cbn [state_after]; intros [= <-]; exact Hloop.
  - cbn [state_after]. intros [= <-]. exact Hloop.
  - cbn [state_after]. intros [= <-]. exact Hloop.
Qed.

Lemma json_editor_keeps_mode w e e' :
  switch_to_ui_clicked w = false ->
  state_after (json_editor float_repr json_loads w e) = Some e' ->
  edit_mode e' = edit_mode e.
Proof.
  intros Hswitch. unfold json_editor, return_config. rewrite Hswitch.
  intros H. flow_cases H; reflexivity.
Qed.

End ModeKept.

(** X7: the mode of the editor changes only through the radio or a
    switch button: in a pass in which the radio shows the stored mode and
    neither switch button is pressed, the stored mode is the same
    afterwards, however the pass ends (with its [return], a rerun or an
    exception). *)
Theorem mode_changes_only_by_switch
    (float_repr : string -> string) (json_loads : string -> attempt json)
    (config_json : json) (w : widgets) (e e' : editor) :
  mode_select w = edit_mode e ->
  switch_to_json_clicked w = false ->
  switch_to_ui_clicked w = false ->
  state_after (render_json_editor float_repr json_loads config_json (Some e) w) = Some e' ->
  edit_mode e' = edit_mode e.
Proof.
  intros Hsel Hjson Hui. unfold render_json_editor, open_editor. rewrite Hsel.
  destruct (edit_mode e) eqn:Hm; cbn [mode_eqb negb]; intros H.
  - rewrite <- Hm. exact (ui_editor_keeps_mode float_repr w e e' Hjson H).
  - rewrite <- Hm. exact (json_editor_keeps_mode float_repr json_loads w e e' Hui H).
Qed.

Lemma mode_changes_only_by_switch_witness :
  exists e',
    state_after (render_json_editor example_float_repr JsonDecode.loads sample_document
                   (Some editing_visually)
                   (sample_widgets UIEditor EmptyString (fun _ => "limit")))
    = Some e'
    /\ edit_mode e' = edit_mode editing_visually.
Proof.
  eexists. split; [reflexivity|].
  apply (mode_changes_only_by_switch example_float_repr JsonDecode.loads sample_document
           (sample_widgets UIEditor EmptyString (fun _ => "limit"))
           editing_visually _ eq_refl eq_refl eq_refl).
  reflexivity.
Defined.

(** ** Deleting *)

(** X8: the delete buttons of the visual editor remove what they name
    and nothing else: after a section is deleted its name is gone, the
    other sections are as they were, and the text buffer is written from
    the new document before the pass reruns; the same for a property
    within its section. *)
Theorem deletion_removes_only_its_target
    (float_repr : string -> string) (e : editor) (d : list (string * json)) :
  config e = JDict d ->
  (forall main_key,
      NoDup (PyDict.keys d) ->
      PyDict.mem main_key d = true ->
      exists d',
        delete_section float_repr main_key true e
        = Stop (Rerun (reserialize float_repr (with_config (JDict d') e)))
        /\ PyDict.get main_key d' = None
        /\ forall k, k <> main_key -> PyDict.get k d' = PyDict.get k d)
  /\ (forall main_key prop_key fields,
         PyDict.get main_key d = Some (JDict fields) ->
         NoDup (PyDict.keys fields) ->
         PyDict.mem prop_key fields = true ->
         exists d' fields',
           delete_property float_repr main_key prop_key true e
           = Stop (Rerun (reserialize float_repr (with_config (JDict d') e)))
           /\ PyDict.get main_key d' = Some (JDict fields')
           /\ PyDict.get prop_key fields' = None
           /\ (forall p, p <> prop_key -> PyDict.get p fields' = PyDict.get p fields)
           /\ forall k, k <> main_key -> PyDict.get k d' = PyDict.get k d).
Proof.
  intros Hc. split.
  - intros main_key Hnd Hmem. exists (PyDict.remove main_key d).
    split; [|split].
    + unfold delete_section, on_sections. rewrite Hc, Hmem. reflexivity.
    + apply get_remove_same, Hnd.
    + intros k Hk. apply get_remove_other, Hk.
  - intros main_key prop_key fields Hk Hnd Hmem.
    exists (PyDict.set main_key (JDict (PyDict.remove prop_key fields)) d),
           (PyDict.remove prop_key fields).
    split; [|split; [|split; [|split]]].
    + unfold delete_property, on_sections. rewrite Hc, Hk, Hmem. reflexivity.
    + apply get_set_same.
    + apply get_remove_same, Hnd.
    + intros p Hp. apply get_remove_other, Hp.
    + intros k Hne. apply get_set_other, Hne.
Qed.

Lemma deletion_removes_only_its_target_witness :
  exists d',
    delete_section example_float_repr "search_limit" true editing_visually
    = Stop (Rerun (reserialize example_float_repr (with_config (JDict d') editing_visually)))
    /\ PyDict.get "search_limit" d' = None
    /\ forall k, k <> "search_limit" ->
                 PyDict.get k d' = PyDict.get k [("search_limit", JInt 3)].
Proof.
  apply (proj1 (deletion_removes_only_its_target example_float_repr editing_visually
                  [("search_limit", JInt 3)] eq_refl) "search_limit").
  - apply NoDup_cons. split; [intros H; apply elem_of_nil in H; exact H|apply NoDup_nil; exact I].
  - reflexivity.
Defined.

(* ===================================================================== *)
(** * Further properties of the procedure wrappers *)
(* ===================================================================== *)

Section Answers.
Variable float_repr : string -> string.
Variable json_loads : string -> attempt json.
Variable missing_column : string -> string.

(** ** The list of processing configurations *)

Lemma decode_configs_bad rows :
  Exists (fun r => exists msg, decode_config_json json_loads missing_column r = Raise msg) rows ->
  exists msg, decode_configs json_loads missing_column rows = Raise msg.
Proof.
  induction 1 as [r rest [msg H]|r rest _ [msg IH]]; cbn [decode_configs].
  - rewrite H. exists msg. reflexivity.
  - destruct (decode_config_json json_loads missing_column r) as [r'|m];
      [|exists m; reflexivity].
    cbn [attempt_bind]. rewrite IH. exists msg. reflexivity.
Qed.

Lemma decode_configs_good rows :
  Forall (fun r => exists r', decode_config_json json_loads missing_column r = Ok r') rows ->
  exists configs,
    decode_configs json_loads missing_column rows = Ok configs
    /\ Forall2 (fun r r' => decode_config_json json_loads missing_column r = Ok r')
         rows configs.
Proof.
  induction 1 as [|r rest [r' H] _ (configs & IH & Hall)]; cbn [decode_configs].
  - exists []. split; [reflexivity|constructor].
  - rewrite H. cbn [attempt_bind]. rewrite IH. exists (r' :: configs).
    split; [reflexivity|]. constructor; assumption.
Qed.

Lemma decode_config_json_columns r r' :
  decode_config_json json_loads missing_column r = Ok r' ->
  forall k, k <> "CONFIG_JSON" -> PyDict.get k r' = PyDict.get k r.
Proof.
  unfold decode_config_json, row_item. intros H k Hk.
  destruct (PyDict.get "CONFIG_JSON" r) as [v|]; [|discriminate H].
  cbn [attempt_bind] in H.
  destruct v; try (injection H as <-; reflexivity).
  destruct (json_loads s) as [decoded|msg]; [|discriminate H].
  injection H as <-. apply get_set_other, Hk.
Qed.

End Answers.

(** X9: [get_processing_configs] gives all or nothing.  When every row
    has a [CONFIG_JSON] that is not text or is text that parses, the
    result has one configuration per row, in order, each with its other
    columns as the row had them; when one row has no [CONFIG_JSON] or one
    whose text does not parse, or when the call raises, the result is the
    empty list, whatever the other rows hold. *)
Theorem processing_configs_all_or_nothing
    (float_repr : string -> string) (json_loads : string -> attempt json)
    (missing_column : string -> string) (sess : session) (sent : list call) :
  let configs := fst (get_processing_configs float_repr json_loads missing_column sess sent) in
  match answer float_repr sess sent ProcessingConfigsGet with
  | Raise _ => configs = []
  | Ok rows =>
      (Exists (fun r => exists msg,
                 decode_config_json json_loads missing_column r = Raise msg) rows ->
       configs = [])
      /\ (Forall (fun r => exists r',
                    decode_config_json json_loads missing_column r = Ok r') rows ->
          Forall2 (fun r r' =>
                     decode_config_json json_loads missing_column r = Ok r'
                     /\ forall k, k <> "CONFIG_JSON" -> PyDict.get k r' = PyDict.get k r)
            rows configs)
  end.
Proof.
  intros configs. subst configs. unfold get_processing_configs, gbind, collect, gret.
  cbn [fst]. destruct (answer float_repr sess sent ProcessingConfigsGet) as [rows|msg];
    cbn [attempt_bind]; [|reflexivity].
  split.
  - intros Hbad. destruct (decode_configs_bad json_loads missing_column rows Hbad) as [msg ->].
    reflexivity.
  - intros Hgood.
    destruct (decode_configs_good json_loads missing_column rows Hgood)
      as (configs & -> & Hall).
    clear Hgood. induction Hall as [|r r' rest rest' H _ IH]; [constructor|].
    constructor; [|exact IH].
    split; [exact H|]. apply (decode_config_json_columns json_loads missing_column), H.
Qed.

Lemma processing_configs_all_or_nothing_witness :
  fst (get_processing_configs example_float_repr JsonDecode.loads example_missing_column
         (answering [standard_row; broken_row]) [])
  = [].
Proof.
  apply (proj1 (processing_configs_all_or_nothing example_float_repr JsonDecode.loads
                  example_missing_column (answering [standard_row; broken_row]) [])).
  apply Exists_cons_tl, Exists_cons_hd. eexists. reflexivity.
Defined.

(** ** The answer of a procedure *)

Lemma wrapper_first_row float_repr json_loads missing_column
    (fail : string -> json) (sess : session) (c : call) (sent : list call)
    (r : row) (rest : list row) :
  answer float_repr sess sent c = Ok (r :: rest) ->
  fst (wrapper float_repr json_loads missing_column fail sess c sent)
  = match PyDict.get (procedure c) r with
    | Some (JStr text) =>
        match json_loads text with
        | Ok v => v
        | Raise msg => fail msg
        end
    | Some v => v
    | None => fail (missing_column (procedure c))
    end.
Proof.
  intros H. rewrite wrapper_outcome, H. unfold first_response, row_item.
  cbn [attempt_bind].
  destruct (PyDict.get (procedure c) r) as [v|]; [|reflexivity].
  cbn [attempt_bind]. destruct v; try reflexivity.
  destruct (json_loads s); reflexivity.
Qed.

Lemma envelope_call_first_row float_repr json_loads missing_column
    (sess : session) (c : call) (sent : list call) (r : row) (rest : list row) :
  answers_with_envelope c = true ->
  answer float_repr sess sent c = Ok (r :: rest) ->
  fst (run_envelope_call float_repr json_loads missing_column sess c sent)
  = match PyDict.get (procedure c) r with
    | Some (JStr text) =>
        match json_loads text with
        | Ok v => v
        | Raise msg =>
            match c with CheckPipelineStatus _ => error_only msg | _ => failure msg end
        end
    | Some v => v
    | None =>
        match c with
        | CheckPipelineStatus _ => error_only (missing_column (procedure c))
        | _ => failure (missing_column (procedure c))
        end
    end.
Proof.
  intros Hc H.
  destruct c; try discriminate Hc; cbn [run_envelope_call];
    unfold create_file_type_config, update_file_type_config,
      delete_file_type_config, setup_file_processing_pipeline,
      check_pipeline_status, sync_files, create_processing_config,
      update_processing_config, delete_processing_config;
    rewrite (wrapper_first_row _ _ _ _ _ _ _ _ _ H);
    destruct (PyDict.get _ r) as [[]|]; try reflexivity;
    destruct (json_loads _); reflexivity.
Qed.

(** X10: when a procedure answers with rows, its wrapper returns what
    the first row holds in the column named after the procedure and looks
    at nothing else: a value that is not text is returned as it is, a
    text is returned decoded, and the rows after the first do not count.
    A first row without the column, or with a text that does not parse,
    gives the error envelope with the message of the exception. *)
Theorem wrapper_returns_first_row
    (float_repr : string -> string) (json_loads : string -> attempt json)
    (missing_column : string -> string) (sess : session) (c : call)
    (sent : list call) (r : row) (rest : list row) :
  answers_with_envelope c = true ->
  answer float_repr sess sent c = Ok (r :: rest) ->
  let result := fst (run_envelope_call float_repr json_loads missing_column sess c sent) in
  result = fst (run_envelope_call float_repr json_loads missing_column (answering [r]) c sent)
  /\ (forall v, PyDict.get (procedure c) r = Some v -> is_str v = false -> result = v)
  /\ (forall text v, PyDict.get (procedure c) r = Some (JStr text) ->
                     json_loads text = Ok v -> result = v)
  /\ (forall text msg, PyDict.get (procedure c) r = Some (JStr text) ->
                       json_loads text = Raise msg -> error_envelope msg result)
  /\ (PyDict.get (procedure c) r = None ->
      error_envelope (missing_column (procedure c)) result).
Proof.
  intros Hc H result. subst result.
  rewrite (envelope_call_first_row _ _ _ _ _ _ _ _ Hc H).
  split; [|split; [|split; [|split]]].
  - symmetry. apply (envelope_call_first_row _ _ _ _ _ _ r []); [exact Hc|reflexivity].
  - intros v -> Hv. destruct v; try reflexivity. discriminate Hv.
  - intros text v -> ->. reflexivity.
  - intros text msg -> ->.
    destruct c; try discriminate Hc;
      first [apply failure_is_error_envelope | apply error_only_is_error_envelope].
  - intros ->.
    destruct c; try discriminate Hc;
      first [apply failure_is_error_envelope | apply error_only_is_error_envelope].
Qed.

Lemma wrapper_returns_first_row_witness :
  fst (run_envelope_call example_float_repr JsonDecode.loads example_missing_column
         (answering [[("CHECK_PIPELINE_STATUS", JStr "{}")]; []])
         (CheckPipelineStatus "MSA") [])
  = JDict [].
Proof.
  apply (proj1 (proj2 (proj2 (wrapper_returns_first_row example_float_repr
           JsonDecode.loads example_missing_column
           (answering [[("CHECK_PIPELINE_STATUS", JStr "{}")]; []])
           (CheckPipelineStatus "MSA") [] [("CHECK_PIPELINE_STATUS", JStr "{}")] [[]]
           eq_refl eq_refl))) "{}"); reflexivity.
Defined.

(** ** The choice of the comparison procedure *)

(** X11: [process_documents] sends at most one call, and only for the
    two processing types it knows: [COMPARE_FILES] for [CORTEX_SEARCH],
    [COMPARE_FILES_AISQL] for [AI_EXTRACT], with the documents, the
    [CONFIG_JSON] of the configuration and the model it was given.  For
    any other type, or a configuration without [PROCESSING_TYPE] or
    [CONFIG_JSON], nothing is sent and the result is an [error]
    dictionary that names the type, respectively the missing key. *)
Theorem process_documents_dispatch
    (float_repr : string -> string) (json_loads : string -> attempt json)
    (missing_column : string -> string) (sess : session)
    (file_config : json) (processing_config : row) (model_name : string)
    (sent : list call) :
  let run := process_documents float_repr json_loads missing_column sess
               file_config processing_config model_name sent in
  match PyDict.get "PROCESSING_TYPE" processing_config,
        PyDict.get "CONFIG_JSON" processing_config with
  | None, _ =>
      snd run = sent
      /\ fst run = error_only ("Processing failed: " ++ PyRepr.repr_string "PROCESSING_TYPE")
  | Some _, None =>
      snd run = sent
      /\ fst run = error_only ("Processing failed: " ++ PyRepr.repr_string "CONFIG_JSON")
  | Some processing_type, Some config_json =>
      if is_text "CORTEX_SEARCH" processing_type then
        snd run = (sent ++ [CompareFiles "COMPARE_FILES" file_config config_json model_name])%list
      else if is_text "AI_EXTRACT" processing_type then
        snd run
        = (sent ++ [CompareFiles "COMPARE_FILES_AISQL" file_config config_json model_name])%list
      else
        snd run = sent
        /\ fst run = error_only ("Unknown processing type: "
                                 ++ PyRepr.str float_repr processing_type)
  end.
Proof.
  intros run. subst run. unfold process_documents, process_documents_plan, dict_item.
  destruct (PyDict.get "PROCESSING_TYPE" processing_config) as [processing_type|];
    [|split; reflexivity].
  destruct (PyDict.get "CONFIG_JSON" processing_config) as [config_json|];
    [|split; reflexivity].
  cbn [attempt_bind].
  destruct (is_text "CORTEX_SEARCH" processing_type); [reflexivity|].
  destruct (is_text "AI_EXTRACT" processing_type); [reflexivity|].
  split; reflexivity.
Qed.

(** ** The list of files *)

(** X12: [get_files_by_type] (and [get_processed_files_status], the same
    code) returns one record per row, in the order of the rows, each with
    all its columns as the row had them and [STAGE_PATH] set, also over a
    [STAGE_PATH] column the row already had; when the call raises the
    result is the empty list. *)
Theorem file_listing_keeps_rows
    (float_repr : string -> string) (sess : session) (file_type : string)
    (sent : list call) :
  let files := fst (get_files_by_type float_repr sess file_type sent) in
  snd (get_files_by_type float_repr sess file_type sent)
  = (sent ++ [FilesGetByType file_type])%list
  /\ match answer float_repr sess sent (FilesGetByType file_type) with
     | Raise _ => files = []
     | Ok rows =>
         Forall2 (fun r file_dict =>
                    PyDict.get "STAGE_PATH" file_dict = Some (JStr (stage_path float_repr r))
                    /\ forall k, k <> "STAGE_PATH" -> PyDict.get k file_dict = PyDict.get k r)
           rows files
     end.
Proof.
  intros files. subst files. split; [reflexivity|].
  unfold get_files_by_type, gbind, collect, gret. cbn [fst].
  destruct (answer float_repr sess sent (FilesGetByType file_type)) as [rows|msg];
    [|reflexivity].
  induction rows as [|r rest IH]; cbn [map]; constructor; [|exact IH].
  unfold with_stage_path. split; [apply get_set_same|].
  intros k Hk. apply get_set_other, Hk.
Qed.

(* ===================================================================== *)
(** * Further properties of the configuration page *)
(* ===================================================================== *)

(** ** Every call of a pass *)

Section EveryCall.
Variable P : call -> Prop.

Local Abbreviation every := (fun (base new : list call) => Forall P new).

Lemma every_nil (base : list call) : every base [].
Proof. constructor. Qed.

Lemma every_app (base n1 n2 : list call) :
  every base n1 -> every (base ++ n1)%list n2 -> every base (n1 ++ n2)%list.
Proof. intros H1 H2. apply Forall_app. split; assumption. Qed.

Lemma every_single (base : list call) c : P c -> every base [c].
Proof. intros H. constructor; [exact H|constructor]. Qed.
End EveryCall.

Ltac every_step solve_call :=
  first
    [ apply steady_pret; [apply every_nil]
    | apply steady_crash; [apply every_nil]
    | apply steady_rerun; [apply every_nil]
    | apply steady_set_flag_and_rerun; [apply every_nil]
    | apply steady_item; [apply every_nil]
    | apply steady_says; [apply every_nil]
    | apply steady_edit_document; [apply every_nil]
    | eapply steady_update_file_type_config;
        [apply every_nil | intros ? ?; apply every_single; solve_call]
    | eapply steady_remote;
        [intros ?; reflexivity | intros ?; apply every_single; solve_call]
    | apply steady_each; [apply every_nil | apply every_app | intros ?]
    | apply steady_when; [apply every_nil | intros ?]
    | apply steady_get_flag; [apply every_nil | apply every_app | intros ? ?]
    | apply steady_pbind; [apply every_app | | intros ?]
    | match goal with
      | |- steady _ _ (match ?x with _ => _ end) => destruct x eqn:?
      | |- steady _ _ (if ?x then _ else _) => destruct x eqn:?
      end ].

Ltac button_pressed :=
  cbn [caused_by];
  first [ exact I | assumption | left; assumption | right; assumption ].

Section Causes.
Variable float_repr : string -> string.
Variable json_loads : string -> attempt json.
Variable missing_column : string -> string.
Variable str_upper : string -> string.
Variable py_eq : json -> json -> bool.
Variable sess : session.
Variable w : page_widgets.
Variable f0 : gmap string bool.

Local Abbreviation B := (fun (base new : list call) => Forall (caused_by w) new).

Lemma caused_read_document_type config :
  steady B f0 (read_document_type config).
Proof. unfold read_document_type. repeat every_step button_pressed. Qed.

Lemma caused_render_file_type_management :
  steady B f0
    (render_file_type_management float_repr json_loads missing_column str_upper sess w).
Proof.
  unfold render_file_type_management, file_type_entry, edit_file_type,
    confirm_file_type_deletion, create_file_type.
  repeat first [ apply caused_read_document_type | every_step button_pressed ].
Qed.

Lemma caused_render_processing_config_management :
  steady B f0
    (render_processing_config_management float_repr json_loads missing_column sess w).
Proof.
  unfold render_processing_config_management, create_processing_config_form,
    processing_config_entry, edit_processing_config,
    confirm_processing_config_deletion, choose_model, model_options,
    recommended_model, recommended_models, model_index, validate_then.
  repeat every_step button_pressed.
Qed.

Lemma caused_file_types file_configs : steady B f0 (file_types file_configs).
Proof.
  induction file_configs as [|config rest IH]; cbn [file_types].
  - repeat every_step button_pressed.
  - repeat first [ exact IH | every_step button_pressed ].
Qed.

Lemma caused_find_config selected file_configs :
  steady B f0 (find_config py_eq selected file_configs).
Proof.
  induction file_configs as [|config rest IH]; cbn [find_config].
  - repeat every_step button_pressed.
  - repeat first [ exact IH | every_step button_pressed ].
Qed.

Lemma caused_render_pipeline_management :
  steady B f0
    (render_pipeline_management float_repr json_loads missing_column py_eq sess w).
Proof.
  unfold render_pipeline_management, overview_entry, manage_pipeline, cleanup_pipeline.
  repeat first [ apply caused_read_document_type | apply caused_file_types
               | apply caused_find_config | every_step button_pressed ].
Qed.

Lemma caused_main :
  steady B f0 (main float_repr json_loads missing_column str_upper py_eq sess w).
Proof.
  unfold main.
  repeat first [ apply caused_render_file_type_management
               | apply caused_render_processing_config_management
               | apply caused_render_pipeline_management
               | every_step button_pressed ].
Qed.

End Causes.

(** X13: in every pass of the configuration page, each call that changes
    the warehouse (create, update, delete, pipeline setup, file sync) is
    sent under its own button, pressed in that pass; so a pass in which
    no button is pressed only reads.  The page never sends the two calls
    of the main page. *)
Theorem every_change_has_its_button
    (float_repr : string -> string) (json_loads : string -> attempt json)
    (missing_column : string -> string) (str_upper : string -> string)
    (py_eq : json -> json -> bool)
    (sess : session) (w : page_widgets) (s : page_state) (sent : list call) :
  exists new,
    snd (main float_repr json_loads missing_column str_upper py_eq sess w s sent)
    = (sent ++ new)%list
    /\ Forall (caused_by w) new
    /\ ((forall key, button w key = false) -> Forall (fun c => reads c = true) new).
Proof.
  destruct (caused_main float_repr json_loads missing_column str_upper py_eq sess w
              (flags s) s sent eq_refl) as (new & Hsent & Hcaused & _).
  exists new. split; [exact Hsent|]. split; [exact Hcaused|].
  intros Hidle. apply (Forall_impl _ _ _ Hcaused).
  intros c Hc. destruct c; cbn [caused_by reads] in *; try reflexivity;
    try contradiction;
    repeat match goal with
           | H : _ \/ _ |- _ => destruct H
           | H : button w ?k = true |- _ => rewrite Hidle in H; discriminate H
           end.
Qed.

Lemma every_change_has_its_button_witness :
  exists new,
    snd (main example_float_repr JsonDecode.loads example_missing_column (fun s => s)
           example_py_eq (sample_warehouse true) idle fresh [])
    = new
    /\ Forall (fun c => reads c = true) new.
Proof.
  destruct (every_change_has_its_button example_float_repr JsonDecode.loads
              example_missing_column (fun s => s) example_py_eq (sample_warehouse true)
              idle fresh [])
    as (new & Hsent & _ & Hreads).
  exists new. split; [exact Hsent|]. apply Hreads. intros key. reflexivity.
Defined.

(** ** What the creation form sends *)

Ltac as_typed :=
  cbn [created_as_typed];
  first
    [ exact I
    | repeat match goal with
             | H : (_ || _) = false |- _ => apply orb_false_elim in H as [? ?]
             | H : negb _ = false |- _ => apply negb_false_iff in H
             end;
      repeat split; first [reflexivity | assumption] ].

Section Creation.
Variable float_repr : string -> string.
Variable json_loads : string -> attempt json.
Variable missing_column : string -> string.
Variable str_upper : string -> string.
Variable py_eq : json -> json -> bool.
Variable sess : session.
Variable w : page_widgets.
Variable f0 : gmap string bool.

Local Abbreviation T := (fun (base new : list call) => Forall (created_as_typed str_upper w) new).

Lemma typed_read_document_type config :
  steady T f0 (read_document_type config).
Proof. unfold read_document_type. repeat every_step as_typed. Qed.

Lemma typed_render_file_type_management :
  steady T f0
    (render_file_type_management float_repr json_loads missing_column str_upper sess w).
Proof.
  unfold render_file_type_management, file_type_entry, edit_file_type,
    confirm_file_type_deletion, create_file_type.
  repeat first [ apply typed_read_document_type | every_step as_typed ].
Qed.

Lemma typed_render_processing_config_management :
  steady T f0
    (render_processing_config_management float_repr json_loads missing_column sess w).
Proof.
  unfold render_processing_config_management, create_processing_config_form,
    processing_config_entry, edit_processing_config,
    confirm_processing_config_deletion, choose_model, model_options,
    recommended_model, recommended_models, model_index, validate_then.
  repeat every_step as_typed.
Qed.

Lemma typed_file_types file_configs : steady T f0 (file_types file_configs).
Proof.
  induction file_configs as [|config rest IH]; cbn [file_types].
  - repeat every_step as_typed.
  - repeat first [ exact IH | every_step as_typed ].
Qed.

Lemma typed_find_config selected file_configs :
  steady T f0 (find_config py_eq selected file_configs).
Proof.
  induction file_configs as [|config rest IH]; cbn [find_config].
  - repeat every_step as_typed.
  - repeat first [ exact IH | every_step as_typed ].
Qed.

Lemma typed_render_pipeline_management :
  steady T f0
    (render_pipeline_management float_repr json_loads missing_column py_eq sess w).
Proof.
  unfold render_pipeline_management, overview_entry, manage_pipeline, cleanup_pipeline.
  repeat first [ apply typed_read_document_type | apply typed_file_types
               | apply typed_find_config | every_step as_typed ].
Qed.

Lemma typed_main :
  steady T f0 (main float_repr json_loads missing_column str_upper py_eq sess w).
Proof.
  unfold main.
  repeat first [ apply typed_render_file_type_management
               | apply typed_render_processing_config_management
               | apply typed_render_pipeline_management
               | every_step as_typed ].
Qed.

End Creation.

(** X14: whatever is pressed, a document type is only ever created as
    the creation form holds it and after the checks of the form: the name
    sent is the name typed, in capitals; name and description are not
    empty; and the name, hyphens and underscores apart, is letters and
    digits. *)
Theorem document_type_created_as_typed
    (float_repr : string -> string) (json_loads : string -> attempt json)
    (missing_column : string -> string) (str_upper : string -> string)
    (py_eq : json -> json -> bool)
    (sess : session) (w : page_widgets) (s : page_state) (sent : list call) :
  exists new,
    snd (main float_repr json_loads missing_column str_upper py_eq sess w s sent)
    = (sent ++ new)%list
    /\ Forall (created_as_typed str_upper w) new.
Proof.
  destruct (typed_main float_repr json_loads missing_column str_upper py_eq sess w
              (flags s) s sent eq_refl) as (new & Hsent & Htyped & _).
  exists new. split; assumption.
Qed.

(** The creation form with a name that passes the checks and with one
    that does not. *)
Example document_type_creation :
  let form name :=
    pressing "Create Document Type"
      (typing "File Type:" name (typing "Description:" "Agreements" idle)) in
  calls_of (render_file_type_management example_float_repr JsonDecode.loads
              example_missing_column (fun s => s) (sample_warehouse true) (form "MSA_2"))
           fresh
  = [FileTypeConfigsGet; FileTypeConfigsCreate "MSA_2" "Agreements" 1000 1000 "1 minute"]
  /\ calls_of (render_file_type_management example_float_repr JsonDecode.loads
                 example_missing_column (fun s => s) (sample_warehouse true) (form "MSA 2"))
              fresh
     = [FileTypeConfigsGet].
Proof. split; vm_compute; reflexivity. Qed.

Lemma deletion_takes_two_presses_witness :
  button (pressing "confirm_INVOICE" idle) "confirm_INVOICE" = true
  /\ (flags fresh !! "confirm_delete_INVOICE" = Some true
      \/ button (pressing "delete_INVOICE" idle) "delete_INVOICE" = true).
Proof.
  apply (deletion_takes_two_presses example_float_repr JsonDecode.loads
           example_missing_column (fun s => s) example_py_eq (sample_warehouse true)
           (pressing "delete_INVOICE" idle) (pressing "confirm_INVOICE" idle)
           fresh [] [] "INVOICE" false).
  - vm_compute. right. left. reflexivity.
  - intros [].
Defined.

(* ===================================================================== *)
(** * Properties of the main page *)
(* ===================================================================== *)

(** ** The model preselected *)

Section ModelChoice.
Variable py_eq : json -> json -> bool.

Lemma list_index_found x l i :
  list_index py_eq x l = Some i ->
  exists item, l !! i = Some item /\ py_eq item x = true.
Proof.
  revert i. induction l as [|y r IH]; intros i; cbn [list_index]; [discriminate|].
  destruct (py_eq y x) eqn:E.
  - intros [= <-]. exists y. split; [reflexivity|exact E].
  - destruct (list_index py_eq x r) as [j|]; [|discriminate].
    intros [= <-]. destruct (IH j eq_refl) as (item & H1 & H2).
    exists item. split; assumption.
Qed.

Lemma list_index_none x l :
  list_index py_eq x l = None <-> list_contains py_eq x l = false.
Proof.
  unfold list_contains. induction l as [|y r IH]; cbn [list_index existsb].
  - split; reflexivity.
  - destruct (py_eq y x); [split; discriminate|].
    cbn [orb]. rewrite <- IH.
    destruct (list_index py_eq x r); cbn [option_map]; split; congruence.
Qed.
End ModelChoice.

(** X16: the model select box of the main page always has the model of
    the chosen configuration among its options and preselects it: the
    list offered is the list of the warehouse, with the configuration's
    model put in front when it is not in it, and the preselected index
    points at an option equal to that model. *)
Theorem config_model_is_preselected
    (py_eq : json -> json -> bool) (available_models : list json) (config_model : json) :
  py_eq config_model config_model = true ->
  exists item,
    fst (model_choice py_eq available_models config_model)
      !! snd (model_choice py_eq available_models config_model) = Some item
    /\ py_eq item config_model = true
    /\ (if list_contains py_eq config_model available_models
        then fst (model_choice py_eq available_models config_model) = available_models
        else fst (model_choice py_eq available_models config_model)
             = config_model :: available_models).
Proof.
  intros Hrefl. unfold model_choice.
  destruct (list_index py_eq config_model available_models) as [i|] eqn:Hi.
  - destruct (list_index_found _ _ _ _ Hi) as (item & H1 & H2).
    exists item. split; [exact H1|]. split; [exact H2|].
    destruct (list_contains py_eq config_model available_models) eqn:Hc; [reflexivity|].
    apply list_index_none in Hc. congruence.
  - apply list_index_none in Hi. rewrite Hi. cbn [negb fst snd].
    exists config_model. split; [reflexivity|]. split; [exact Hrefl|reflexivity].
Qed.

Lemma config_model_is_preselected_witness :
  exists item,
    fst (model_choice example_py_eq [JStr "llama3-8b"] (JStr "claude-4-sonnet"))
      !! snd (model_choice example_py_eq [JStr "llama3-8b"] (JStr "claude-4-sonnet"))
    = Some item
    /\ example_py_eq item (JStr "claude-4-sonnet") = true
    /\ fst (model_choice example_py_eq [JStr "llama3-8b"] (JStr "claude-4-sonnet"))
       = [JStr "claude-4-sonnet"; JStr "llama3-8b"].
Proof.
  exact (config_model_is_preselected example_py_eq [JStr "llama3-8b"]
           (JStr "claude-4-sonnet") eq_refl).
Defined.

(** ** The number of documents *)

Lemma cleared_lookup (st : gmap string json) key :
  filter (fun kv => selection_key (fst kv) = false) st !! key
  = if selection_key key then None else st !! key.
Proof.
  destruct (selection_key key) eqn:Hk.
  - apply map_lookup_filter_None_2. right. intros x _. cbn [fst]. congruence.
  - destruct (st !! key) as [x|] eqn:Hx.
    + apply map_lookup_filter_Some_2; [exact Hx|exact Hk].
    + apply map_lookup_filter_None_2. left. exact Hx.
Qed.

(** X17: when the number of documents differs from the one the session
    state holds (or none is held yet), the results shown are discarded
    and every key of a document or file select box is removed from the
    session state, the other keys staying as they are; when the number
    equals the one held, nothing but its own key is written. *)
Theorem changed_number_clears_selection
    (py_eq : json -> json -> bool)
    (num_documents : Z) (st : gmap string json) (sent : list request) :
  let st' := snd (fst (set_num_documents py_eq num_documents st sent)) in
  st' !! "num_documents" = Some (JInt num_documents)
  /\ snd (set_num_documents py_eq num_documents st sent) = sent
  /\ ((exists stored, st !! "num_documents" = Some stored
                      /\ py_eq stored (JInt num_documents) = true) ->
      forall key, key <> "num_documents" -> st' !! key = st !! key)
  /\ ((forall stored, st !! "num_documents" = Some stored ->
                      py_eq stored (JInt num_documents) = false) ->
      st' !! "processing_results" = Some JNull
      /\ (forall key, selection_key key = true -> st' !! key = None)
      /\ forall key, selection_key key = false -> key <> "processing_results" ->
                     key <> "num_documents" -> st' !! key = st !! key).
Proof.
  intros st'. subst st'. unfold set_num_documents. cbn [fst snd].
  split; [apply lookup_insert_eq|]. split; [reflexivity|]. split.
  - intros (stored & Hstored & Hsame) key Hkey. rewrite Hstored, Hsame. cbn [negb].
    apply lookup_insert_ne. congruence.
  - intros Hdiff.
    assert (Hchanged : match st !! "num_documents" with
                       | Some stored => negb (py_eq stored (JInt num_documents))
                       | None => true
                       end = true).
    { destruct (st !! "num_documents") as [stored|]; [|reflexivity].
      rewrite (Hdiff stored eq_refl). reflexivity. }
    rewrite Hchanged. split; [|split].
    + rewrite lookup_insert_ne by discriminate. apply lookup_insert_eq.
    + intros key Hkey.
      rewrite lookup_insert_ne by (intros <-; discriminate Hkey).
      rewrite lookup_insert_ne by (intros <-; discriminate Hkey).
      rewrite cleared_lookup, Hkey. reflexivity.
    + intros key Hkey Hres Hnum.
      rewrite lookup_insert_ne by congruence.
      rewrite lookup_insert_ne by congruence.
      rewrite cleared_lookup, Hkey. reflexivity.
Qed.

Lemma changed_number_clears_selection_witness :
  let st : gmap string json :=
    {[ "num_documents" := JInt 2; "doc_type_0" := JStr "MSA";
       "processing_results" := JDict [("success", JBool true)] ]} in
  snd (fst (set_num_documents example_py_eq 1 st [])) !! "processing_results" = Some JNull
  /\ (forall key, selection_key key = true ->
                  snd (fst (set_num_documents example_py_eq 1 st [])) !! key = None)
  /\ forall key, selection_key key = false -> key <> "processing_results" ->
                 key <> "num_documents" ->
                 snd (fst (set_num_documents example_py_eq 1 st [])) !! key = st !! key.
Proof.
  intros st.
  apply (proj2 (proj2 (proj2 (changed_number_clears_selection example_py_eq 1 st [])))).
  intros stored Hstored. vm_compute in Hstored. injection Hstored as <-. reflexivity.
Defined.

(** ** A logic of the passes of the main page *)

Section Sends.
Variable P : request -> Prop.

Lemma sends_aret {A : Type} (a : A) (R : A -> Prop) : R a -> sends P (aret a) R.
Proof.
  intros HR st sent. exists []. cbn. rewrite app_nil_r.
  split; [reflexivity|]. split; [constructor|]. intros a' [= <-]. exact HR.
Qed.

Lemma sends_ends {A : Type} (f : finish) (R : A -> Prop) : sends P (ends f) R.
Proof.
  intros st sent. exists []. cbn. rewrite app_nil_r.
  split; [reflexivity|]. split; [constructor|]. discriminate.
Qed.

Lemma sends_abind {A B : Type} (c : App A) (k : A -> App B)
    (R1 : A -> Prop) (R2 : B -> Prop) :
  sends P c R1 -> (forall a, R1 a -> sends P (k a) R2) -> sends P (abind c k) R2.
Proof.
  intros Hc Hk st sent. destruct (Hc st sent) as (n1 & Hsent & HP1 & HR1).
  unfold abind. destruct (c st sent) as [[[a|f] st1] sent1]; cbn in Hsent, HR1; subst sent1.
  - destruct (Hk a (HR1 a eq_refl) st1 (sent ++ n1)%list) as (n2 & Hsent2 & HP2 & HR2).
    exists (n1 ++ n2)%list. rewrite Hsent2, app_assoc.
    split; [reflexivity|]. split; [apply Forall_app; split; assumption|exact HR2].
  - exists n1. cbn. split; [reflexivity|]. split; [exact HP1|discriminate].
Qed.

Lemma sends_weaken {A : Type} (c : App A) (R R' : A -> Prop) :
  sends P c R' -> (forall a, R' a -> R a) -> sends P c R.
Proof.
  intros Hc HR st sent. destruct (Hc st sent) as (new & H1 & H2 & H3).
  exists new. split; [exact H1|]. split; [exact H2|].
  intros a Ha. exact (HR a (H3 a Ha)).
Qed.

Lemma sends_quiet {A : Type} (c : App A) (R : A -> Prop) :
  (forall st sent, snd (c st sent) = sent) ->
  (forall st sent a, fst (fst (c st sent)) = Goes a -> R a) ->
  sends P c R.
Proof.
  intros Hq HR st sent. exists []. rewrite app_nil_r.
  split; [apply Hq|]. split; [constructor|]. apply HR.
Qed.

Lemma sends_state_set key v : sends P (state_set key v) (fun _ => True).
Proof. apply sends_quiet; [reflexivity|trivial]. Qed.

Lemma sends_state_get key : sends P (state_get key) (fun _ => True).
Proof. apply sends_quiet; [reflexivity|trivial]. Qed.

Lemma sends_state_default key v : sends P (state_default key v) (fun _ => True).
Proof. apply sends_quiet; [reflexivity|trivial]. Qed.

Lemma sends_set_num_documents py_eq n :
  sends P (set_num_documents py_eq n) (fun _ => True).
Proof. apply sends_quiet; [reflexivity|trivial]. Qed.

Lemma sends_app_item key d :
  sends P (app_item key d) (fun v => PyDict.get key d = Some v).
Proof.
  unfold app_item. destruct (PyDict.get key d) as [v|]; [|apply sends_ends].
  apply sends_aret. reflexivity.
Qed.

(** A wrapper called from a script sends what the wrapper sends. *)
Lemma sends_wrapped {A : Type} (float_repr : string -> string)
    (g : session -> Gateway A) (sess : session) (R : A -> Prop) :
  (forall s, Forall (fun c => P (Procedure c)) (snd (g s [])) /\ R (fst (g s []))) ->
  sends P (request_of (wrapped float_repr g sess)) R.
Proof.
  intros Hg st sent. unfold request_of, wrapped.
  specialize (Hg (seen_by float_repr sess sent)).
  destruct (g (seen_by float_repr sess sent) []) as [a new]. cbn [fst snd] in *.
  destruct Hg as [HP HR].
  exists (map Procedure new). split; [reflexivity|]. split.
  - clear HR. induction HP; constructor; assumption.
  - intros a' [= <-]. exact HR.
Qed.

End Sends.

(** ** The document selector *)

Section Selector.
Variable float_repr : string -> string.
Variable sess : session.
Variable w : app_widgets.
Variable P : request -> Prop.
Hypothesis P_files : forall file_type, P (Procedure (FilesGetByType file_type)).

Lemma sends_keyed_selectbox key fallback options :
  sends P (keyed_selectbox w key fallback options)
    (fun v => v = chosen fallback options (app_selectbox w key)).
Proof.
  apply sends_quiet; [reflexivity|].
  intros st sent a [= <-]. reflexivity.
Qed.

Lemma sends_file_label f : sends P (file_label float_repr f) (fun _ => True).
Proof.
  unfold file_label.
  eapply sends_abind; [apply sends_app_item|]. intros file_name _.
  eapply sends_abind; [apply sends_app_item|]. intros chunk_count _.
  apply sends_aret. exact I.
Qed.

Lemma sends_file_options files : forall options,
  (forall label f, PyDict.get label options = Some f -> has_stage_path f) ->
  Forall has_stage_path files ->
  sends P (file_options float_repr options files)
    (fun options' => forall label f, PyDict.get label options' = Some f -> has_stage_path f).
Proof.
  induction files as [|f rest IH]; intros options Hoptions Hfiles; cbn [file_options].
  - apply sends_aret. exact Hoptions.
  - apply Forall_cons in Hfiles as [Hf Hrest].
    eapply sends_abind; [apply sends_file_label|]. intros label _.
    apply IH; [|exact Hrest].
    intros label' f' H. destruct (String.eqb_spec label' label) as [->|Hne].
    + rewrite get_set_same in H. injection H as <-. exact Hf.
    + rewrite get_set_other in H by exact Hne. exact (Hoptions _ _ H).
Qed.

Lemma listed_files_have_stage_path (s : session) file_type :
  Forall (fun c => P (Procedure c)) (snd (get_files_by_type float_repr s file_type []))
  /\ Forall has_stage_path (fst (get_files_by_type float_repr s file_type [])).
Proof.
  split.
  - constructor; [apply P_files|constructor].
  - unfold get_files_by_type, gbind, collect, gret. cbn [fst].
    destruct (answer float_repr s [] (FilesGetByType file_type)) as [rows|msg];
      [|constructor].
    induction rows as [|r rest IH]; cbn [map]; constructor; [|exact IH].
    unfold has_stage_path, with_stage_path. rewrite get_set_same.
    unfold stage_path. destruct (Json.truthy _); eexists; reflexivity.
Qed.

Lemma sends_render_document_selector index available_types :
  sends P (render_document_selector float_repr sess w index available_types)
    (fun doc_info => forall doc, doc_info = Some doc -> stage_qualified doc).
Proof.
  unfold render_document_selector.
  eapply sends_abind; [apply sends_keyed_selectbox|]. intros doc_type _.
  destruct (negb (is_text "None" doc_type)); [|apply sends_aret; discriminate].
  eapply sends_abind;
    [apply sends_wrapped; intros s; apply listed_files_have_stage_path|].
  intros files Hfiles. destruct files as [|f rest]; [apply sends_aret; discriminate|].
  eapply sends_abind; [apply sends_file_options; [discriminate|exact Hfiles]|].
  intros options Hoptions.
  eapply sends_abind; [apply sends_keyed_selectbox|]. intros selected_file_key _.
  destruct (PyDict.get _ options) as [selected_file|] eqn:Hsel; [|apply sends_ends].
  eapply sends_abind; [apply sends_app_item|]. intros ? _.
  eapply sends_abind; [apply sends_app_item|]. intros ? _.
  eapply sends_abind; [apply sends_app_item|]. intros ? _.
  eapply sends_abind; [apply sends_app_item|]. intros stage_path Hpath.
  apply sends_aret. intros doc [= <-].
  destruct (Hoptions _ _ Hsel) as [path Hp]. rewrite Hp in Hpath. injection Hpath as <-.
  exists path, doc_type. reflexivity.
Qed.

End Selector.

(** X18: the document selector of the main page sends nothing but the
    file listing of the chosen document type, and nothing at all when the
    option chosen is [None] (a document type called [None] included: it
    can never be selected).  A document it returns is named by the stage
    path of a listed file, which starts with [@]. *)
Theorem selected_document_is_stage_qualified
    (float_repr : string -> string) (sess : session) (w : app_widgets)
    (index : nat) (available_types : list json)
    (st : gmap string json) (sent : list request) :
  let pass := render_document_selector float_repr sess w index available_types st sent in
  exists new,
    snd pass = (sent ++ new)%list
    /\ Forall (fun r => exists file_type, r = Procedure (FilesGetByType file_type)) new
    /\ (is_text "None"
          (chosen (JStr "None") (JStr "None" :: available_types)
             (app_selectbox w ("doc_type_" ++ index_text index))) = true ->
        new = [] /\ fst (fst pass) = Goes None)
    /\ forall doc, fst (fst pass) = Goes (Some doc) -> stage_qualified doc.
Proof.
  intros pass. subst pass.
  destruct (sends_render_document_selector float_repr sess w
              (fun r => exists file_type, r = Procedure (FilesGetByType file_type))
              (fun file_type => ex_intro _ file_type eq_refl)
              index available_types st sent) as (new & Hsent & Hnew & Hdoc).
  exists new. split; [exact Hsent|]. split; [exact Hnew|]. split.
  - intros Hnone.
    assert (Hrun : render_document_selector float_repr sess w index available_types st sent
                   = ((Goes None,
                       <["doc_type_" ++ index_text index :=
                           chosen (JStr "None") (JStr "None" :: available_types)
                             (app_selectbox w ("doc_type_" ++ index_text index))]> st),
                      sent)).
    { unfold render_document_selector, keyed_selectbox.
      cbv beta iota zeta delta [abind state_set aret]. rewrite Hnone. reflexivity. }
    rewrite Hrun in Hsent |- *. cbn [fst snd] in Hsent |- *. split; [|reflexivity].
    rewrite <- (app_nil_r sent) in Hsent at 1. symmetry. exact (app_inv_head _ _ _ Hsent).
  - intros doc Hgo. exact (Hdoc _ Hgo doc eq_refl).
Qed.

Lemma selected_document_is_stage_qualified_witness :
  stage_qualified
    (JDict [("file_name", JStr "@MSA_STAGE/contract1.pdf"); ("file_type", JStr "MSA")]).
Proof.
  destruct (selected_document_is_stage_qualified example_float_repr app_warehouse
              (app_idle 1) 0 [JStr "MSA"] ∅ []) as (new & _ & _ & _ & Hdoc).
  apply Hdoc. reflexivity.
Defined.

(** ** The requests of a pass *)

Lemma sends_script {A : Type} (P : request -> Prop) (c : Script A) (R : A -> Prop) :
  (forall sent, exists new,
      snd (c sent) = (sent ++ new)%list /\ Forall P new /\ R (fst (c sent))) ->
  sends P (request_of c) R.
Proof.
  intros Hc st sent. unfold request_of. destruct (Hc sent) as (new & H1 & H2 & H3).
  destruct (c sent) as [a sent']. cbn [fst snd] in *.
  exists new. split; [exact H1|]. split; [exact H2|]. intros a' [= <-]. exact H3.
Qed.

Section RunRequests.
Variable float_repr : string -> string.
Variable json_loads : string -> attempt json.
Variable missing_column : string -> string.
Variable py_eq : json -> json -> bool.
Variable sess : session.
Variable w : app_widgets.

Lemma sends_config_options configs : forall options,
  sends main_page_request (config_options float_repr options configs) (fun _ => True).
Proof.
  induction configs as [|config rest IH]; intros options; cbn [config_options].
  - apply sends_aret. exact I.
  - unfold config_label.
    eapply sends_abind with (R1 := fun _ => True); [|intros label _; apply IH].
    eapply sends_abind; [apply sends_app_item|]. intros ? _.
    eapply sends_abind; [apply sends_app_item|]. intros ? _.
    apply sends_aret. exact I.
Qed.

Lemma sends_select_documents indexes available_types :
  sends main_page_request (select_documents float_repr sess w indexes available_types)
    (Forall stage_qualified).
Proof.
  induction indexes as [|i rest IH]; cbn [select_documents].
  - apply sends_aret. constructor.
  - eapply sends_abind;
      [apply sends_render_document_selector; intros file_type; exact I|].
    intros doc_info Hdoc.
    eapply sends_abind; [exact IH|]. intros others Hothers.
    apply sends_aret. destruct doc_info as [doc|]; [|exact Hothers].
    constructor; [apply (Hdoc doc eq_refl)|exact Hothers].
Qed.

Lemma process_documents_requests (s : session) (docs : list json)
    (processing_config : row) (model_name : string) :
  docs <> [] ->
  Forall stage_qualified docs ->
  Forall (fun c => main_page_request (Procedure c))
    (snd (process_documents float_repr json_loads missing_column s (JList docs)
            processing_config model_name [])).
Proof.
  intros Hne Hdocs.
  unfold process_documents, process_documents_plan, dict_item.
  destruct (PyDict.get "PROCESSING_TYPE" processing_config) as [processing_type|];
    [|constructor].
  destruct (PyDict.get "CONFIG_JSON" processing_config) as [config_json|];
    [|constructor].
  cbn [attempt_bind].
  destruct (is_text "CORTEX_SEARCH" processing_type).
  - constructor; [|constructor]. split; [left; reflexivity|].
    exists docs. split; [reflexivity|]. split; assumption.
  - destruct (is_text "AI_EXTRACT" processing_type); [|constructor].
    constructor; [|constructor]. split; [right; reflexivity|].
    exists docs. split; [reflexivity|]. split; assumption.
Qed.

Lemma sends_model_selection supported_models config_model :
  sends main_page_request (model_selection py_eq w supported_models config_model)
    (fun _ => True).
Proof.
  unfold model_selection, text_choice, keyed_selectbox_value.
  destruct supported_models as [| | | |available_models|supported|];
    try apply sends_ends.
  - eapply sends_abind with (R1 := fun _ => True).
    { destruct config_model; try apply sends_ends.
      destruct (PyStr.has_substring _ _); [apply sends_aret; exact I|apply sends_ends]. }
    intros _ _.
    eapply sends_abind; [apply sends_state_set|]. intros _ _.
    apply sends_aret. exact I.
  - destruct (model_choice py_eq supported config_model)
      as [available_models default_index].
    eapply sends_weaken; [apply sends_keyed_selectbox|]. intros ? _. exact I.
Qed.

Lemma sends_run :
  sends main_page_request (run float_repr json_loads missing_column py_eq sess w) (fun _ => True).
Proof.
  unfold run.
  eapply sends_abind; [apply sends_state_default|]. intros _ _.
  eapply sends_abind; [apply sends_state_default|]. intros _ _.
  eapply sends_abind with (R1 := fun _ => True).
  { apply sends_wrapped. intros s. split; [|exact I].
    constructor; [exact I|constructor]. }
  intros processing_configs _. destruct processing_configs as [|config rest];
    [apply sends_ends|].
  eapply sends_abind; [apply sends_config_options|]. intros options _.
  destruct (PyDict.get _ options) as [selected_config|]; [|apply sends_ends].
  eapply sends_abind with (R1 := fun _ => True).
  { apply sends_wrapped. intros s. split; [|exact I].
    constructor; [exact I|constructor]. }
  intros models_data _.
  destruct (get_or "supported_models" _ models_data) as [supported_models|];
    [|apply sends_ends].
  eapply sends_abind; [apply sends_app_item|]. intros config_model _.
  eapply sends_abind; [apply sends_model_selection|]. intros selected_model _.
  eapply sends_abind; [apply sends_state_set|]. intros _ _.
  eapply sends_abind; [apply sends_app_item|]. intros ? _.
  eapply sends_abind; [apply sends_app_item|]. intros config_json _.
  eapply sends_abind with (R1 := fun _ => True).
  { destruct (get_or "extraction_config" _ config_json) as [[]|];
      first [apply sends_ends | apply sends_aret; exact I]. }
  intros _ _.
  eapply sends_abind; [apply sends_set_num_documents|]. intros _ _.
  eapply sends_abind with (R1 := fun _ => True).
  { apply sends_script. intros sent. exists [AvailableFileTypesGet].
    split; [reflexivity|]. split; [|exact I]. constructor; [exact I|constructor]. }
  intros available_types _. destruct available_types as [|t types]; [apply sends_ends|].
  destruct (_ <=? 0)%Z; [apply sends_ends|].
  eapply sends_abind; [apply sends_select_documents|]. intros selected_documents Hdocs.
  eapply sends_abind with (R1 := fun _ => True).
  { destruct (app_button w _); [|apply sends_aret; exact I].
    destruct selected_documents as [|doc docs] eqn:Hsel; [apply sends_aret; exact I|].
    eapply sends_abind; [apply sends_state_get|]. intros stored _.
    eapply sends_abind with (R1 := fun _ => True).
    { apply sends_wrapped. intros s. split; [|exact I].
      apply process_documents_requests; [discriminate|exact Hdocs]. }
    intros results _.
    eapply sends_abind; [apply sends_state_set|]. intros _ _. apply sends_ends. }
  intros _ _.
  eapply sends_abind with (R1 := fun _ => True).
  { destruct (app_button w "Clear Results"); [|apply sends_aret; exact I].
    eapply sends_abind; [apply sends_state_set|]. intros _ _. apply sends_ends. }
  intros _ _. apply sends_aret. exact I.
Qed.

End RunRequests.

(** X19: whatever the warehouse answers and whatever the widgets
    return, a pass over the main page sends only the four reading
    requests and comparisons; a comparison goes to [COMPARE_FILES] or to
    [COMPARE_FILES_AISQL] and names at least one document, each by a
    stage path that starts with [@].  The page never sends a request
    that creates, changes or deletes a configuration. *)
Theorem main_page_requests
    (float_repr : string -> string) (json_loads : string -> attempt json)
    (missing_column : string -> string) (py_eq : json -> json -> bool)
    (sess : session) (w : app_widgets)
    (st : gmap string json) (sent : list request) :
  exists new,
    snd (run float_repr json_loads missing_column py_eq sess w st sent)
      = (sent ++ new)%list
    /\ Forall main_page_request new.
Proof.
  destruct (sends_run float_repr json_loads missing_column py_eq sess w st sent)
    as (new & Hsent & Hnew & _).
  exists new. split; assumption.
Qed.

(** A pass that presses the button: the comparison is the last of its
    five requests. *)
Example pressed_pass_requests :
  snd (run example_float_repr JsonDecode.loads example_missing_column example_py_eq
         app_warehouse (app_pressing "Analyze Document" (app_idle 1)) ∅ [])
  = [Procedure ProcessingConfigsGet; Procedure GetAvailableModels;
     AvailableFileTypesGet; Procedure (FilesGetByType "MSA");
     Procedure
       (CompareFiles "COMPARE_FILES_AISQL"
          (JList [JDict [("file_name", JStr "@MSA_STAGE/contract1.pdf");
                         ("file_type", JStr "MSA")]])
          (JDict [("search_limit", JInt 3)]) "claude-4-sonnet")].
Proof. vm_compute. reflexivity. Qed.

(** Models that come as one text: the pass goes on when the model of
    the configuration is within the text, and ends at line 464 when it is
    not. *)
Example models_as_text :
  let pass models :=
    run example_float_repr JsonDecode.loads example_missing_column example_py_eq
      (text_models_warehouse models) (app_pressing "Analyze Document" (app_idle 1)) ∅ [] in
  fst (fst (pass "claude-4-sonnet, llama3-8b")) = Ends Reruns
  /\ length (snd (pass "claude-4-sonnet, llama3-8b")) = 5%nat
  /\ fst (fst (pass "llama3-8b"))
     = Ends (Fails "AttributeError: 'str' object has no attribute 'insert'")
  /\ snd (pass "llama3-8b")
     = [Procedure ProcessingConfigsGet; Procedure GetAvailableModels].
Proof. repeat split; vm_compute; reflexivity. Qed.

(** X20: when the configurations cannot be loaded (the call raises, no
    row comes back, or one row has a [CONFIG_JSON] that cannot be read,
    whatever the other rows hold), the pass over the main page stops
    after that one request: no model, document type or file is asked
    for, nothing is compared, and no key of the session state other than
    the two defaults is written. *)
Theorem unreadable_configurations_stop_the_page
    (float_repr : string -> string) (json_loads : string -> attempt json)
    (missing_column : string -> string) (py_eq : json -> json -> bool)
    (sess : session) (w : app_widgets)
    (st : gmap string json) (sent : list request) :
  match answer float_repr (seen_by float_repr sess sent) [] ProcessingConfigsGet with
  | Raise _ => True
  | Ok rows =>
      rows = []
      \/ Exists (fun r => exists msg,
                   decode_config_json json_loads missing_column r = Raise msg) rows
  end ->
  let pass := run float_repr json_loads missing_column py_eq sess w st sent in
  fst (fst pass) = Ends Stops
  /\ snd pass = (sent ++ [Procedure ProcessingConfigsGet])%list
  /\ forall key, key <> "processing_results" -> key <> "selected_files" ->
                 snd (fst pass) !! key = st !! key.
Proof.
  intros Hbad pass. subst pass.
  assert (Hget : get_processing_configs float_repr json_loads missing_column
                   (seen_by float_repr sess sent) []
                 = ([], [ProcessingConfigsGet])).
  { unfold get_processing_configs, gbind, collect, gret.
    destruct (answer float_repr (seen_by float_repr sess sent) [] ProcessingConfigsGet)
      as [rows|msg]; cbn [attempt_bind app]; [|reflexivity].
    destruct Hbad as [->|Hbad]; [reflexivity|].
    destruct (decode_configs_bad json_loads missing_column rows Hbad) as [msg ->].
    reflexivity. }
  unfold run. cbv beta iota zeta delta [abind state_default request_of wrapped].
  rewrite Hget. cbn [map fst snd ends].
  split; [reflexivity|]. split; [reflexivity|].
  intros key Hr Hs.
  destruct (st !! "processing_results") eqn:H1.
  - destruct (st !! "selected_files"); [reflexivity|].
    rewrite lookup_insert_ne; [reflexivity|congruence].
  - destruct (<["processing_results" := JNull]> st !! "selected_files").
    + rewrite lookup_insert_ne; [reflexivity|congruence].
    + rewrite !lookup_insert_ne; [reflexivity|congruence..].
Qed.

Lemma unreadable_configurations_stop_the_page_witness :
  fst (fst (run example_float_repr JsonDecode.loads example_missing_column example_py_eq
              (answering [standard_row; broken_row]) (app_idle 1) ∅ []))
  = Ends Stops.
Proof.
  apply (unreadable_configurations_stop_the_page example_float_repr JsonDecode.loads
           example_missing_column example_py_eq
           (answering [standard_row; broken_row]) (app_idle 1) ∅ []).
  right. apply Exists_cons_tl, Exists_cons_hd. eexists. reflexivity.
Defined.

(* ===================================================================== *)
(** * Properties of the name shown for a file *)
(* ===================================================================== *)

Lemma split_no_separator (s : string) :
  PyStr.contains "/" s = false -> split "/" s = [s].
Proof.
  induction s as [|c r IH]; cbn [PyStr.contains split]; [reflexivity|].
  intros H. apply orb_false_iff in H as [Hc Hr].
  rewrite Ascii.eqb_sym, Hc, (IH Hr). reflexivity.
Qed.

Lemma split_ends_with (dir base : string) :
  PyStr.contains "/" base = false ->
  exists piece pieces, split "/" (dir ++ String "/" base) = piece :: pieces ++ [base].
Proof.
  intros Hbase. induction dir as [|c d (piece & pieces & IH)].
  - exists EmptyString, [].
    change (EmptyString ++ String "/" base) with (String "/" base).
    cbn [split]. rewrite Ascii.eqb_refl, (split_no_separator base Hbase). reflexivity.
  - change (String c d ++ String "/" base) with (String c (d ++ String "/" base)).
    cbn [split]. rewrite IH. destruct (Ascii.eqb c "/").
    + exists EmptyString, (piece :: pieces). reflexivity.
    + exists (String c piece), pieces. reflexivity.
Qed.

Lemma contains_separator (dir base : string) :
  PyStr.contains "/" (dir ++ String "/" base) = true.
Proof.
  induction dir as [|c d IH].
  - reflexivity.
  - change (String c d ++ String "/" base) with (String c (d ++ String "/" base)).
    cbn [PyStr.contains]. rewrite IH. apply orb_true_r.
Qed.

Lemma after_last_slash_base (dir base : string) :
  PyStr.contains "/" base = false ->
  after_last_slash (dir ++ String "/" base) = base.
Proof.
  intros Hbase. unfold after_last_slash. rewrite contains_separator.
  destruct (split_ends_with dir base Hbase) as (piece & pieces & ->).
  change (piece :: pieces ++ [base]) with ((piece :: pieces) ++ [base])%list.
  apply List.last_last.
Qed.

Lemma after_last_slash_plain (s : string) :
  PyStr.contains "/" s = false -> after_last_slash s = s.
Proof. intros H. unfold after_last_slash. rewrite H. reflexivity. Qed.

(** Every text is a plain name or a directory, a slash and a plain name. *)
Lemma slash_cases (s : string) :
  PyStr.contains "/" s = false
  \/ exists dir base, s = dir ++ String "/" base /\ PyStr.contains "/" base = false.
Proof.
  induction s as [|c r IH]; [left; reflexivity|].
  destruct IH as [Hr|(dir & base & -> & Hbase)].
  - destruct (Ascii.eqb "/" c) eqn:Hc.
    + right. exists EmptyString, r. apply Ascii.eqb_eq in Hc as <-. split; [reflexivity|exact Hr].
    + left. cbn [PyStr.contains]. rewrite Hc, Hr. reflexivity.
  - right. exists (String c dir), base. split; [reflexivity|exact Hbase].
Qed.

(** X21: the name shown for a file is what follows its last slash, and
    the whole name when it has no slash; it never holds a slash, and the
    second cut, made for names that start with [@], never changes
    anything. *)
Theorem file_display_is_the_base_name (file_name : string) :
  file_display file_name = after_last_slash file_name
  /\ PyStr.contains "/" (file_display file_name) = false
  /\ (PyStr.contains "/" file_name = false -> file_display file_name = file_name)
  /\ forall dir base,
       file_name = dir ++ String "/" base -> PyStr.contains "/" base = false ->
       file_display file_name = base.
Proof.
  assert (Hcut : PyStr.contains "/" (after_last_slash file_name) = false).
  { destruct (slash_cases file_name) as [H|(dir & base & -> & H)].
    - rewrite after_last_slash_plain; exact H.
    - rewrite after_last_slash_base; exact H. }
  assert (Hsame : file_display file_name = after_last_slash file_name).
  { unfold file_display. destruct (PyStr.startswith "@" (after_last_slash file_name));
      [|reflexivity].
    apply after_last_slash_plain, Hcut. }
  split; [exact Hsame|]. rewrite Hsame. split; [exact Hcut|]. split.
  - apply after_last_slash_plain.
  - intros dir base -> Hbase. apply after_last_slash_base, Hbase.
Qed.

Lemma file_display_is_the_base_name_witness :
  file_display "@MSA_STAGE/2024/contract1.pdf" = "contract1.pdf".
Proof.
  apply (proj2 (proj2 (proj2 (file_display_is_the_base_name
                                "@MSA_STAGE/2024/contract1.pdf")))
           "@MSA_STAGE/2024" "contract1.pdf"); reflexivity.
Defined.

(* ===================================================================== *)
(** * Properties of the stage browser *)
(* ===================================================================== *)

Lemma file_type_options_quiet (file_types : list row) (st : gmap string json)
    (sent : list request) :
  exists p,
    file_type_options file_types st sent = ((p, st), sent)
    /\ forall options, p = Goes options ->
         Forall2 (fun f v => PyDict.get "FILE_TYPE" f = Some v) file_types options.
Proof.
  unfold file_type_options. induction file_types as [|f rest (p & IH & Hp)]; cbn [app_each].
  - exists (Goes []). split; [reflexivity|]. intros options [= <-]. constructor.
  - unfold abind, app_item at 1.
    destruct (PyDict.get "FILE_TYPE" f) as [v|] eqn:Hv.
    + cbn [aret]. rewrite IH. destruct p as [vs|fin].
      * exists (Goes (v :: vs)). split; [reflexivity|].
        intros options [= <-]. constructor; [exact Hv|apply Hp; reflexivity].
      * exists (Ends fin). split; [reflexivity|]. discriminate.
    + exists (Ends (Fails ("KeyError: " ++ "FILE_TYPE"))). split; [reflexivity|]. discriminate.
Qed.

Lemma file_type_options_found (file_types : list row) (options : list json)
    (st : gmap string json) (sent : list request) :
  Forall2 (fun f v => PyDict.get "FILE_TYPE" f = Some v) file_types options ->
  file_type_options file_types st sent = ((Goes options, st), sent).
Proof.
  unfold file_type_options.
  induction 1 as [|f v fs vs Hv _ IH]; cbn [app_each]; [reflexivity|].
  unfold abind, app_item at 1. rewrite Hv. cbn [aret]. rewrite IH. reflexivity.
Qed.

Lemma file_type_options_missing (file_types : list row) (st : gmap string json)
    (sent : list request) :
  Exists (fun f => PyDict.get "FILE_TYPE" f = None) file_types ->
  exists fin, file_type_options file_types st sent = ((Ends fin, st), sent).
Proof.
  intros Hmissing.
  destruct (file_type_options_quiet file_types st sent) as (p & Hrun & Hp).
  destruct p as [options|fin]; [|exists fin; exact Hrun].
  exfalso. specialize (Hp options eq_refl). clear Hrun.
  induction Hp as [|f v fs vs Hv _ IH].
  - inversion Hmissing.
  - inversion Hmissing as [? ? Hnone|? ? Hrest]; subst; [congruence|exact (IH Hrest)].
Qed.

Lemma chosen_is_an_option {A : Type} (fallback x : A) (options : list A) (i : nat) :
  In (chosen fallback (x :: options) i) (x :: options).
Proof.
  unfold chosen. destruct ((x :: options) !! i) as [y|] eqn:Hy.
  - apply list_elem_of_In. eapply list_elem_of_lookup_2, Hy.
  - left. reflexivity.
Qed.

Lemma browser_loads (float_repr : string -> string) (sess : session)
    (st : gmap string json) (sent : list request) :
  request_of (wrapped float_repr (get_file_type_configs float_repr) sess) st sent
  = ((Goes (match reply float_repr sess sent (Procedure FileTypeConfigsGet) with
            | Ok rows => rows
            | Raise _ => []
            end), st), (sent ++ [Procedure FileTypeConfigsGet])%list).
Proof.
  unfold request_of, wrapped, get_file_type_configs, gbind, collect, gret, answer,
    seen_by, reply. cbn [map app]. rewrite app_nil_r. reflexivity.
Qed.

(** X22: what the stage browser sends, told from the answers alone.  It
    first loads the document types.  When that raises, gives no row, or
    gives a row without [FILE_TYPE], nothing else is sent.  Otherwise the
    type chosen is one of the [FILE_TYPE] column; when it is empty
    nothing else is sent, and when it is not the browser asks whether its
    stage exists and lists that stage, with [@] in front, exactly when
    the question was answered with at least one row. *)
Theorem stage_is_listed_only_when_found
    (float_repr : string -> string) (sess : session) (w : app_widgets)
    (st : gmap string json) (sent : list request) :
  let pass := render_stage_file_browser float_repr sess w st sent in
  let loaded := Procedure FileTypeConfigsGet in
  (match reply float_repr sess sent loaded with
   | Ok (_ :: _) => True
   | _ => snd pass = (sent ++ [loaded])%list
   end)
  /\ (forall rows,
         reply float_repr sess sent loaded = Ok rows ->
         Exists (fun f => PyDict.get "FILE_TYPE" f = None) rows ->
         snd pass = (sent ++ [loaded])%list)
  /\ (forall rows options,
         reply float_repr sess sent loaded = Ok rows ->
         rows <> [] ->
         Forall2 (fun f v => PyDict.get "FILE_TYPE" f = Some v) rows options ->
         let file_type := chosen JNull options (app_selectbox w "browse_file_type") in
         let shown := ShowStagesLike (stage_of float_repr file_type) in
         In file_type options
         /\ snd pass
            = (sent ++ loaded ::
                 (if Json.truthy file_type
                  then shown ::
                         match reply float_repr sess (sent ++ [loaded]) shown with
                         | Ok (_ :: _) => [ListStage ("@" ++ stage_of float_repr file_type)]
                         | _ => []
                         end
                  else []))%list).
Proof.
  intros pass loaded. subst pass loaded.
  remember (snd (render_stage_file_browser float_repr sess w st sent)) as out eqn:Hout.
  unfold render_stage_file_browser in Hout. unfold abind at 1 in Hout.
  rewrite browser_loads in Hout.
  split; [|split].
  - destruct (reply float_repr sess sent (Procedure FileTypeConfigsGet)) as [[|f0 rows]|msg];
      [exact Hout|exact I|exact Hout].
  - intros rows Hrows Hmissing. rewrite Hrows in Hout.
    destruct rows as [|f0 rows]; [exact Hout|].
    unfold abind at 1 in Hout.
    destruct (file_type_options_missing (f0 :: rows) st
                (sent ++ [Procedure FileTypeConfigsGet])%list Hmissing) as [fin Hfin].
    rewrite Hfin in Hout. exact Hout.
  - intros rows options Hrows Hne Hcolumn file_type shown. rewrite Hrows in Hout.
    destruct rows as [|f0 rows]; [contradiction Hne; reflexivity|].
    unfold abind at 1 in Hout.
    rewrite (file_type_options_found _ _ st _ Hcolumn) in Hout.
    inversion Hcolumn as [|? v ? vs Hv Hvs]; subst options.
    split; [apply chosen_is_an_option|].
    unfold keyed_selectbox in Hout.
    cbv beta iota zeta delta [abind state_set aret] in Hout.
    fold file_type in Hout.
    destruct (Json.truthy file_type) eqn:Htruthy; [|exact Hout].
    rewrite Hout.
    unfold request_of, check_stage_exists, list_stage_files, sbind, ask, sret.
    fold shown.
    fold (reply float_repr sess (sent ++ [Procedure FileTypeConfigsGet]) shown).
    destruct (reply float_repr sess (sent ++ [Procedure FileTypeConfigsGet]) shown)
      as [[|r rs]|msg];
      cbn [length Nat.ltb Nat.leb snd]; rewrite <- ?app_assoc; reflexivity.
Qed.

Lemma stage_is_listed_only_when_found_witness :
  snd (render_stage_file_browser example_float_repr (upload_warehouse true)
         (app_idle 0) ∅ [])
  = [Procedure FileTypeConfigsGet; ShowStagesLike "MSA_STAGE"; ListStage "@MSA_STAGE"].
Proof.
  destruct (stage_is_listed_only_when_found example_float_repr (upload_warehouse true)
              (app_idle 0) ∅ []) as (_ & _ & Hfound).
  destruct (Hfound [[("FILE_TYPE", JStr "MSA")]] [JStr "MSA"]) as [_ Hsent].
  - reflexivity.
  - discriminate.
  - repeat constructor.
  - exact Hsent.
Defined.

(** The browser over a warehouse where the stage is found, and over one
    where it is not. *)
Example stage_browser_passes :
  snd (render_stage_file_browser example_float_repr (upload_warehouse true)
         (app_idle 0) ∅ [])
  = [Procedure FileTypeConfigsGet; ShowStagesLike "MSA_STAGE"; ListStage "@MSA_STAGE"]
  /\ snd (render_stage_file_browser example_float_repr (upload_warehouse false)
            (app_idle 0) ∅ [])
     = [Procedure FileTypeConfigsGet; ShowStagesLike "MSA_STAGE"].
Proof. split; vm_compute; reflexivity. Qed.

(** X23: the files listed for a stage come one per row of the answer,
    in order, and every one has exactly the four fields [name], [size],
    [last_modified] and [md5]: a column of the row is kept as it is, a
    missing [size] becomes 0 and a missing other column [Unknown].  When
    the listing raises, there is no file. *)
Theorem listed_files_have_four_fields
    (float_repr : string -> string) (sess : session) (file_type : json)
    (sent : list request) :
  let files := fst (list_stage_files float_repr sess file_type sent) in
  Forall (fun f => PyDict.keys f = ["name"; "size"; "last_modified"; "md5"]) files
  /\ match reply float_repr sess sent (ListStage ("@" ++ stage_of float_repr file_type)) with
     | Raise _ => files = []
     | Ok rows =>
         Forall2 (fun r f =>
                    forall k, In k ["name"; "size"; "last_modified"; "md5"] ->
                      PyDict.get k f
                      = Some (match PyDict.get k r with
                              | Some v => v
                              | None => if String.eqb k "size" then JInt 0 else JStr "Unknown"
                              end))
           rows files
     end.
Proof.
  intros files. subst files.
  unfold list_stage_files, sbind, ask, sret. cbn [fst].
  fold (reply float_repr sess sent (ListStage ("@" ++ stage_of float_repr file_type))).
  destruct (reply float_repr sess sent (ListStage ("@" ++ stage_of float_repr file_type)))
    as [rows|msg]; [|split; [constructor|reflexivity]].
  split.
  - induction rows as [|r rest IH]; cbn [map]; constructor; [reflexivity|exact IH].
  - induction rows as [|r rest IH]; cbn [map]; constructor; [|exact IH].
    intros k [<-|[<-|[<-|[<-|[]]]]]; unfold stage_file;
      [destruct (PyDict.get "name" r)|destruct (PyDict.get "size" r)
      |destruct (PyDict.get "last_modified" r)|destruct (PyDict.get "md5" r)];
      reflexivity.
Qed.
